(** * Elera scanbook: barcode rendering and GS1 element strings

    A shallow embedding of the barcode code of the scanbook portal
    (the [Barcode], [DataMatrixBarcode] and [Code128Barcode] components,
    [buildGs1String], [checkDuplicate] and the import dialog) and the
    properties of it that the specification relies on.

    JavaScript strings are modelled by [string]: every character stands
    for one code unit below 256.  JavaScript numbers are modelled by
    the binary64 instance of the Standard Library's [spec_float]. *)

From Stdlib Require Import ZArith NArith PeanoNat List String Ascii Bool Lia.
From Stdlib Require Import QArith Qabs.
From Stdlib Require Import SpecFloat DecimalString ListSet.
Import ListNotations.

Close Scope Q_scope.

Local Open Scope string_scope.

(** ** The JavaScript built-ins the source calls *)

Module JS.

(** *** Strings *)

(** [ToBoolean] on a string: only the empty string is falsy. *)
Definition truthy (s : string) : bool :=
  match s with
  | EmptyString => false
  | String _ _ => true
  end.

(** [a || b] on strings. *)
Definition or_else (a b : string) : string :=
  if truthy a then a else b.

Definition is_digit (c : ascii) : bool :=
  let n := nat_of_ascii c in
  (48 <=? n)%nat && (n <=? 57)%nat.

Fixpoint keep (p : ascii -> bool) (s : string) : string :=
  match s with
  | EmptyString => EmptyString
  | String c r => if p c then String c (keep p r) else keep p r
  end.

(** [s.replace(/[^0-9]/g, '')] *)
Definition strip_non_digits (s : string) : string := keep is_digit s.

(** [s.replace(/-/g, '')] *)
Definition strip_hyphens (s : string) : string :=
  keep (fun c => negb (Ascii.eqb c "-")) s.

(** [s.substring(start)]: the characters from index [start] on. *)
Fixpoint substring_from (start : nat) (s : string) : string :=
  match start, s with
  | O, _ => s
  | S _, EmptyString => EmptyString
  | S k, String _ r => substring_from k r
  end.

(** The filler of [padStart]: the first [n] characters of
    [fillString] repeated; [cur] is what is left of the current copy. *)
Fixpoint filler (n : nat) (cur fillString : string) : string :=
  match n with
  | O => EmptyString
  | S k =>
      match cur with
      | String c r => String c (filler k r fillString)
      | EmptyString =>
          match fillString with
          | String c r => String c (filler k r fillString)
          | EmptyString => EmptyString
          end
      end
  end.

(** [s.padStart(maxLength, fillString)] (ECMAScript StringPad, start). *)
Definition padStart (maxLength : nat) (fillString s : string) : string :=
  let stringLength := String.length s in
  if (maxLength <=? stringLength)%nat then s
  else if negb (truthy fillString) then s
  else filler (maxLength - stringLength) fillString fillString ++ s.

(** [toLowerCase] on code units below 256: A-Z and the Latin-1 capitals
    (U+00C0 to U+00DE, U+00D7 apart) move up by 32. *)
Definition lower_char (c : ascii) : ascii :=
  let n := nat_of_ascii c in
  if ((65 <=? n) && (n <=? 90))%nat then ascii_of_nat (n + 32)
  else if ((192 <=? n) && (n <=? 222) && negb (n =? 215))%nat
       then ascii_of_nat (n + 32)
  else c.

Fixpoint toLowerCase (s : string) : string :=
  match s with
  | EmptyString => EmptyString
  | String c r => String (lower_char c) (toLowerCase r)
  end.

(** *** Numbers *)

(** A JavaScript Number is a binary64 float. *)
Definition number := spec_float.

Definition prec : Z := 53.
Definition emax : Z := 1024.

(** [x * y] *)
Definition mul (x y : number) : number := SFmul prec emax x y.

(** The Number nearest to [(-1)^sign * m * 10^e10] (ties to even). *)
Definition of_decimal (sign : bool) (m : N) (e10 : Z) : number :=
  match m with
  | N0 => S754_zero sign
  | Npos p =>
      match e10 with
      | Z0 => binary_round prec emax sign p 0
      | Zpos k => binary_round prec emax sign (p * Pos.pow 10 k) 0
      | Zneg k =>
          SFdiv prec emax (S754_finite sign p 0)
                (S754_finite false (Pos.pow 10 k) 0)
      end
  end.

(** StrWhiteSpaceChar, as far as it lies below 256. *)
Definition is_space (c : ascii) : bool :=
  let n := nat_of_ascii c in
  ((9 <=? n) && (n <=? 13) || (n =? 32) || (n =? 160))%nat.

Fixpoint skip_spaces (s : string) : string :=
  match s with
  | String c r => if is_space c then skip_spaces r else s
  | EmptyString => s
  end.

Definition digit_value (c : ascii) : N := N_of_ascii c - 48.

(** Reads a run of decimal digits: the number read so far, how many
    digits were read, and the rest of the input. *)
Fixpoint read_digits (s : string) (acc : N) (count : nat)
  : N * nat * string :=
  match s with
  | String c r =>
      if is_digit c
      then read_digits r (10 * acc + digit_value c)%N (S count)
      else (acc, count, s)
  | EmptyString => (acc, count, s)
  end.

Definition read_sign (s : string) : bool * string :=
  match s with
  | String "-" r => (true, r)
  | String "+" r => (false, r)
  | _ => (false, s)
  end.

(** The ExponentPart, when one follows: [e] or [E], an optional sign
    and at least one digit. *)
Definition read_exponent (s : string) : Z :=
  match s with
  | String c r =>
      if Ascii.eqb c "e" || Ascii.eqb c "E" then
        let '(neg, r') := read_sign r in
        let '(v, n, _) := read_digits r' 0%N 0%nat in
        match n with
        | O => 0%Z
        | S _ => if neg then (- Z.of_N v)%Z else Z.of_N v
        end
      else 0%Z
  | EmptyString => 0%Z
  end.

(** [parseFloat(s)]: leading white space is skipped, the longest prefix
    that is a StrDecimalLiteral is read, and [NaN] is returned when
    there is none. *)
Definition parseFloat (input : string) : number :=
  let '(sign, s) := read_sign (skip_spaces input) in
  if prefix "Infinity" s then S754_infinity sign else
  let '(ip, ni, r1) := read_digits s 0%N 0%nat in
  let '(m, nf, r2) :=
    match r1 with
    | String "." r => read_digits r ip 0%nat
    | _ => (ip, 0%nat, r1)
    end in
  match (ni + nf)%nat with
  | O => S754_nan
  | S _ => of_decimal sign m (read_exponent r2 - Z.of_nat nf)
  end.

(** Decimal digits of a natural number, ["0"] for zero. *)
Definition decimal (n : N) : string :=
  NilZero.string_of_uint (N.to_uint n).

(** The integer nearest to [m * 2^e], the larger one at a tie. *)
Definition round_half_up (m : positive) (e : Z) : N :=
  match e with
  | Zneg k => let d := Npos (Pos.pow 2 k) in ((2 * Npos m + d) / (2 * d))%N
  | _ => (Npos m * 2 ^ Z.to_N e)%N
  end.

(** The rational number [m * 2^e], the magnitude of a finite Number. *)
Definition magnitude (m : positive) (e : Z) : Q :=
  match e with
  | Zneg k => Zpos m # Pos.pow 2 k
  | _ => inject_Z (Zpos m * 2 ^ e)
  end.

(** [10^21 <= m * 2^e] *)
Definition at_least_1e21 (m : positive) (e : Z) : bool :=
  match e with
  | Zneg k => (10 ^ 21 * Npos (Pos.pow 2 k) <=? Npos m)%N
  | _ => (10 ^ 21 <=? Npos m * 2 ^ Z.to_N e)%N
  end.

(** Number::toString for an integral Number [x >= 10^21]: the fewest
    digits [s] (at most 17 are ever needed) such that [s * 10^(n-k)]
    reads back as [x], the closest such [s], the even one at a tie;
    written in exponent notation. *)
Section ToStringLarge.
Variable x : number.
Variable X : N.

Definition reads_back (v : N) : bool :=
  match v with
  | N0 => false
  | Npos p => SFeqb (binary_round prec emax false p 0) (SFabs x)
  end.

Definition dist (v : N) : N := if (v <=? X)%N then (X - v)%N else (v - X)%N.

(** The digits chosen with [k] digits, if [k] digits suffice. *)
Definition choose (n k : nat) : option N :=
  let P := (10 ^ N.of_nat (n - k))%N in
  let lo := (X / P)%N in
  let hi := (lo + 1)%N in
  match reads_back (lo * P), reads_back (hi * P) with
  | true, false => Some lo
  | false, true => Some hi
  | false, false => None
  | true, true =>
      match (dist (lo * P) ?= dist (hi * P))%N with
      | Lt => Some lo
      | Gt => Some hi
      | Eq => Some (if N.even lo then lo else hi)
      end
  end.

Fixpoint shortest (fuel : nat) (n k : nat) : N * nat :=
  match fuel with
  | O => ((X / 10 ^ N.of_nat (n - k))%N, k)
  | S fuel' =>
      match choose n k with
      | Some s => (s, k)
      | None => shortest fuel' n (S k)
      end
  end.

Definition exponent_form (s : N) (n : nat) : string :=
  let ds := decimal s in
  let mant :=
    match ds with
    | String c EmptyString => ds
    | String c r => String c ("." ++ r)
    | EmptyString => ds
    end in
  mant ++ "e+" ++ decimal (N.of_nat (n - 1)).

Definition toString_large : string :=
  let n := String.length (decimal X) in
  let '(s, k) := shortest 17 n 1 in
  if (s =? 10 ^ N.of_nat k)%N
  then exponent_form (10 ^ N.of_nat (k - 1))%N (S n)
  else exponent_form s n.
End ToStringLarge.

(** [x.toFixed(0)] *)
Definition toFixed_0 (x : number) : string :=
  match x with
  | S754_nan => "NaN"
  | S754_infinity s => if s then "-Infinity" else "Infinity"
  | S754_zero _ => "0"
  | S754_finite s m e =>
      (if s then "-" else "") ++
      (if at_least_1e21 m e
       then toString_large x (round_half_up m e)
       else decimal (round_half_up m e))
  end.

(** [n] copies of a character. *)
Fixpoint copies (n : nat) (c : ascii) : string :=
  match n with
  | O => ""
  | S k => String c (copies k c)
  end.

(** A numeric literal that is a natural number. *)
Definition literal (n : N) : number := of_decimal false n 0.

(** [s.trim()] *)
Fixpoint trim_end (s : string) : string :=
  match s with
  | EmptyString => EmptyString
  | String c r =>
      match trim_end r with
      | EmptyString => if is_space c then EmptyString else String c EmptyString
      | r' => String c r'
      end
  end.

Definition trim (s : string) : string := trim_end (skip_spaces s).

End JS.

(** ** The add/edit item dialog ([AddItemModal]) *)

Module AddItemModal.
Import JS.

(** The form state; every field holds a string, [''] when not filled in. *)
Record FormData := {
  name : string;
  sku : string;
  uom : string;
  department : string;
  barcodeType : string;
  gtin : string;
  batchLot : string;
  expirationDate : string;
  serialNumber : string;
  sellByDate : string;
  bestBeforeDate : string;
  productionDate : string;
  weight : string;
  weightUnit : string
}.

(** The state the form starts from. *)
Definition emptyForm : FormData :=
  {| name := ""; sku := ""; uom := "EA"; department := "Custom_Items";
     barcodeType := "1D"; gtin := ""; batchLot := ""; expirationDate := "";
     serialNumber := ""; sellByDate := ""; bestBeforeDate := "";
     productionDate := ""; weight := ""; weightUnit := "kg" |}.

(** An item of the catalog or of the custom items: the fields the form
    reads ([''] for a key the item lacks) and what saving adds. *)
Record Item := {
  id : option string;
  data : FormData;
  gs1String : option string;
  gs1Display : option string;
  isCustom : bool
}.

Definition item_sku (i : Item) : string := sku (data i).
Definition item_name (i : Item) : string := name (data i).

(** The SKU as the duplicate checks compare it. *)
Definition lower_sku (i : Item) : string := toLowerCase (item_sku i).

(** [checkDuplicate]: the first existing item with the same SKU up to
    letter case, the item being edited apart. *)
Definition checkDuplicate (existingItems : list Item) (editItem : option Item)
    (sku : string) : option Item :=
  if negb (truthy sku) then None else
  find (fun item =>
          String.eqb (toLowerCase (item_sku item)) (toLowerCase sku) &&
          match editItem with
          | None => true
          | Some e =>
              negb (String.eqb (toLowerCase (item_sku item))
                               (toLowerCase (item_sku e)))
          end)
       existingItems.

(** The YYMMDD text of a date field. *)
Definition dateStr (date : string) : string :=
  substring_from 2 (strip_hyphens date).

(** [buildGs1String]: [gs1] is the string built so far. *)
Definition buildGs1String (formData : FormData) : string :=
  let gtin := or_else (gtin formData) (padStart 14 "0" (sku formData)) in
  let gs1 := "(01)" ++ gtin in
  let gs1 :=
    if truthy (productionDate formData)
    then gs1 ++ "(11)" ++ dateStr (productionDate formData) else gs1 in
  let gs1 :=
    if truthy (bestBeforeDate formData)
    then gs1 ++ "(15)" ++ dateStr (bestBeforeDate formData) else gs1 in
  let gs1 :=
    if truthy (sellByDate formData)
    then gs1 ++ "(16)" ++ dateStr (sellByDate formData) else gs1 in
  let gs1 :=
    if truthy (expirationDate formData)
    then gs1 ++ "(17)" ++ dateStr (expirationDate formData) else gs1 in
  let gs1 :=
    if truthy (batchLot formData)
    then gs1 ++ "(10)" ++ batchLot formData else gs1 in
  let gs1 :=
    if truthy (serialNumber formData)
    then gs1 ++ "(21)" ++ serialNumber formData else gs1 in
  let gs1 :=
    if truthy (weight formData) then
      let weightAI :=
        if String.eqb (weightUnit formData) "kg" then "310" else "320" in
      let weightVal :=
        padStart 6 "0"
          (toFixed_0 (mul (parseFloat (weight formData)) (literal 1000))) in
      gs1 ++ "(" ++ weightAI ++ "3)" ++ weightVal
    else gs1 in
  gs1.

(** [validate]: the error of the name field and of the SKU field. *)
Record Errors := { name_error : option string; sku_error : option string }.

Definition validate_errors (existingItems : list Item) (editItem : option Item)
    (formData : FormData) : Errors :=
  let e_name :=
    if negb (truthy (trim (name formData)))
    then Some "Item name is required" else None in
  let e_sku :=
    if negb (truthy (trim (sku formData)))
    then Some "SKU is required" else None in
  let e_sku :=
    if (50 <? String.length (sku formData))%nat
    then Some "SKU must be 50 characters or less" else e_sku in
  let e_sku :=
    match checkDuplicate existingItems editItem (sku formData) with
    | Some duplicate =>
        Some ("SKU already exists: " ++ String "034"%char
                (item_name duplicate ++ String "034"%char ""))
    | None => e_sku
    end in
  {| name_error := e_name; sku_error := e_sku |}.

Definition validate (existingItems : list Item) (editItem : option Item)
    (formData : FormData) : bool :=
  match validate_errors existingItems editItem formData with
  | {| name_error := None; sku_error := None |} => true
  | _ => false
  end.

Definition isGs1Type (formData : FormData) : bool :=
  String.eqb (barcodeType formData) "GS1 2D"
  || String.eqb (barcodeType formData) "GS1 QR"
  || String.eqb (barcodeType formData) "GS1-128".

(** [handleSubmit]: the item handed to [onSave], none when the form
    does not validate.  [now] is [Date.now().toString()]. *)
Definition handleSubmit (existingItems : list Item) (editItem : option Item)
    (formData : FormData) (now : string) : option Item :=
  if validate existingItems editItem formData then
    let item_id :=
      match editItem with
      | Some e => match id e with
                  | Some i => if truthy i then i else now
                  | None => now
                  end
      | None => now
      end in
    Some {| id := Some item_id;
            data := formData;
            gs1String :=
              if isGs1Type formData then Some (buildGs1String formData)
              else None;
            gs1Display :=
              if isGs1Type formData then Some (buildGs1String formData)
              else None;
            isCustom := false |}
  else None.

(** *** The element string as the specification tabulates it

    These definitions follow the field table of the specification, not
    the code: the fields in their fixed order, which of them a form
    supplies, and the application identifier and formatted value of
    each.  [buildGs1String] is compared with them below. *)

Inductive Field :=
| GTIN | ProductionDate | BestBeforeDate | SellByDate | ExpirationDate
| BatchLot | Serial | NetWeight.

Definition field_order : list Field :=
  [GTIN; ProductionDate; BestBeforeDate; SellByDate; ExpirationDate;
   BatchLot; Serial; NetWeight].

(** What the form holds for a field. *)
Definition raw (formData : FormData) (f : Field) : string :=
  match f with
  | GTIN => gtin formData
  | ProductionDate => productionDate formData
  | BestBeforeDate => bestBeforeDate formData
  | SellByDate => sellByDate formData
  | ExpirationDate => expirationDate formData
  | BatchLot => batchLot formData
  | Serial => serialNumber formData
  | NetWeight => weight formData
  end.

(** The GTIN is always part of the string; any other field is present
    when the form holds something for it. *)
Definition present (formData : FormData) (f : Field) : bool :=
  match f with
  | GTIN => true
  | _ => truthy (raw formData f)
  end.

Definition ai (formData : FormData) (f : Field) : string :=
  match f with
  | GTIN => "01"
  | ProductionDate => "11"
  | BestBeforeDate => "15"
  | SellByDate => "16"
  | ExpirationDate => "17"
  | BatchLot => "10"
  | Serial => "21"
  | NetWeight =>
      if String.eqb (weightUnit formData) "kg" then "3103" else "3203"
  end.

(** The last [n] characters of a string. *)
Definition last_chars (n : nat) (s : string) : string :=
  substring_from (String.length s - n) s.

Definition formatted (formData : FormData) (f : Field) : string :=
  match f with
  | GTIN =>
      if truthy (gtin formData) then gtin formData
      else padStart 14 "0" (sku formData)
  | ProductionDate | BestBeforeDate | SellByDate | ExpirationDate =>
      dateStr (raw formData f)
  | BatchLot | Serial => raw formData f
  | NetWeight =>
      padStart 6 "0"
        (toFixed_0 (mul (parseFloat (weight formData)) (literal 1000)))
  end.

(** One [(AI)value] pair. *)
Definition element (formData : FormData) (f : Field) : string :=
  "(" ++ ai formData f ++ ")" ++ formatted formData f.

Definition join (parts : list string) : string :=
  fold_right append "" parts.

(** The specification's examples, as form states. *)
Definition milk_example : FormData :=
  {| name := ""; sku := ""; uom := "EA"; department := "Custom_Items";
     barcodeType := "GS1 2D"; gtin := "00049000000443"; batchLot := "";
     expirationDate := ""; serialNumber := ""; sellByDate := "2025-12-15";
     bestBeforeDate := ""; productionDate := ""; weight := "";
     weightUnit := "kg" |}.

Definition sku_example : FormData :=
  {| name := ""; sku := "123456"; uom := "EA"; department := "Custom_Items";
     barcodeType := "GS1 2D"; gtin := ""; batchLot := "";
     expirationDate := ""; serialNumber := ""; sellByDate := "";
     bestBeforeDate := ""; productionDate := ""; weight := "";
     weightUnit := "kg" |}.

Definition weight_example : FormData :=
  {| name := ""; sku := ""; uom := "EA"; department := "Custom_Items";
     barcodeType := "GS1 2D"; gtin := "00012345678905"; batchLot := "";
     expirationDate := ""; serialNumber := ""; sellByDate := "";
     bestBeforeDate := ""; productionDate := ""; weight := "1.5";
     weightUnit := "kg" |}.

(** The catalog's expired milk, as the form holds it when edited. *)
Definition milk_form : FormData :=
  {| name := "Milk - EXPIRED"; sku := "00049000000443"; uom := "EA";
     department := "Custom_Items"; barcodeType := "GS1 2D";
     gtin := "00049000000443"; batchLot := ""; expirationDate := "";
     serialNumber := ""; sellByDate := "2025-12-15"; bestBeforeDate := "";
     productionDate := ""; weight := ""; weightUnit := "kg" |}.

(** A weight of [n] thousandths as the number input writes it with
    three decimals, such as 1.500 for 1500. *)
Definition thousandths_text (n : N) : string :=
  decimal (n / 1000) ++ "." ++ padStart 3 "0" (decimal (n mod 1000)).

(** The natural numbers below [k], downwards. *)
Fixpoint below (k : nat) : list N :=
  match k with
  | O => []
  | S j => N.of_nat j :: below j
  end.

(** Whether the scaled weight prints as exactly [n]. *)
Definition prints_thousandths (n : N) : bool :=
  String.eqb
    (toFixed_0 (mul (parseFloat (thousandths_text n)) (literal 1000)))
    (decimal n).

Definition date_fields : list Field :=
  [ProductionDate; BestBeforeDate; SellByDate; ExpirationDate].

(** An ISO date [YYYY-MM-DD]. *)
Definition is_iso_date (s : string) : bool :=
  match list_ascii_of_string s with
  | [y1; y2; y3; y4; h1; m1; m2; h2; d1; d2] =>
      forallb is_digit [y1; y2; y3; y4; m1; m2; d1; d2]
      && Ascii.eqb h1 "-" && Ascii.eqb h2 "-"
  | _ => false
  end.

End AddItemModal.

(** ** The linear barcode ([Barcode]) *)

Module Linear.
Import JS.

Local Open Scope Z_scope.

(** What has been painted on a canvas, in painting order. *)
Inductive DrawOp :=
| FillRect (fillStyle : string) (x y w h : Z)
| FillText (font textAlign text : string) (x y : Z).

Record Canvas := {
  canvas_width : Z;
  canvas_height : Z;
  drawn : list DrawOp
}.

(** A canvas element as the browser creates it. *)
Definition fresh_canvas : Canvas :=
  {| canvas_width := 300; canvas_height := 150; drawn := [] |}.

(** What [canvas.height] holds after a number is assigned to it.  The
    attribute is an unsigned long limited to non-negative numbers: the
    number is taken modulo 2^32, and when that is more than 2^31 - 1
    the attribute goes back to its default. *)
Definition limited (default assigned : Z) : Z :=
  let converted := assigned mod 2 ^ 32 in
  if converted <=? 2147483647 then converted else default.

(** Assigning the size of a canvas clears it.  The height assigned may
    be any number and is limited as above, with the default 150.  The
    width that [Barcode] assigns is 40 or more and is kept as assigned:
    it stays within the attribute's range for every value of fewer
    than 97 million digits. *)
Definition resize (w h : Z) (c : Canvas) : Canvas :=
  {| canvas_width := w; canvas_height := limited 150 h; drawn := [] |}.

Definition paint (op : DrawOp) (c : Canvas) : Canvas :=
  {| canvas_width := canvas_width c; canvas_height := canvas_height c;
     drawn := (drawn c ++ [op])%list |}.

Definition white : string := "#ffffff".
Definition black : string := "#000000".

(** The [patterns] table. *)
Definition patterns (digit : ascii) : option string :=
  if Ascii.eqb digit "0" then Some "1110010"
  else if Ascii.eqb digit "1" then Some "1100110"
  else if Ascii.eqb digit "2" then Some "1101100"
  else if Ascii.eqb digit "3" then Some "1000010"
  else if Ascii.eqb digit "4" then Some "1011100"
  else if Ascii.eqb digit "5" then Some "1001110"
  else if Ascii.eqb digit "6" then Some "1010000"
  else if Ascii.eqb digit "7" then Some "1000100"
  else if Ascii.eqb digit "8" then Some "1001000"
  else if Ascii.eqb digit "9" then Some "1110100"
  else None.

(** [patterns[digit] || patterns['0']] *)
Definition pattern_of (digit : ascii) : string :=
  match patterns digit with
  | Some p => p
  | None => match patterns "0" with Some p => p | None => "" end
  end.

(** [for (const c of s) ...] with the loop's state threaded through. *)
Fixpoint for_of {A : Type} (s : string) (body : ascii -> A -> A) (a : A) : A :=
  match s with
  | EmptyString => a
  | String c r => for_of r body (body c a)
  end.

(** The state of the painting loops: the canvas and the pen position [x]. *)
Definition Pen : Type := Canvas * Z.

Section Bars.
Variables barWidth height : Z.

Definition bar (st : Pen) : Canvas :=
  paint (FillRect black (snd st) 0 barWidth height) (fst st).

Definition draw_bit (bit : ascii) (st : Pen) : Pen :=
  let canvas := if Ascii.eqb bit "1" then bar st else fst st in
  (canvas, snd st + barWidth).

Definition draw_digit (digit : ascii) (st : Pen) : Pen :=
  let st := for_of (pattern_of digit) draw_bit st in
  (fst st, snd st + barWidth).

Definition draw_symbol (code : string) (canvas : Canvas) : Canvas :=
  let st := (canvas, 20) in
  let st := (bar st, snd st + barWidth * 2) in
  let st := (bar st, snd st + barWidth * 2) in
  let st := for_of code draw_digit st in
  let st := (bar st, snd st + barWidth * 2) in
  bar st.
End Bars.

(** The effect of [Barcode] on the canvas its ref points to ([None]: the
    ref is still empty). *)
Definition Barcode (current : option Canvas) (value : string) (height : Z)
  : option Canvas :=
  match current with
  | None => None
  | Some canvas =>
      if negb (truthy value) then Some canvas else
      let code := strip_non_digits value in
      let barWidth := 2 in
      let width := Z.of_nat (String.length code) * 11 * barWidth + 40 in
      let canvas := resize width (height + 20) canvas in
      let canvas := paint (FillRect white 0 0 width (height + 20)) canvas in
      let canvas := draw_symbol barWidth height code canvas in
      Some (paint (FillText "12px monospace" "center" value
                            (width / 2) (height + 15)) canvas)
  end.

(** The bars of the symbol: the black rectangles on the canvas. *)
Definition is_bar (op : DrawOp) : bool :=
  match op with
  | FillRect style _ _ _ _ => String.eqb style black
  | FillText _ _ _ _ _ => false
  end.

Definition bars (c : Canvas) : list DrawOp := filter is_bar (drawn c).

End Linear.

(** ** The bwip-js components ([DataMatrixBarcode], [Code128Barcode]) *)

Module Adapter.
Import JS.

(** The options object handed to [bwipjs.toCanvas]; a key the call
    leaves out is [None] (or [false] for a flag). *)
Record Options := {
  bcid : string;
  text : string;
  scale : Z;
  padding : Z;
  parsefnc : bool;
  height : option Z;
  includetext : bool;
  textxalign : option string;
  textsize : option Z
}.

Inductive Outcome := Drawn | Thrown.

(** What the component shows. *)
Inductive View :=
| Placeholder (symbology payload : string)
| Loading
| CanvasView.

(** The component's state after its render effect: the calls made to
    the library, in order, and the [error] flag. *)
Record Rendered := { calls : list Options; error : bool }.

Section Backend.
(** [window.bwipjs.toCanvas], which draws or throws. *)
Variable toCanvas : Options -> Outcome.

Definition datamatrix (text : string) (parsefnc : bool) : Options :=
  {| bcid := "datamatrix"; text := text; scale := 4; padding := 5;
     parsefnc := parsefnc; height := None; includetext := false;
     textxalign := None; textsize := None |}.

(** [gs1Data || `(01)${value}`] *)
Definition barcodeData (value : string) (gs1Data : option string) : string :=
  match gs1Data with
  | Some g => if truthy g then g else "(01)" ++ value
  | None => "(01)" ++ value
  end.

(** The render effect of [DataMatrixBarcode], run once the library is
    loaded and the canvas is mounted; [error] is the flag before. *)
Definition DataMatrixBarcode_effect (ready : bool) (error : bool)
    (value : string) (gs1Data : option string) : Rendered :=
  if negb ready then {| calls := []; error := error |} else
  let first := datamatrix (barcodeData value gs1Data) true in
  match toCanvas first with
  | Drawn => {| calls := [first]; error := false |}
  | Thrown =>
      let simpleData := strip_non_digits value in
      let second := datamatrix simpleData false in
      match toCanvas second with
      | Drawn => {| calls := [first; second]; error := false |}
      | Thrown => {| calls := [first; second]; error := true |}
      end
  end.

Definition DataMatrixBarcode_view (loaded error : bool) (value : string)
  : View :=
  if error then Placeholder "GS1 2D DataMatrix" value
  else if negb loaded then Loading
  else CanvasView.

Definition code128 (text : string) : Options :=
  {| bcid := "code128"; text := text; scale := 2; padding := 5;
     parsefnc := false; height := Some 12%Z; includetext := true;
     textxalign := Some "center"; textsize := Some 10%Z |}.

(** The render effect of [Code128Barcode]. *)
Definition Code128Barcode_effect (ready : bool) (error : bool)
    (value : string) : Rendered :=
  if negb ready then {| calls := []; error := error |} else
  let only := code128 value in
  match toCanvas only with
  | Drawn => {| calls := [only]; error := false |}
  | Thrown => {| calls := [only]; error := true |}
  end.

Definition Code128Barcode_view (loaded error : bool) (value : string)
  : View :=
  if error then Placeholder "Code 128" value
  else if negb loaded then Loading
  else CanvasView.
End Backend.

End Adapter.

(** ** The import dialog ([ImportModal]) *)

Module ImportModal.
Import JS AddItemModal.

(** [checkExistingDuplicate] *)
Definition checkExistingDuplicate (existingItems : list Item) (sku : string)
  : option Item :=
  find (fun item => String.eqb (toLowerCase (item_sku item)) (toLowerCase sku))
       existingItems.

Inductive Reason := reason_exists | reason_batch.

(** An entry of [duplicates]. *)
Record Dupe := {
  item : Item;
  conflictsWith : option Item;
  reason : Reason
}.

(** A JavaScript [Set] of strings. *)
Definition StringSet : Type := set string.
Definition has (k : string) (s : StringSet) : bool := set_mem string_dec k s.
Definition add (k : string) (s : StringSet) : StringSet :=
  set_add string_dec k s.

(** The body of the [forEach] of [handlePreview], on the state
    [(dupes, seenSkus)]. *)
Definition preview_step (existingItems : list Item)
    (st : list Dupe * StringSet) (it : Item) : list Dupe * StringSet :=
  let '(dupes, seenSkus) := st in
  let dupes :=
    match checkExistingDuplicate existingItems (item_sku it) with
    | Some existingDupe =>
        (dupes ++ [{| item := it; conflictsWith := Some existingDupe;
                      reason := reason_exists |}])%list
    | None =>
        if has (toLowerCase (item_sku it)) seenSkus
        then (dupes ++ [{| item := it; conflictsWith := None;
                           reason := reason_batch |}])%list
        else dupes
    end in
  (dupes, add (toLowerCase (item_sku it)) seenSkus).

(** The [duplicates] that [handlePreview] stores for the parsed [items]
    (which it stores as [preview]). *)
Definition handlePreview (existingItems items : list Item) : list Dupe :=
  fst (fold_left (preview_step existingItems) items ([], empty_set string)).

(** The entry that one more item adds to [duplicates], given the
    items of the batch that came [before] it. *)
Definition flag (existingItems before : list Item) (it : Item) : list Dupe :=
  match checkExistingDuplicate existingItems (item_sku it) with
  | Some e => [{| item := it; conflictsWith := Some e;
                  reason := reason_exists |}]
  | None =>
      if existsb (fun b => String.eqb (lower_sku b) (lower_sku it)) before
      then [{| item := it; conflictsWith := None; reason := reason_batch |}]
      else []
  end.

(** The entries that the items of a batch add, one after the other. *)
Fixpoint flags (existingItems before items : list Item) : list Dupe :=
  match items with
  | [] => []
  | it :: rest =>
      (flag existingItems before it
       ++ flags existingItems (before ++ [it]) rest)%list
  end.

(** The [itemsToImport] of [handleImport]. *)
Definition itemsToImport (preview : list Item) (duplicates : list Dupe)
  : list Item :=
  let duplicateSkus :=
    fold_right add (empty_set string)
      (map (fun d => toLowerCase (item_sku (item d))) duplicates) in
  filter (fun it => negb (has (toLowerCase (item_sku it)) duplicateSkus))
         preview.

(** [handleImport]: the items handed to [onImport], none when there is
    no preview or every item is a duplicate. *)
Definition handleImport (preview : list Item) (duplicates : list Dupe)
  : option (list Item) :=
  match preview with
  | [] => None
  | _ :: _ =>
      match itemsToImport preview duplicates with
      | [] => None
      | items => Some items
      end
  end.

(** What the dialog keeps from one render to the next, also while it
    is closed: its hooks stand before [if (!isOpen) return null], and
    Cancel only calls [onClose]. *)
Record Dialog := {
  stored_preview : list Item;
  stored_duplicates : list Dupe
}.

(** The dialog as it starts, after a file is chosen and after an
    import. *)
Definition cleared : Dialog :=
  {| stored_preview := []; stored_duplicates := [] |}.

(** The dialog after [handlePreview] has run on the parsed [items]
    against the [existingItems] of that render; no item is an error,
    which clears the preview. *)
Definition previewed (existingItems items : list Item) : Dialog :=
  match items with
  | [] => cleared
  | _ :: _ =>
      {| stored_preview := items;
         stored_duplicates := handlePreview existingItems items |}
  end.

End ImportModal.

(** ** The item list that the dialogs check against ([ItemsView]) *)

Module ItemsView.
Import JS AddItemModal ImportModal.

(** A department of the catalog. *)
Record Group := {
  group_id : string;
  group_items : list Item
}.

(** The state of the view that matters here: the custom items and the
    SKUs of the deleted catalog items. *)
Record State := {
  customItems : list Item;
  deletedItems : list string
}.

Definition mark_custom (i : Item) : Item :=
  {| id := id i; data := data i; gs1String := gs1String i;
     gs1Display := gs1Display i; isCustom := true |}.

(** [deletedItems.includes(sku)] *)
Definition includes (l : list string) (s : string) : bool :=
  existsb (String.eqb s) l.

(** The key under which the [reduce] files a custom item. *)
Definition dept_of (i : Item) : string :=
  or_else (department (data i)) "Custom_Items".

(** The names that a plain object inherits from [Object.prototype].
    Under each of them [acc[name]] is a function, or the prototype
    itself for [__proto__]: truthy, and without [push] or [map]. *)
Definition object_prototype : list string :=
  ["constructor"; "__defineGetter__"; "__defineSetter__"; "hasOwnProperty";
   "__lookupGetter__"; "__lookupSetter__"; "isPrototypeOf";
   "propertyIsEnumerable"; "toString"; "valueOf"; "__proto__";
   "toLocaleString"].

Definition inherited (key : string) : bool :=
  existsb (String.eqb key) object_prototype.

(** What running a piece of the view comes to: a value, or a
    [TypeError] that nothing catches. *)
Inductive outcome (A : Type) :=
| Returns (a : A)
| Throws.
Arguments Returns {A} a.
Arguments Throws {A}.

(** The own properties of the accumulator of the [reduce], in the
    order in which they were made. *)
Definition Filed : Type := list (string * list Item).

Fixpoint own (acc : Filed) (key : string) : option (list Item) :=
  match acc with
  | [] => None
  | (k, filed) :: rest => if String.eqb k key then Some filed else own rest key
  end.

(** [acc[key].push(item)] for an own property. *)
Fixpoint push (acc : Filed) (key : string) (item : Item) : Filed :=
  match acc with
  | [] => []
  | (k, filed) :: rest =>
      if String.eqb k key then (k, (filed ++ [item])%list) :: rest
      else (k, filed) :: push rest key item
  end.

(** The body of the [reduce]: [if (!acc[dept]) acc[dept] = [];
    acc[dept].push(item)]. *)
Definition file (acc : Filed) (item : Item) : outcome Filed :=
  let dept := dept_of item in
  match own acc dept with
  | Some _ => Returns (push acc dept item)
  | None =>
      if inherited dept then Throws
      else Returns (acc ++ [(dept, [item])])%list
  end.

(** [customItemsByDept], as the [reduce] over the custom items runs. *)
Definition customItemsByDept (custom : list Item) : outcome Filed :=
  fold_left (fun acc item =>
               match acc with
               | Returns acc => file acc item
               | Throws => Throws
               end)
            custom (Returns []).

(** [customItemsByDept[dept]] once the [reduce] has returned: the
    custom items filed under [dept], in their order; there is no such
    key when there is none. *)
Definition filed_by (custom : list Item) (dept : string)
  : option (list Item) :=
  match filter (fun i => String.eqb (dept_of i) dept) custom with
  | [] => None
  | filed => Some filed
  end.

(** The custom items filed under a department, none for no key. *)
Definition filed_under (custom : list Item) (dept : string) : list Item :=
  match filed_by custom dept with
  | Some filed => filed
  | None => []
  end.

(** The accumulator holds, under every key, what [filed_by] says. *)
Definition agrees (acc : Filed) (custom : list Item) : Prop :=
  forall d, own acc d = filed_by custom d.

(** [l.map(f)] for an [f] that may throw. *)
Fixpoint traverse {A B : Type} (f : A -> outcome B) (l : list A)
  : outcome (list B) :=
  match l with
  | [] => Returns []
  | a :: rest =>
      match f a with
      | Throws => Throws
      | Returns b =>
          match traverse f rest with
          | Throws => Throws
          | Returns bs => Returns (b :: bs)
          end
      end
  end.

Section Catalog.
(** [itemsData.groups] *)
Variable groups : list Group.

(** [allGroups], [mergedGroups] and [allExistingItems] as they are when
    the body of the view returns; [render] below is the body as it
    runs, and returns these whenever it returns. *)
Definition allGroups (st : State) : list Group :=
  let kept :=
    map (fun group =>
           {| group_id := group_id group;
              group_items :=
                filter (fun i => negb (includes (deletedItems st) (item_sku i)))
                       (group_items group) |})
        groups in
  match filed_by (customItems st) "Custom_Items" with
  | Some filed =>
      {| group_id := "Custom_Items"; group_items := filed |} :: kept
  | None => kept
  end.

Definition mergedGroups (st : State) : list Group :=
  map (fun group =>
         if String.eqb (group_id group) "Custom_Items" then group else
         match filed_by (customItems st) (group_id group) with
         | Some filed =>
             {| group_id := group_id group;
                group_items :=
                  (group_items group ++ map mark_custom filed)%list |}
         | None => group
         end)
      (allGroups st).

(** [allExistingItems], the list handed to both dialogs as
    [existingItems]. *)
Definition allExistingItems (st : State) : list Item :=
  flat_map group_items (mergedGroups st).

(** The function mapped over [allGroups] to give [mergedGroups]:
    [customItemsByDept[group.id].map(...)] throws when the key is not
    an own one but an inherited one. *)
Definition merge (acc : Filed) (group : Group) : outcome Group :=
  if String.eqb (group_id group) "Custom_Items" then Returns group else
  match own acc (group_id group) with
  | Some filed =>
      Returns {| group_id := group_id group;
                 group_items :=
                   (group_items group ++ map mark_custom filed)%list |}
  | None => if inherited (group_id group) then Throws else Returns group
  end.

(** The body of [ItemsView] down to [mergedGroups]. *)
Definition render (st : State) : outcome (list Group) :=
  match customItemsByDept (customItems st) with
  | Throws => Throws
  | Returns acc =>
      let kept :=
        map (fun group =>
               {| group_id := group_id group;
                  group_items :=
                    filter (fun i =>
                              negb (includes (deletedItems st) (item_sku i)))
                           (group_items group) |})
            groups in
      let allGroups :=
        match own acc "Custom_Items" with
        | Some filed =>
            {| group_id := "Custom_Items"; group_items := filed |} :: kept
        | None => kept
        end in
      traverse (merge acc) allGroups
  end.

(** Whether no department, of a custom item or of the catalog, is a
    name that a plain object inherits. *)
Definition renders (st : State) : bool :=
  forallb (fun i => negb (inherited (dept_of i))) (customItems st)
  && forallb (fun group =>
                String.eqb (group_id group) "Custom_Items"
                || negb (inherited (group_id group)))
             groups.

(** [handleSaveItem] for a new item. *)
Definition handleSaveItem_new (st : State) (saved : Item) : State :=
  {| customItems := (customItems st ++ [mark_custom saved])%list;
     deletedItems := deletedItems st |}.

(** The [onImport] of the import dialog. *)
Definition onImport (st : State) (items : list Item) : State :=
  {| customItems := (customItems st ++ map mark_custom items)%list;
     deletedItems := deletedItems st |}.

(** The view with its import dialog. *)
Record Page := {
  page_state : State;
  page_dialog : Dialog
}.

(** One step of the view, which it can take only when it has
    rendered: a new item is saved from the add dialog; a batch is
    previewed, for which the dialog offers its button only while it
    has no preview; a file is chosen, which clears the preview; the
    previewed batch is imported. *)
Inductive step (p : Page) : Page -> Prop :=
| step_add merged formData now saved :
    render (page_state p) = Returns merged ->
    handleSubmit (flat_map group_items merged) None formData now
    = Some saved ->
    step p {| page_state := handleSaveItem_new (page_state p) saved;
              page_dialog := page_dialog p |}
| step_preview merged parsed :
    render (page_state p) = Returns merged ->
    stored_preview (page_dialog p) = [] ->
    step p {| page_state := page_state p;
              page_dialog :=
                previewed (flat_map group_items merged) parsed |}
| step_upload merged :
    render (page_state p) = Returns merged ->
    step p {| page_state := page_state p; page_dialog := cleared |}
| step_import merged imported :
    render (page_state p) = Returns merged ->
    handleImport (stored_preview (page_dialog p))
                 (stored_duplicates (page_dialog p))
    = Some imported ->
    step p {| page_state := onImport (page_state p) imported;
              page_dialog := cleared |}.

Inductive reachable (start : Page) : Page -> Prop :=
| reach_start : reachable start start
| reach_step p p' :
    reachable start p -> step p p' -> reachable start p'.
End Catalog.

(** Two SKUs that differ only in letter case. *)
Definition case_variants (a b : Item) : Prop :=
  item_sku a <> item_sku b /\ lower_sku a = lower_sku b.

Definition no_case_variants (items : list Item) : Prop :=
  forall a b, In a items -> In b items -> ~ case_variants a b.

(** A bare item filed under a department. *)
Definition entry_in (department name sku : string) : Item :=
  {| id := None;
     data := {| name := name; sku := sku; uom := "EA";
                department := department; barcodeType := "1D";
                gtin := ""; batchLot := ""; expirationDate := "";
                serialNumber := ""; sellByDate := ""; bestBeforeDate := "";
                productionDate := ""; weight := ""; weightUnit := "kg" |};
     gs1String := None; gs1Display := None; isCustom := false |}.

Definition entry (name sku : string) : Item :=
  entry_in "Custom_Items" name sku.

(** A catalog of one department and a view with nothing added yet. *)
Definition dairy_catalog : list Group :=
  [{| group_id := "Dept_3_Dairy";
      group_items := [entry_in "" "Whole Milk" "4011"] |}].

Definition untouched : State := {| customItems := []; deletedItems := [] |}.

(** The view as it opens on that catalog. *)
Definition opened : Page :=
  {| page_state := untouched; page_dialog := cleared |}.

(** A form filled in for a new item. *)
Definition cola_form : FormData :=
  {| name := "Cola"; sku := "ab12"; uom := "EA";
     department := "Custom_Items"; barcodeType := "1D"; gtin := "";
     batchLot := ""; expirationDate := ""; serialNumber := "";
     sellByDate := ""; bestBeforeDate := ""; productionDate := "";
     weight := ""; weightUnit := "kg" |}.

End ItemsView.

(** ** [buildGs1String] without the typing of the form state

    The form state only ever holds strings.  This second embedding of
    [buildGs1String] forgets that: a field may also be missing from the
    object, and calling a string method on a missing field throws. *)

Module Untyped.
Import JS AddItemModal.

Inductive value := Undefined | Str (s : string).

Inductive completion (A : Type) :=
| Normal (a : A)
| TypeError.
Arguments Normal {A} a.
Arguments TypeError {A}.

Definition bind {A B} (c : completion A) (k : A -> completion B)
  : completion B :=
  match c with
  | Normal a => k a
  | TypeError => TypeError
  end.

Notation "x <- c ;; k" := (bind c (fun x => k))
  (at level 61, c at next level, right associativity).

Record FormObject := {
  o_sku : value;
  o_gtin : value;
  o_batchLot : value;
  o_expirationDate : value;
  o_serialNumber : value;
  o_sellByDate : value;
  o_bestBeforeDate : value;
  o_productionDate : value;
  o_weight : value;
  o_weightUnit : value
}.

Definition ToBoolean (v : value) : bool :=
  match v with
  | Undefined => false
  | Str s => truthy s
  end.

Definition ToString (v : value) : string :=
  match v with
  | Undefined => "undefined"
  | Str s => s
  end.

(** [receiver.method(...)] for a method of strings. *)
Definition call (method : string -> string) (receiver : value)
  : completion string :=
  match receiver with
  | Str s => Normal (method s)
  | Undefined => TypeError
  end.

(** [v === 'kg'] and the like. *)
Definition strict_equal (v : value) (s : string) : bool :=
  match v with
  | Str t => String.eqb t s
  | Undefined => false
  end.

(** One of the four date blocks. *)
Definition add_date (tag : string) (date : value) (gs1 : string)
  : completion string :=
  if ToBoolean date then
    stripped <- call strip_hyphens date ;;
    let dateStr := substring_from 2 stripped in
    Normal (gs1 ++ tag ++ dateStr)
  else Normal gs1.

Definition add_text (tag : string) (v : value) (gs1 : string) : string :=
  if ToBoolean v then gs1 ++ tag ++ ToString v else gs1.

Definition buildGs1String (formData : FormObject) : completion string :=
  gtin <- (if ToBoolean (o_gtin formData) then Normal (o_gtin formData)
           else padded <- call (padStart 14 "0") (o_sku formData) ;;
                Normal (Str padded)) ;;
  let gs1 := "(01)" ++ ToString gtin in
  gs1 <- add_date "(11)" (o_productionDate formData) gs1 ;;
  gs1 <- add_date "(15)" (o_bestBeforeDate formData) gs1 ;;
  gs1 <- add_date "(16)" (o_sellByDate formData) gs1 ;;
  gs1 <- add_date "(17)" (o_expirationDate formData) gs1 ;;
  let gs1 := add_text "(10)" (o_batchLot formData) gs1 in
  let gs1 := add_text "(21)" (o_serialNumber formData) gs1 in
  let gs1 :=
    if ToBoolean (o_weight formData) then
      let weightAI :=
        if strict_equal (o_weightUnit formData) "kg" then "310" else "320" in
      let weightVal :=
        padStart 6 "0"
          (toFixed_0 (mul (parseFloat (ToString (o_weight formData)))
                          (literal 1000))) in
      gs1 ++ "(" ++ weightAI ++ "3)" ++ weightVal
    else gs1 in
  Normal gs1.

(** The object that a form state is. *)
Definition object_of (formData : FormData) : FormObject :=
  {| o_sku := Str (sku formData);
     o_gtin := Str (gtin formData);
     o_batchLot := Str (batchLot formData);
     o_expirationDate := Str (expirationDate formData);
     o_serialNumber := Str (serialNumber formData);
     o_sellByDate := Str (sellByDate formData);
     o_bestBeforeDate := Str (bestBeforeDate formData);
     o_productionDate := Str (productionDate formData);
     o_weight := Str (weight formData);
     o_weightUnit := Str (weightUnit formData) |}.

(** A form with fields that are not what the dialog lets one enter. *)
Definition malformed_example : FormData :=
  {| name := ""; sku := "A-1"; uom := ""; department := "";
     barcodeType := ""; gtin := ""; batchLot := ""; expirationDate := "";
     serialNumber := ""; sellByDate := "soon"; bestBeforeDate := "";
     productionDate := "12/31/2025"; weight := "heavy";
     weightUnit := "stone" |}.

(** A field set with no field at all. *)
Definition absent_example : FormObject :=
  {| o_sku := Undefined; o_gtin := Undefined; o_batchLot := Undefined;
     o_expirationDate := Undefined; o_serialNumber := Undefined;
     o_sellByDate := Undefined; o_bestBeforeDate := Undefined;
     o_productionDate := Undefined; o_weight := Undefined;
     o_weightUnit := Undefined |}.

End Untyped.

(** ** The bars of the linear barcode in closed form *)

Module LinearSpec.
Import JS Linear.

Local Open Scope Z_scope.

(** Where the bars of one pattern start, from pen position [x]. *)
Fixpoint bit_positions (pattern : string) (x : Z) : list Z :=
  match pattern with
  | EmptyString => []
  | String bit rest =>
      ((if Ascii.eqb bit "1" then [x] else [])
       ++ bit_positions rest (x + 2))%list
  end.

(** Where the bars of the digits start, and after them the two bars of
    the end guard. *)
Fixpoint digit_positions (code : string) (x : Z) : list Z :=
  match code with
  | EmptyString => [x; x + 4]
  | String digit rest =>
      (bit_positions (pattern_of digit) x
       ++ digit_positions rest (x + 16))%list
  end.

(** A canvas with more painted on it. *)
Definition extend (c : Canvas) (ops : list DrawOp) : Canvas :=
  {| canvas_width := canvas_width c; canvas_height := canvas_height c;
     drawn := (drawn c ++ ops)%list |}.

(** A bar of the symbol that starts at [x]. *)
Definition bar_at (height x : Z) : DrawOp := FillRect black x 0 2 height.

(** Where all the bars of the symbol start: the start guard first. *)
Definition symbol_positions (code : string) : list Z :=
  20 :: 24 :: digit_positions code 28.

End LinearSpec.

(** ** The life of a bwip-js component

    The render effect of [Adapter] runs after a render in which one of
    its dependencies changed, and it finds a canvas only when that
    render returned the canvas: the placeholder and the loading box
    have none. *)

Module Lifecycle.
Import JS Adapter.

(** The state and the props of a mounted [DataMatrixBarcode], and the
    calls it has made to the library so far. *)
Record Component := {
  loaded : bool;
  failed : bool;
  value : string;
  gs1Data : option string;
  size : Z;
  trace : list Options
}.

Inductive Event :=
| ScriptLoaded
| ScriptError
| Props (value : string) (gs1Data : option string) (size : Z).

Definition same_props (c : Component) (v : string) (g : option string)
    (s : Z) : bool :=
  String.eqb (value c) v
  && match gs1Data c, g with
     | Some a, Some b => String.eqb a b
     | None, None => true
     | _, _ => false
     end
  && Z.eqb (size c) s.

Section Backend.
Variable toCanvas : Options -> Outcome.

(** The render effect on a component whose render has just returned
    what [DataMatrixBarcode_view] says. *)
Definition run_effect (c : Component) : Component :=
  let mounted :=
    match DataMatrixBarcode_view (loaded c) (failed c) (value c) with
    | CanvasView => true
    | _ => false
    end in
  let after :=
    DataMatrixBarcode_effect toCanvas (loaded c && mounted) (failed c)
      (value c) (gs1Data c) in
  {| loaded := loaded c; failed := error after; value := value c;
     gs1Data := gs1Data c; size := size c;
     trace := (trace c ++ calls after)%list |}.

Definition handle (c : Component) (ev : Event) : Component :=
  match ev with
  | ScriptLoaded =>
      if loaded c then c else
      run_effect {| loaded := true; failed := failed c; value := value c;
                    gs1Data := gs1Data c; size := size c; trace := trace c |}
  | ScriptError =>
      {| loaded := loaded c; failed := true; value := value c;
         gs1Data := gs1Data c; size := size c; trace := trace c |}
  | Props v g s =>
      if same_props c v g s then c else
      run_effect {| loaded := loaded c; failed := failed c; value := v;
                    gs1Data := g; size := s; trace := trace c |}
  end.

Definition run (events : list Event) (c : Component) : Component :=
  fold_left handle events c.
End Backend.

End Lifecycle.

(** ** More of [ItemsView]: symbols, favorites, print queue, search,
    deletion *)

Module ItemsViewMore.
Import JS AddItemModal ImportModal ItemsView.

(** Which component draws an item, and with which props. *)
Inductive Symbol :=
| DataMatrixSymbol (value : string) (gs1Data : option string)
| Code128Symbol (value : string)
| LinearSymbol (value : string).

(** [item.gs1String || item.sku] *)
Definition gs1String_or_sku (item : Item) : string :=
  match gs1String item with
  | Some g => if truthy g then g else item_sku item
  | None => item_sku item
  end.

Definition item_symbol (item : Item) : Symbol :=
  let type := barcodeType (data item) in
  if String.eqb type "GS1 2D" || String.eqb type "GS1 QR" then
    DataMatrixSymbol (gs1String_or_sku item) (gs1String item)
  else if String.eqb type "Code 128" || String.eqb type "GS1-128" then
    Code128Symbol (gs1String_or_sku item)
  else if String.eqb type "QR" then
    DataMatrixSymbol (item_sku item) None
  else LinearSymbol (item_sku item).

(** [toggleFavorite] on the list of favorite SKUs. *)
Definition toggleFavorite (sku : string) (prev : list string) : list string :=
  if includes prev sku
  then filter (fun s => negb (String.eqb s sku)) prev
  else (prev ++ [sku])%list.

(** [addToPrint] and [removeFromPrint] on the print queue. *)
Definition addToPrint (item : Item) (prev : list Item) : list Item :=
  match find (fun i => String.eqb (item_sku i) (item_sku item)) prev with
  | Some _ => prev
  | None => (prev ++ [item])%list
  end.

Definition removeFromPrint (sku : string) (prev : list Item) : list Item :=
  filter (fun i => negb (String.eqb (item_sku i) sku)) prev.

(** [s.includes(t)] *)
Fixpoint str_includes (s t : string) : bool :=
  prefix t s
  || match s with
     | String _ r => str_includes r t
     | EmptyString => false
     end.

Definition matchesSearch (searchTerm : string) (item : Item) : bool :=
  str_includes (toLowerCase (item_name item)) (toLowerCase searchTerm)
  || str_includes (toLowerCase (item_sku item)) (toLowerCase searchTerm).

Section Catalog.
Variable groups : list Group.

(** [filteredGroups] *)
Definition filteredGroups (st : State) (searchTerm : string)
    (showFavoritesOnly : bool) (favorites : list string) : list Group :=
  filter (fun group => (0 <? List.length (group_items group))%nat)
    (map (fun group =>
            {| group_id := group_id group;
               group_items :=
                 filter (fun item =>
                           matchesSearch searchTerm item
                           && (negb showFavoritesOnly
                               || includes favorites (item_sku item)))
                        (group_items group) |})
         (mergedGroups groups st)).
End Catalog.

Definition same_id (a b : option string) : bool :=
  match a, b with
  | Some x, Some y => String.eqb x y
  | None, None => true
  | _, _ => false
  end.

(** [handleDeleteItem] for the item [deleteItem]; [isEdited] is its
    flag of that name, which [Item] does not record. *)
Definition handleDeleteItem (st : State) (deleteItem : Item)
    (isEdited : bool) : State :=
  if isCustom deleteItem || isEdited then
    {| customItems :=
         filter (fun i => negb (same_id (id i) (id deleteItem)))
                (customItems st);
       deletedItems := deletedItems st |}
  else
    {| customItems := customItems st;
       deletedItems := (deletedItems st ++ [item_sku deleteItem])%list |}.

(** [handleSaveItem] while an item is edited and a stored custom item
    has its id: the stored item is replaced by the saved one.  [None]
    stands for the other branch, the override of a catalog item, whose
    flag [isEdited] is no field of [Item]. *)
Definition handleSaveItem_edit (st : State) (item : Item) : option State :=
  match find (fun i => same_id (id i) (id item)) (customItems st) with
  | Some _ =>
      Some {| customItems :=
                map (fun i => if same_id (id i) (id item) then item else i)
                    (customItems st);
              deletedItems := deletedItems st |}
  | None => None
  end.

(** The expired milk as a stored custom item. *)
Definition stored_milk : Item :=
  {| id := Some "1765000000000"; data := milk_form; gs1String := None;
     gs1Display := None; isCustom := true |}.

(** The number on the Import button: [preview.length - duplicates.length]. *)
Definition import_count (preview : list Item) (duplicates : list Dupe) : Z :=
  Z.of_nat (List.length preview) - Z.of_nat (List.length duplicates).

End ItemsViewMore.

(** ** Reading a CSV file in the import dialog ([parseCSV]) *)

Module CsvImport.
Import JS AddItemModal ImportModal.

Definition newline : ascii := "010"%char.
Definition comma : ascii := ","%char.

(** [s.split(sep)] for a separator of one character. *)
Fixpoint split (sep : ascii) (s : string) : list string :=
  match s with
  | EmptyString => [EmptyString]
  | String c r =>
      if Ascii.eqb c sep then EmptyString :: split sep r
      else match split sep r with
           | h :: t => String c h :: t
           | [] => [String c EmptyString]
           end
  end.

(** [l.findIndex(p)], [None] for -1. *)
Fixpoint findIndex {A : Type} (p : A -> bool) (l : list A) : option nat :=
  match l with
  | [] => None
  | a :: r => if p a then Some O else option_map S (findIndex p r)
  end.

(** [l.map((x, i) => f i x)], counting from [i]. *)
Fixpoint mapi_from {A B : Type} (f : nat -> A -> B) (i : nat) (l : list A)
  : list B :=
  match l with
  | [] => []
  | a :: r => f i a :: mapi_from f (S i) r
  end.

(** [h === a || h === b || ...] *)
Definition is_one_of (names : list string) (h : string) : bool :=
  existsb (String.eqb h) names.

(** [values[idx] || default] *)
Definition value_at (values : list string) (idx : nat) (default : string)
  : string :=
  or_else (nth idx values "") default.

(** An item as the import builds it: the keys it does not set read as
    ['']. *)
Definition csv_item (id name sku uom department : string) : Item :=
  {| id := Some id;
     data := {| name := name; sku := sku; uom := uom;
                department := department; barcodeType := "1D";
                gtin := ""; batchLot := ""; expirationDate := "";
                serialNumber := ""; sellByDate := ""; bestBeforeDate := "";
                productionDate := ""; weight := ""; weightUnit := "" |};
     gs1String := None; gs1Display := None; isCustom := false |}.

Inductive Parsed :=
| Thrown (message : string)
| Items (items : list Item).

Definition no_columns : string :=
  "CSV must have " ++ String "034" ("name" ++ String "034" (" and "
    ++ String "034" ("sku" ++ String "034" " columns"))).

(** [parseCSV]; [fresh_id i] is the id made up for the [i]-th data
    line ([Date.now()] and [Math.random()]). *)
Definition parseCSV (fresh_id : nat -> string) (text : string) : Parsed :=
  let lines := split newline (trim text) in
  if (List.length lines <? 2)%nat
  then Thrown "CSV must have header row and at least one data row" else
  let headers :=
    map (fun h => toLowerCase (trim h)) (split comma (hd "" lines)) in
  let nameIdx :=
    findIndex (is_one_of ["name"; "item name"; "itemname"]) headers in
  let skuIdx := findIndex (is_one_of ["sku"; "barcode"; "upc"]) headers in
  let uomIdx := findIndex (is_one_of ["uom"; "unit"]) headers in
  let deptIdx :=
    findIndex (is_one_of ["department"; "dept"; "category"]) headers in
  match nameIdx, skuIdx with
  | Some nameIdx, Some skuIdx =>
      Items
        (filter (fun item => truthy (item_name item) && truthy (item_sku item))
           (mapi_from
              (fun i line =>
                 let values := map trim (split comma line) in
                 csv_item (fresh_id i)
                   (value_at values nameIdx "")
                   (value_at values skuIdx "")
                   (match uomIdx with
                    | Some uomIdx => value_at values uomIdx "EA"
                    | None => "EA"
                    end)
                   (match deptIdx with
                    | Some deptIdx => value_at values deptIdx "Custom_Items"
                    | None => "Custom_Items"
                    end))
              O
              (filter (fun line => truthy (trim line)) (tl lines))))
  | _, _ => Thrown no_columns
  end.

(** What [handlePreview] leaves in the dialog for a CSV text: the
    error message, the preview and the duplicates. *)
Record Previewed := {
  error : string;
  preview : list Item;
  duplicates : list Dupe
}.

Definition handlePreview_csv (fresh_id : nat -> string)
    (existingItems : list Item) (importData : string) : Previewed :=
  match parseCSV fresh_id importData with
  | Thrown message => {| error := message; preview := []; duplicates := [] |}
  | Items [] =>
      {| error := "No valid items found"; preview := []; duplicates := [] |}
  | Items items =>
      {| error := ""; preview := items;
         duplicates := handlePreview existingItems items |}
  end.

(** Lines joined by newlines, as a file has them. *)
Fixpoint unlines (lines : list string) : string :=
  match lines with
  | [] => ""
  | [l] => l
  | l :: rest => l ++ String newline (unlines rest)
  end.

(** A field that the file format can carry as it is: not empty, no
    comma, no newline, no white space at either end. *)
Definition clean (field : string) : bool :=
  truthy field
  && String.eqb (trim field) field
  && forallb (fun c => negb (Ascii.eqb c comma) && negb (Ascii.eqb c newline))
             (list_ascii_of_string field).

Definition free_of (sep : ascii) (s : string) : Prop :=
  forallb (fun c => negb (Ascii.eqb c sep)) (list_ascii_of_string s) = true.

Definition row_line (row : string * string) : string :=
  fst row ++ String comma (snd row).

(** A SKU of 51 characters. *)
Definition long_sku : string :=
  "000000000100000000020000000003000000000400000000051".

End CsvImport.

(** * Properties *)

(** ** Strings *)

Module StringFacts.
Import JS.

Lemma append_nil_r (s : string) : s ++ "" = s.
Proof. induction s as [|c s IH]; simpl; [reflexivity | now rewrite IH]. Qed.

Lemma append_assoc (a b c : string) : (a ++ b) ++ c = a ++ (b ++ c).
Proof. induction a as [|x a IH]; simpl; [reflexivity | now rewrite IH]. Qed.

Lemma length_append (a b : string) :
  String.length (a ++ b) = (String.length a + String.length b)%nat.
Proof. induction a as [|x a IH]; simpl; [reflexivity | now rewrite IH]. Qed.

Lemma truthy_true (s : string) : truthy s = true <-> s <> "".
Proof. destruct s; simpl; split; congruence. Qed.

Lemma length_copies n c : String.length (copies n c) = n.
Proof. induction n; simpl; congruence. Qed.

Lemma filler_single n c cur :
  cur = "" \/ cur = String c "" ->
  filler n cur (String c "") = copies n c.
Proof.
  revert cur; induction n as [|n IH]; intros cur Hcur; [reflexivity|].
  destruct Hcur as [-> | ->]; simpl; rewrite IH; auto.
Qed.

(** Padding with a single character: the missing characters in front,
    nothing when the string is long enough. *)
Lemma padStart_single n c s :
  padStart n (String c "") s = copies (n - String.length s) c ++ s.
Proof.
  unfold padStart.
  destruct (Nat.leb_spec n (String.length s)) as [Hle | Hlt].
  - replace (n - String.length s)%nat with 0%nat by lia. reflexivity.
  - simpl. rewrite filler_single by auto. reflexivity.
Qed.

Lemma length_padStart_single n c s :
  String.length (padStart n (String c "") s) = Nat.max n (String.length s).
Proof.
  rewrite padStart_single, length_append, length_copies. lia.
Qed.

Lemma keep_sound p s c :
  In c (list_ascii_of_string (keep p s)) -> p c = true.
Proof.
  induction s as [|x s IH]; simpl; [tauto|].
  destruct (p x) eqn:E; simpl; auto.
  intros [<- | H]; auto.
Qed.

End StringFacts.

(** ** The GS1 element string *)

Module Gs1Facts.
Import JS AddItemModal StringFacts.

(** The string that [buildGs1String] accumulates is the concatenation
    of the [(AI)value] pairs of the present fields, in the fixed order. *)
Lemma buildGs1String_elements (formData : FormData) :
  buildGs1String formData
  = join (map (element formData) (filter (present formData) field_order)).
Proof.
  unfold buildGs1String, element, field_order, or_else.
  cbn [filter present raw].
  destruct (truthy (productionDate formData));
  destruct (truthy (bestBeforeDate formData));
  destruct (truthy (sellByDate formData));
  destruct (truthy (expirationDate formData));
  destruct (truthy (batchLot formData));
  destruct (truthy (serialNumber formData));
  destruct (truthy (weight formData));
  cbn [map join fold_right ai formatted raw];
  destruct (weightUnit formData =? "kg")%string;
  repeat rewrite append_assoc; rewrite ?append_nil_r; reflexivity.
Qed.

Lemma join_app (xs ys : list string) : join (xs ++ ys) = join xs ++ join ys.
Proof.
  induction xs as [|x xs IH]; simpl; [reflexivity|].
  now rewrite IH, append_assoc.
Qed.

(** A present field's pair occurs in the built string. *)
Lemma element_occurs (formData : FormData) (f : Field) :
  present formData f = true ->
  exists before after,
    buildGs1String formData = before ++ element formData f ++ after.
Proof.
  intros Hp. rewrite buildGs1String_elements.
  assert (Hin : In f (filter (present formData) field_order)).
  { apply filter_In. split; [|exact Hp]. unfold field_order.
    destruct f; simpl; tauto. }
  apply in_split in Hin. destruct Hin as (l1 & l2 & ->).
  exists (join (map (element formData) l1)),
         (join (map (element formData) l2)).
  now rewrite map_app, join_app.
Qed.

Lemma digit_not_hyphen (c : ascii) :
  is_digit c = true -> negb (Ascii.eqb c "-") = true.
Proof.
  intros H. destruct (Ascii.eqb_spec c "-") as [-> | _]; [|reflexivity].
  discriminate H.
Qed.

Lemma strip_hyphens_digit (c : ascii) (r : string) :
  is_digit c = true ->
  strip_hyphens (String c r) = String c (strip_hyphens r).
Proof.
  intros H. unfold strip_hyphens. cbn [keep].
  now rewrite (digit_not_hyphen c H).
Qed.

Lemma strip_hyphens_hyphen (r : string) :
  strip_hyphens (String "-" r) = strip_hyphens r.
Proof. reflexivity. Qed.

(** The shape of an ISO date. *)
Lemma is_iso_date_inv (s : string) :
  is_iso_date s = true ->
  exists y1 y2 y3 y4 m1 m2 d1 d2,
    s = string_of_list_ascii
          [y1; y2; y3; y4; "-"%char; m1; m2; "-"%char; d1; d2]
    /\ forallb is_digit [y1; y2; y3; y4; m1; m2; d1; d2] = true.
Proof.
  unfold is_iso_date. intros H.
  destruct s as [|y1 [|y2 [|y3 [|y4 [|h1 [|m1 [|m2 [|h2 [|d1 [|d2 [|x s]]]]]]]]]]];
    try discriminate H.
  cbn [list_ascii_of_string] in H.
  apply andb_prop in H. destruct H as [H H2].
  apply andb_prop in H. destruct H as [Hd H1].
  apply Ascii.eqb_eq in H1, H2. subst h1 h2.
  exists y1, y2, y3, y4, m1, m2, d1, d2. split; [reflexivity | exact Hd].
Qed.

(** On an ISO date [dateStr] is the last six characters of the date
    without its separators: [YYMMDD]. *)
Lemma dateStr_iso (s : string) :
  is_iso_date s = true ->
  dateStr s = last_chars 6 (strip_hyphens s)
  /\ String.length (dateStr s) = 6%nat
  /\ exists y1 y2 y3 y4 m1 m2 d1 d2,
       s = string_of_list_ascii
             [y1; y2; y3; y4; "-"%char; m1; m2; "-"%char; d1; d2]
       /\ dateStr s = string_of_list_ascii [y3; y4; m1; m2; d1; d2].
Proof.
  intros H. destruct (is_iso_date_inv s H)
    as (y1 & y2 & y3 & y4 & m1 & m2 & d1 & d2 & -> & Hd).
  cbn [forallb] in Hd.
  repeat (apply andb_prop in Hd; destruct Hd as [?Hc Hd]).
  assert (E : strip_hyphens
                (string_of_list_ascii
                   [y1; y2; y3; y4; "-"%char; m1; m2; "-"%char; d1; d2])
              = string_of_list_ascii [y1; y2; y3; y4; m1; m2; d1; d2]).
  { cbn [string_of_list_ascii].
    repeat first [ rewrite strip_hyphens_hyphen
                 | rewrite strip_hyphens_digit by assumption ].
    reflexivity. }
  unfold dateStr, last_chars. rewrite E.
  repeat split.
  exists y1, y2, y3, y4, m1, m2, d1, d2. split; reflexivity.
Qed.

(** C1, as the code has it: the display string that [handleSubmit]
    stores is the built string itself, which already lists each
    application identifier in parentheses, in the fixed field order,
    whichever optional fields are supplied; for the GTIN 00049000000443
    with sell-by date 2025-12-15 it is (01)00049000000443(16)251215. *)
Theorem gs1Display_is_the_built_string
    (existingItems : list Item) (editItem : option Item)
    (formData : FormData) (now : string) (saved : Item) :
  handleSubmit existingItems editItem formData now = Some saved ->
  isGs1Type formData = true ->
  gs1Display saved = Some (buildGs1String formData)
  /\ gs1String saved = gs1Display saved
  /\ buildGs1String formData
     = join (map (fun f => "(" ++ ai formData f ++ ")" ++ formatted formData f)
                 (filter (present formData) field_order))
  /\ buildGs1String milk_example = "(01)00049000000443(16)251215".
Proof.
  unfold handleSubmit. intros Hs Hg.
  destruct (validate existingItems editItem formData); [|discriminate Hs].
  injection Hs as <-. cbn [gs1Display gs1String]. rewrite Hg.
  repeat split. apply buildGs1String_elements.
Qed.

Lemma gs1Display_is_the_built_string_witness :
  gs1Display {| id := Some "1"; data := milk_form;
                gs1String := Some "(01)00049000000443(16)251215";
                gs1Display := Some "(01)00049000000443(16)251215";
                isCustom := false |}
  = Some (buildGs1String milk_form).
Proof.
  apply (gs1Display_is_the_built_string [] None milk_form "1"); reflexivity.
Defined.

(** C1 as stated fails: the string built for the example is not the
    bare digit string; it carries the parentheses itself. *)
Lemma built_string_is_not_bare_digits :
  buildGs1String milk_example <> "010004900000044316251215".
Proof. vm_compute. discriminate. Qed.

(** C2: the built string lists the present fields in the fixed order
    GTIN, production date (11), best-before date (15), sell-by date
    (16), expiration date (17), batch/lot (10), serial (21), net weight
    (3103 or 3203), each application identifier immediately followed by
    the field's formatted value; an absent optional field contributes
    nothing. *)
Theorem buildGs1String_fixed_field_order (formData : FormData) :
  buildGs1String formData
  = join (map (fun f => "(" ++ ai formData f ++ ")" ++ formatted formData f)
              (filter (present formData)
                 [GTIN; ProductionDate; BestBeforeDate; SellByDate;
                  ExpirationDate; BatchLot; Serial; NetWeight])).
Proof. apply buildGs1String_elements. Qed.

(** C6: without an explicit GTIN the GTIN field is the SKU padded on
    the left with 0 to fourteen characters; for the SKU 123456 it is
    00000000123456. *)
Theorem gtin_defaults_to_padded_sku (formData : FormData) :
  gtin formData = "" ->
  formatted formData GTIN
  = copies (14 - String.length (sku formData)) "0" ++ sku formData
  /\ String.length (formatted formData GTIN)
     = Nat.max 14 (String.length (sku formData))
  /\ buildGs1String formData
     = "(01)" ++ copies (14 - String.length (sku formData)) "0"
       ++ sku formData
       ++ join (map (element formData)
                    (filter (present formData) (tl field_order)))
  /\ formatted sku_example GTIN = "00000000123456"
  /\ buildGs1String sku_example = "(01)00000000123456".
Proof.
  intros Hg.
  assert (E : formatted formData GTIN
              = copies (14 - String.length (sku formData)) "0"
                ++ sku formData).
  { cbn [formatted]. rewrite Hg. cbn [truthy]. apply padStart_single. }
  split; [exact E|]. split.
  { cbn [formatted]. rewrite Hg. cbn [truthy].
    apply length_padStart_single. }
  split; [|split; reflexivity].
  rewrite buildGs1String_elements. unfold field_order.
  cbn [filter present tl map join fold_right]. unfold element at 1.
  rewrite E. cbn [ai]. now rewrite !append_assoc.
Qed.

Lemma gtin_defaults_to_padded_sku_witness :
  formatted sku_example GTIN
  = copies (14 - String.length (sku sku_example)) "0" ++ sku sku_example.
Proof. apply (gtin_defaults_to_padded_sku sku_example). reflexivity. Defined.

(** C8: a date field given as YYYY-MM-DD is emitted without its
    separators and cut to its last six characters, YYMMDD; this is so
    for each of the four date fields (11, 15, 16, 17). *)
Theorem iso_dates_become_yymmdd (formData : FormData) (f : Field) :
  In f date_fields ->
  is_iso_date (raw formData f) = true ->
  present formData f = true
  /\ formatted formData f = last_chars 6 (strip_hyphens (raw formData f))
  /\ String.length (formatted formData f) = 6%nat
  /\ (exists y1 y2 y3 y4 m1 m2 d1 d2,
        raw formData f
        = string_of_list_ascii
            [y1; y2; y3; y4; "-"%char; m1; m2; "-"%char; d1; d2]
        /\ formatted formData f
           = string_of_list_ascii [y3; y4; m1; m2; d1; d2])
  /\ (exists before after,
        buildGs1String formData
        = before ++ "(" ++ ai formData f ++ ")" ++ formatted formData f
          ++ after).
Proof.
  intros Hf Hiso.
  assert (Hp : present formData f = true).
  { destruct (is_iso_date_inv _ Hiso) as (y1 & ? & ? & ? & ? & ? & ? & ? & E & _).
    destruct f; cbn [present]; try reflexivity; rewrite E; reflexivity. }
  assert (Hfmt : formatted formData f = dateStr (raw formData f)).
  { unfold date_fields in Hf. simpl in Hf.
    destruct Hf as [<- | [<- | [<- | [<- | []]]]]; reflexivity. }
  destruct (dateStr_iso _ Hiso) as (Hlast & Hlen & Hshape).
  rewrite Hfmt. repeat split; try assumption.
  destruct (element_occurs formData f Hp) as (before & after & E).
  exists before, after. rewrite E. unfold element. rewrite Hfmt.
  now rewrite !append_assoc.
Qed.

Lemma iso_dates_become_yymmdd_witness :
  formatted milk_example SellByDate = "251215".
Proof.
  destruct (iso_dates_become_yymmdd milk_example SellByDate) as (_ & E & _).
  - simpl. tauto.
  - reflexivity.
  - rewrite E. reflexivity.
Defined.

(** The integer that [toFixed(0)] prints is a nearest one. *)
Lemma Qdiff_bound (n a : Z) (d : positive) :
  (2 * Z.abs (n * Zpos d - a) <= Zpos d)%Z ->
  (Qabs (inject_Z n - (a # d)) <= 1 # 2)%Q.
Proof.
  intros H. apply Qabs_Qle_condition.
  unfold Qle, Qminus, Qplus, Qopp; cbn [Qnum Qden inject_Z].
  rewrite ?Z.mul_1_r, ?Pos.mul_1_l. cbn [Z.opp].
  split; lia.
Qed.

Lemma round_half_up_nearest (m : positive) (e : Z) :
  (Qabs (inject_Z (Z.of_N (round_half_up m e)) - magnitude m e) <= 1 # 2)%Q.
Proof.
  assert (Hpos : forall e', (0 <= e')%Z ->
            Z.of_N (N.pos m * 2 ^ Z.to_N e') = (Z.pos m * 2 ^ e')%Z).
  { intros e' He. rewrite N2Z.inj_mul, N2Z.inj_pow, Z2N.id by exact He.
    reflexivity. }
  destruct e as [|k|k]; cbn [round_half_up magnitude].
  - unfold inject_Z at 2. apply Qdiff_bound. rewrite Hpos by lia. lia.
  - unfold inject_Z at 2. apply Qdiff_bound. rewrite Hpos by lia. lia.
  - apply Qdiff_bound.
    set (d := Pos.pow 2 k).
    pose proof (N.div_mod (2 * N.pos m + N.pos d) (2 * N.pos d)
                  ltac:(discriminate)) as Hdm.
    pose proof (N.mod_lt (2 * N.pos m + N.pos d) (2 * N.pos d)
                  ltac:(discriminate)) as Hlt.
    set (n := ((2 * N.pos m + N.pos d) / (2 * N.pos d))%N) in *.
    set (r := ((2 * N.pos m + N.pos d) mod (2 * N.pos d))%N) in *.
    nia.
Qed.

Lemma toFixed_0_finite (s : bool) (m : positive) (e : Z) :
  at_least_1e21 m e = false ->
  toFixed_0 (S754_finite s m e)
  = (if s then "-" else "") ++ decimal (round_half_up m e).
Proof. intros H. cbn [toFixed_0]. now rewrite H. Qed.

Lemma In_below (k : nat) (n : N) : (N.to_nat n < k)%nat -> In n (below k).
Proof.
  induction k as [|k IH]; intros H; [lia|]. cbn [below].
  destruct (Nat.eq_dec (N.to_nat n) k) as [E | E].
  - left. rewrite <- E. apply N2Nat.id.
  - right. apply IH. lia.
Qed.

(** X24: binary rounding does not show on weights given in
    thousandths: up to two units the scaled weight prints as the exact
    number of thousandths. *)
Lemma thousandths_print_exactly (n : N) :
  (n <= 2000)%N ->
  toFixed_0 (mul (parseFloat (thousandths_text n)) (literal 1000))
  = decimal n.
Proof.
  intros H.
  assert (All : forallb prints_thousandths (below (N.to_nat 2001)) = true)
    by (vm_compute; reflexivity).
  rewrite forallb_forall in All.
  apply String.eqb_eq. apply (All n). apply In_below. lia.
Qed.

Lemma thousandths_print_exactly_witness :
  toFixed_0 (mul (parseFloat (thousandths_text 1005)) (literal 1000))
  = decimal 1005.
Proof. apply (thousandths_print_exactly 1005). lia. Defined.

(** The weight comes last in the built string. *)
Lemma buildGs1String_weight_last (formData : FormData) :
  weight formData <> "" ->
  buildGs1String formData
  = join (map (element formData)
              (filter (present formData) (removelast field_order)))
    ++ element formData NetWeight.
Proof.
  intros Hw. apply truthy_true in Hw.
  rewrite buildGs1String_elements.
  change field_order with (removelast field_order ++ [NetWeight])%list.
  rewrite filter_app, map_app, join_app.
  cbn [filter present raw]. rewrite Hw.
  cbn [map join fold_right]. now rewrite append_nil_r.
Qed.

(** C7: a present weight is parsed, multiplied by 1000 and printed
    with [toFixed(0)], that is rounded to a nearest integer, then
    padded on the left with 0 to six characters; it is emitted last,
    under 3103 when the unit is kg and under 3203 when it is lb (or
    anything else); 1.5 kg gives (3103)001500. *)
Theorem weight_is_scaled_rounded_and_padded (formData : FormData) :
  weight formData <> "" ->
  let scaled := mul (parseFloat (weight formData)) (literal 1000) in
  buildGs1String formData
  = join (map (element formData)
              (filter (present formData) (removelast field_order)))
    ++ "(" ++ ai formData NetWeight ++ ")"
    ++ copies (6 - String.length (toFixed_0 scaled)) "0" ++ toFixed_0 scaled
  /\ ai formData NetWeight
     = (if String.eqb (weightUnit formData) "kg" then "3103" else "3203")
  /\ String.length (formatted formData NetWeight)
     = Nat.max 6 (String.length (toFixed_0 scaled))
  /\ (forall s m e,
        scaled = S754_finite s m e -> at_least_1e21 m e = false ->
        exists n : N,
          toFixed_0 scaled = (if s then "-" else "") ++ decimal n
          /\ (Qabs (inject_Z (Z.of_N n) - magnitude m e) <= 1 # 2)%Q)
  /\ buildGs1String weight_example = "(01)00012345678905(3103)001500".
Proof.
  intros Hw scaled. split; [|split; [|split; [|split]]].
  - rewrite (buildGs1String_weight_last formData Hw).
    unfold element. cbn [formatted]. fold scaled.
    now rewrite padStart_single.
  - reflexivity.
  - cbn [formatted]. fold scaled. apply length_padStart_single.
  - intros s m e E H21. exists (round_half_up m e). split.
    + rewrite E. now apply toFixed_0_finite.
    + apply round_half_up_nearest.
  - vm_compute. reflexivity.
Qed.

Lemma weight_is_scaled_rounded_and_padded_witness :
  buildGs1String weight_example
  = join (map (element weight_example)
              (filter (present weight_example) (removelast field_order)))
    ++ "(3103)" ++ copies (6 - 4) "0" ++ "1500".
Proof.
  destruct (weight_is_scaled_rounded_and_padded weight_example) as [H _].
  - discriminate.
  - exact H.
Defined.

(** A date block never throws: the string method is called only on
    what is truthy, and so a string. *)
Lemma add_date_returns (tag : string) (date : Untyped.value) (gs1 : string) :
  exists built, Untyped.add_date tag date gs1 = Untyped.Normal built.
Proof.
  unfold Untyped.add_date. destruct date as [|d]; cbn; [now eexists|].
  destruct (truthy d); cbn; now eexists.
Qed.




End Gs1Facts.


(** ** The linear barcode *)

Module LinearFacts.
Import JS Linear StringFacts.

Local Open Scope Z_scope.

(** The painting loops never change the size of the canvas. *)
Section Loops.
Variables barWidth height : Z.

Lemma draw_bit_size bit st :
  canvas_width (fst (draw_bit barWidth height bit st))
  = canvas_width (fst st)
  /\ canvas_height (fst (draw_bit barWidth height bit st))
     = canvas_height (fst st).
Proof. unfold draw_bit. destruct (Ascii.eqb bit "1"); split; reflexivity. Qed.

Lemma draw_bits_size pattern st :
  canvas_width (fst (for_of pattern (draw_bit barWidth height) st))
  = canvas_width (fst st)
  /\ canvas_height (fst (for_of pattern (draw_bit barWidth height) st))
     = canvas_height (fst st).
Proof.
  revert st; induction pattern as [|b p IH]; intro st; simpl; [tauto|].
  destruct (IH (draw_bit barWidth height b st)) as [-> ->].
  apply draw_bit_size.
Qed.

Lemma draw_digits_size code st :
  canvas_width (fst (for_of code (draw_digit barWidth height) st))
  = canvas_width (fst st)
  /\ canvas_height (fst (for_of code (draw_digit barWidth height) st))
     = canvas_height (fst st).
Proof.
  revert st; induction code as [|d code IH]; intro st; simpl; [tauto|].
  destruct (IH (draw_digit barWidth height d st)) as [-> ->].
  unfold draw_digit. cbn [fst]. apply draw_bits_size.
Qed.

Lemma draw_symbol_size code canvas :
  canvas_width (draw_symbol barWidth height code canvas)
  = canvas_width canvas
  /\ canvas_height (draw_symbol barWidth height code canvas)
     = canvas_height canvas.
Proof.
  unfold draw_symbol, bar. cbn [fst snd canvas_width canvas_height paint].
  match goal with
  | |- context [for_of code ?b ?s] =>
      destruct (draw_digits_size code s) as [-> ->]
  end.
  split; reflexivity.
Qed.
End Loops.

(** Every character left by the stripping is a digit with a pattern of
    its own, so the fallback to the pattern of 0 is never taken. *)
Lemma patterns_digit (c : ascii) :
  is_digit c = true -> exists p, patterns c = Some p /\ truthy p = true.
Proof.
  unfold is_digit. intros H.
  apply andb_prop in H. destruct H as [H1 H2].
  apply Nat.leb_le in H1, H2.
  rewrite <- (ascii_nat_embedding c).
  remember (nat_of_ascii c) as n eqn:E. clear E c.
  do 48 (destruct n as [|n]; [lia|]).
  do 10 (destruct n as [|n]; [cbv; eexists; split; reflexivity|]).
  lia.
Qed.

Lemma stripped_digits_have_patterns (value : string) (c : ascii) :
  In c (list_ascii_of_string (strip_non_digits value)) ->
  patterns c <> None.
Proof.
  intros H. apply keep_sound in H.
  destruct (patterns_digit c H) as (p & -> & _). discriminate.
Qed.

(** A number within the range of the attribute is kept. *)
Lemma limited_in_range (default assigned : Z) :
  0 <= assigned <= 2147483647 -> limited default assigned = assigned.
Proof.
  intros H. unfold limited. cbv zeta.
  rewrite Z.mod_small by (change (2 ^ 32) with 4294967296; lia).
  destruct (Z.leb_spec assigned 2147483647); [reflexivity | lia].
Qed.

(** Where the encoder paints: for a non-empty value the canvas is
    sized to stripped-length * 11 * 2 + 40 wide, and its height is what
    the attribute makes of height + 20. *)
Lemma Barcode_size (canvas : Canvas) (value : string) (height : Z) :
  value <> "" ->
  exists painted,
    Barcode (Some canvas) value height = Some painted
    /\ canvas_width painted
       = Z.of_nat (String.length (strip_non_digits value)) * 11 * 2 + 40
    /\ canvas_height painted = limited 150 (height + 20).
Proof.
  intros Hv. unfold Barcode.
  apply truthy_true in Hv. rewrite Hv. cbn [negb].
  eexists. split; [reflexivity|].
  cbn [paint canvas_width canvas_height].
  match goal with
  | |- context [draw_symbol ?b ?h ?code ?cv] =>
      destruct (draw_symbol_size b h code cv) as [-> ->]
  end.
  split; reflexivity.
Qed.




(** C3, as the code has it: a value without any digit never makes the
    encoder fail.  On the empty value the effect returns at once and
    leaves the canvas as it was; on any other such value it paints the
    background, the two bars of each guard and the text on a canvas 40
    wide, and no digit pattern at all. *)
Theorem Barcode_without_digits (canvas : Canvas) (value : string) (height : Z) :
  strip_non_digits value = "" ->
  Barcode (Some canvas) value height
  = Some (if truthy value
          then {| canvas_width := 40;
                  canvas_height := limited 150 (height + 20);
                  drawn :=
                    [FillRect white 0 0 40 (height + 20);
                     FillRect black 20 0 2 height;
                     FillRect black 24 0 2 height;
                     FillRect black 28 0 2 height;
                     FillRect black 32 0 2 height;
                     FillText "12px monospace" "center" value 20
                              (height + 15)] |}
          else canvas).
Proof.
  intros Hs. unfold Barcode. rewrite Hs.
  destruct (truthy value); reflexivity.
Qed.

Lemma Barcode_without_digits_witness :
  option_map bars (Barcode (Some fresh_canvas) "abc" 60)
  = Some [FillRect black 20 0 2 60; FillRect black 24 0 2 60;
          FillRect black 28 0 2 60; FillRect black 32 0 2 60].
Proof.
  rewrite (Barcode_without_digits fresh_canvas "abc" 60); reflexivity.
Defined.

(** C3 as stated fails: on the empty value no bar is painted. *)
Lemma Barcode_empty_value_paints_no_symbol :
  ~ (exists painted,
       Barcode (Some fresh_canvas) "" 60 = Some painted
       /\ bars painted <> []).
Proof.
  intros (painted & H & Hb). cbn in H. injection H as <-.
  apply Hb. reflexivity.
Qed.

End LinearFacts.

(** ** The bwip-js components *)

Module AdapterFacts.
Import JS Adapter.

(** C5: when the GS1-framed render of [DataMatrixBarcode] throws, the
    library is called exactly once more, with the value reduced to its
    digits and without the GS1 parsing flag; when that call throws too
    the error flag is set and the placeholder names the symbology and
    shows the raw value; there is no third call. *)
Theorem DataMatrixBarcode_retries_once
    (toCanvas : Options -> Outcome) (error : bool)
    (value : string) (gs1Data : option string) :
  toCanvas (datamatrix (barcodeData value gs1Data) true) = Thrown ->
  let retry := datamatrix (strip_non_digits value) false in
  let after := DataMatrixBarcode_effect toCanvas true error value gs1Data in
  calls after = [datamatrix (barcodeData value gs1Data) true; retry]
  /\ text retry = strip_non_digits value
  /\ parsefnc retry = false
  /\ Adapter.error after
     = match toCanvas retry with Thrown => true | Drawn => false end
  /\ DataMatrixBarcode_view true (Adapter.error after) value
     = match toCanvas retry with
       | Thrown => Placeholder "GS1 2D DataMatrix" value
       | Drawn => CanvasView
       end.
Proof.
  intros H1 retry after. subst retry after.
  unfold DataMatrixBarcode_effect. cbn [negb]. rewrite H1.
  destruct (toCanvas (datamatrix (strip_non_digits value) false));
    repeat split.
Qed.

Lemma DataMatrixBarcode_retries_once_witness :
  calls (DataMatrixBarcode_effect (fun _ => Thrown) true false
           "(01)00049000000443" None)
  = [datamatrix "(01)(01)00049000000443" true;
     datamatrix "0100049000000443" false].
Proof.
  destruct (DataMatrixBarcode_retries_once (fun _ => Thrown) false
              "(01)00049000000443" None) as [H _].
  - reflexivity.
  - exact H.
Defined.

(** X25: the Code 128 component has no framed render and no retry:
    one call, and the placeholder when it throws. *)
Lemma Code128Barcode_single_attempt
    (toCanvas : Options -> Outcome) (error : bool) (value : string) :
  let after := Code128Barcode_effect toCanvas true error value in
  calls after = [code128 value]
  /\ Code128Barcode_view true (Adapter.error after) value
     = match toCanvas (code128 value) with
       | Thrown => Placeholder "Code 128" value
       | Drawn => CanvasView
       end.
Proof.
  cbv zeta. unfold Code128Barcode_effect. cbn [negb].
  destruct (toCanvas (code128 value)); split; reflexivity.
Qed.

(** X26: whatever the library does, a render effect of the DataMatrix
    component calls it at most twice. *)
Lemma DataMatrixBarcode_at_most_two_calls
    (toCanvas : Options -> Outcome) (ready error : bool)
    (value : string) (gs1Data : option string) :
  (List.length
     (calls (DataMatrixBarcode_effect toCanvas ready error value gs1Data))
   <= 2)%nat.
Proof.
  unfold DataMatrixBarcode_effect.
  destruct ready; cbn [negb calls List.length]; [|lia].
  destruct (toCanvas _); [cbn; lia|].
  destruct (toCanvas _); cbn; lia.
Qed.

End AdapterFacts.

(** ** Duplicate SKUs *)

Module DuplicateFacts.
Import JS AddItemModal ImportModal ItemsView StringFacts.

Lemma has_add (k j : string) (s : StringSet) :
  has k (add j s) = true <-> k = j \/ has k s = true.
Proof.
  unfold has, add. split.
  - intros H. apply set_mem_correct1 in H.
    apply set_add_elim in H. destruct H as [H | H]; [now left | right].
    now apply set_mem_correct2.
  - intros [-> | H]; apply set_mem_correct2.
    + apply set_add_intro2. reflexivity.
    + apply set_add_intro1. now apply set_mem_correct1 in H.
Qed.

Lemma has_empty (k : string) : has k (empty_set string) = false.
Proof. reflexivity. Qed.

Lemma has_of_list (k : string) (l : list string) :
  has k (fold_right add (empty_set string) l) = true <-> In k l.
Proof.
  induction l as [|x l IH]; cbn [fold_right].
  - rewrite has_empty. split; [discriminate | intros []].
  - rewrite has_add, IH. cbn [In]. split; intros [H | H]; auto.
Qed.

(** [checkExistingDuplicate] finds an item exactly when some existing
    item has the same SKU up to letter case. *)
Lemma checkExistingDuplicate_Some existingItems sku e :
  checkExistingDuplicate existingItems sku = Some e ->
  In e existingItems /\ lower_sku e = toLowerCase sku.
Proof.
  unfold checkExistingDuplicate. intros H. apply find_some in H.
  destruct H as [Hin H]. apply String.eqb_eq in H. now split.
Qed.

Lemma checkExistingDuplicate_None existingItems sku :
  checkExistingDuplicate existingItems sku = None <->
  (forall e, In e existingItems -> lower_sku e <> toLowerCase sku).
Proof.
  unfold checkExistingDuplicate. split.
  - intros H e He E.
    pose proof (find_none _ _ H e He) as Hn. cbn in Hn.
    apply String.eqb_neq in Hn. now apply Hn.
  - intros H.
    destruct (find _ existingItems) as [e|] eqn:E; [|reflexivity].
    apply find_some in E. destruct E as [He E].
    apply String.eqb_eq in E. now destruct (H e He).
Qed.

Lemma seen_existsb (seen : StringSet) (before : list Item) (it : Item) :
  (forall k, has k seen = true <-> In k (map lower_sku before)) ->
  has (lower_sku it) seen
  = existsb (fun b => String.eqb (lower_sku b) (lower_sku it)) before.
Proof.
  intros H. apply Bool.eq_iff_eq_true.
  rewrite H, existsb_exists, in_map_iff.
  split; intros (b & Hb1 & Hb2).
  - exists b. split; [exact Hb2 | now apply String.eqb_eq].
  - exists b. split; [now apply String.eqb_eq | exact Hb1].
Qed.

Lemma preview_step_flag existingItems dupes seen before it :
  (forall k, has k seen = true <-> In k (map lower_sku before)) ->
  preview_step existingItems (dupes, seen) it
  = ((dupes ++ flag existingItems before it)%list, add (lower_sku it) seen).
Proof.
  intros H. unfold preview_step, flag. fold (lower_sku it).
  rewrite (seen_existsb seen before it H).
  destruct (checkExistingDuplicate existingItems (item_sku it));
    [reflexivity|].
  destruct (existsb _ before); [reflexivity|].
  now rewrite app_nil_r.
Qed.

Lemma preview_fold existingItems items :
  forall dupes seen before,
    (forall k, has k seen = true <-> In k (map lower_sku before)) ->
    fst (fold_left (preview_step existingItems) items (dupes, seen))
    = (dupes ++ flags existingItems before items)%list.
Proof.
  induction items as [|it rest IH]; intros dupes seen before H.
  - cbn. now rewrite app_nil_r.
  - cbn [fold_left flags].
    rewrite (preview_step_flag existingItems dupes seen before it H).
    rewrite (IH _ _ (before ++ [it])%list).
    + now rewrite app_assoc.
    + intros k. rewrite has_add, H, map_app, in_app_iff. cbn.
      split; intros [E | E]; auto.
      destruct E as [E | []]. now left.
Qed.

(** [handlePreview] in closed form. *)
Lemma handlePreview_flags existingItems items :
  handlePreview existingItems items = flags existingItems [] items.
Proof.
  unfold handlePreview.
  apply (preview_fold existingItems items [] (empty_set string) []).
  intros k. rewrite has_empty. cbn. split; [discriminate | tauto].
Qed.

Lemma flags_app existingItems before l1 l2 :
  flags existingItems before (l1 ++ l2)
  = (flags existingItems before l1
     ++ flags existingItems (before ++ l1) l2)%list.
Proof.
  revert before; induction l1 as [|x l1 IH]; intros earlier; cbn [flags app].
  - now rewrite app_nil_r.
  - rewrite IH, <- !app_assoc. reflexivity.
Qed.

(** An item is flagged exactly when an existing item, or an earlier
    item of the batch, has its SKU up to letter case. *)
Lemma flag_iff existingItems before it :
  flag existingItems before it <> [] <->
  (exists e, In e existingItems /\ lower_sku e = lower_sku it)
  \/ (exists b, In b before /\ lower_sku b = lower_sku it).
Proof.
  unfold flag.
  destruct (checkExistingDuplicate existingItems (item_sku it)) as [e|] eqn:E.
  - apply checkExistingDuplicate_Some in E.
    split; [intros _; left; now exists e | discriminate].
  - rewrite checkExistingDuplicate_None in E.
    destruct (existsb _ before) eqn:X.
    + apply existsb_exists in X. destruct X as (b & Hb & X).
      apply String.eqb_eq in X.
      split; [intros _; right; now exists b | discriminate].
    + split; [congruence|].
      intros [(e & He & Ee) | (b & Hb & Eb)].
      * now destruct (E e He).
      * assert (existsb (fun b => (lower_sku b =? lower_sku it)%string) before
                = true) as X'.
        { apply existsb_exists. exists b. split; [exact Hb|].
          now apply String.eqb_eq. }
        congruence.
Qed.

Lemma flag_item existingItems before it d :
  In d (flag existingItems before it) -> item d = it.
Proof.
  unfold flag.
  destruct (checkExistingDuplicate _ _); [|destruct (existsb _ _)];
    cbn; intuition (subst; reflexivity).
Qed.

(** A flagged item of the batch has an entry in [duplicates]. *)
Lemma flagged_in_flags existingItems before l1 it l2 :
  flag existingItems (before ++ l1) it <> [] ->
  exists d, In d (flags existingItems before (l1 ++ it :: l2))
            /\ item d = it.
Proof.
  intros H. rewrite flags_app. cbn [flags].
  destruct (flag existingItems (before ++ l1) it) as [|d ds] eqn:E;
    [congruence|].
  exists d. split.
  - apply in_or_app. right. cbn. now left.
  - apply (flag_item existingItems (before ++ l1) it). rewrite E. now left.
Qed.

Lemma itemsToImport_In preview duplicates it :
  In it (itemsToImport preview duplicates) <->
  In it preview
  /\ ~ In (lower_sku it) (map (fun d => lower_sku (item d)) duplicates).
Proof.
  unfold itemsToImport. rewrite filter_In.
  fold (lower_sku it).
  change (fun d => toLowerCase (item_sku (item d)))
    with (fun d => lower_sku (item d)).
  rewrite negb_true_iff, <- not_true_iff_false, has_of_list. tauto.
Qed.

(** No imported item has the SKU of an existing item, up to case. *)
Lemma imported_not_existing existingItems parsed it e :
  In it (itemsToImport parsed (handlePreview existingItems parsed)) ->
  In e existingItems -> lower_sku e <> lower_sku it.
Proof.
  rewrite itemsToImport_In, handlePreview_flags.
  intros [Hin Hnot] He E. apply Hnot.
  apply in_split in Hin. destruct Hin as (l1 & l2 & ->).
  destruct (flagged_in_flags existingItems [] l1 it l2) as (d & Hd & <-).
  - apply flag_iff. left. now exists e.
  - apply in_map_iff. now exists d.
Qed.

Lemma filter_first_occurrences {A} (f : A -> string) (keepb : A -> bool) l :
  (forall l1 a l2, l = (l1 ++ a :: l2)%list -> In (f a) (map f l1) ->
                   keepb a = false) ->
  NoDup (map f (filter keepb l)).
Proof.
  induction l as [|a l IH]; intros H; cbn [filter map]; [constructor|].
  assert (IH' : NoDup (map f (filter keepb l))).
  { apply IH. intros l1 b l2 -> Hb.
    apply (H (a :: l1) b l2); [reflexivity | cbn; now right]. }
  destruct (keepb a) eqn:Ka; [|exact IH'].
  cbn [map]. constructor; [|exact IH'].
  rewrite in_map_iff. intros (b & Eb & Hb).
  apply filter_In in Hb. destruct Hb as [Hb Kb].
  apply in_split in Hb. destruct Hb as (m1 & m2 & ->).
  rewrite (H (a :: m1) b m2) in Kb; [discriminate | reflexivity |].
  cbn. now left.
Qed.

(** No two imported items have the same SKU up to case. *)
Lemma imported_pairwise_distinct existingItems parsed :
  NoDup (map lower_sku
           (itemsToImport parsed (handlePreview existingItems parsed))).
Proof.
  unfold itemsToImport. apply filter_first_occurrences.
  intros l1 a l2 -> Ha.
  apply negb_false_iff, has_of_list.
  rewrite handlePreview_flags.
  destruct (flagged_in_flags existingItems [] l1 a l2) as (d & Hd & <-).
  - apply flag_iff. right. apply in_map_iff in Ha.
    destruct Ha as (b & Eb & Hb). now exists b.
  - apply in_map_iff. now exists d.
Qed.

Lemma NoDup_map_injective {A} (f : A -> string) l x y :
  NoDup (map f l) -> In x l -> In y l -> f x = f y -> x = y.
Proof.
  induction l as [|a l IH]; cbn [map]; intros Hn Hx Hy E; [destruct Hx|].
  inversion Hn as [|? ? Hnot Hn']; subst.
  destruct Hx as [<- | Hx], Hy as [<- | Hy]; auto.
  - destruct Hnot. rewrite E. now apply in_map.
  - destruct Hnot. rewrite <- E. now apply in_map.
Qed.

Lemma find_pointwise {A} (f g : A -> bool) l :
  (forall x, f x = g x) -> find f l = find g l.
Proof.
  intros H. induction l as [|a l IH]; cbn; [reflexivity|].
  now rewrite H, IH.
Qed.

(** [checkDuplicate] on a new item is the search for an existing item
    with the SKU up to letter case. *)
Lemma checkDuplicate_new existingItems sku :
  sku <> "" ->
  checkDuplicate existingItems None sku
  = checkExistingDuplicate existingItems sku.
Proof.
  intros H. apply truthy_true in H.
  unfold checkDuplicate, checkExistingDuplicate. rewrite H. cbn [negb].
  apply find_pointwise. intros x. apply andb_true_r.
Qed.

(** A form that validates has a SKU that no existing item has. *)
Lemma validate_new existingItems formData :
  validate existingItems None formData = true ->
  sku formData <> ""
  /\ forall e, In e existingItems ->
               lower_sku e <> toLowerCase (sku formData).
Proof.
  unfold validate, validate_errors. intros H.
  assert (Hs : sku formData <> "").
  { intros E. rewrite E in H. cbn in H.
    destruct (truthy (trim (name formData))); discriminate H. }
  split; [exact Hs|].
  rewrite (checkDuplicate_new _ _ Hs) in H.
  destruct (checkExistingDuplicate existingItems (sku formData)) eqn:E.
  - destruct (truthy (trim (name formData))); discriminate H.
  - now apply checkExistingDuplicate_None.
Qed.

Lemma handleSubmit_new existingItems formData now saved :
  handleSubmit existingItems None formData now = Some saved ->
  data saved = formData
  /\ forall e, In e existingItems -> lower_sku e <> lower_sku saved.
Proof.
  unfold handleSubmit. intros H.
  destruct (validate existingItems None formData) eqn:V; [|discriminate H].
  injection H as <-. split; [reflexivity|].
  apply (validate_new _ _ V).
Qed.


Lemma filed_under_filter custom dept :
  filed_under custom dept
  = filter (fun i => String.eqb (dept_of i) dept) custom.
Proof.
  unfold filed_under, filed_by.
  now destruct (filter _ custom).
Qed.

Lemma In_filed_under custom dept x :
  In x (filed_under custom dept) <-> In x custom /\ dept_of x = dept.
Proof.
  rewrite filed_under_filter, filter_In, String.eqb_eq. tauto.
Qed.

Section CatalogFacts.
Variable groups : list Group.

Lemma merged_items (st : State) (group : Group) :
  group_items
    (if String.eqb (group_id group) "Custom_Items" then group else
     match filed_by (customItems st) (group_id group) with
     | Some filed =>
         {| group_id := group_id group;
            group_items := (group_items group ++ map mark_custom filed)%list |}
     | None => group
     end)
  = if String.eqb (group_id group) "Custom_Items" then group_items group
    else (group_items group
          ++ map mark_custom (filed_under (customItems st) (group_id group)))%list.
Proof.
  unfold filed_under.
  destruct (String.eqb (group_id group) "Custom_Items"); [reflexivity|].
  destruct (filed_by (customItems st) (group_id group));
    [reflexivity|].
  cbn [map]. now rewrite app_nil_r.
Qed.

Lemma In_allGroups (st : State) (g0 : Group) :
  In g0 (allGroups groups st) <->
  (filed_under (customItems st) "Custom_Items" <> []
   /\ g0 = {| group_id := "Custom_Items";
              group_items := filed_under (customItems st) "Custom_Items" |})
  \/ (exists group,
        In group groups
        /\ g0 = {| group_id := group_id group;
                   group_items :=
                     filter (fun i =>
                               negb (includes (deletedItems st) (item_sku i)))
                            (group_items group) |}).
Proof.
  unfold allGroups, filed_under.
  destruct (filed_by (customItems st) "Custom_Items") as [own|] eqn:E.
  - assert (Hne : own <> []).
    { unfold filed_by in E.
      destruct (filter _ (customItems st)); [discriminate E|].
      injection E as <-. discriminate. }
    cbn [In]. rewrite in_map_iff. split.
    + intros [<- | (group & <- & Hg)]; [left; now split|].
      right. now exists group.
    + intros [[_ ->] | (group & Hg & ->)]; [now left|].
      right. now exists group.
  - rewrite in_map_iff. split.
    + intros (group & <- & Hg). right. now exists group.
    + intros [[Hne _] | (group & Hg & ->)]; [now destruct Hne|].
      now exists group.
Qed.

(** Where the members of [allExistingItems] come from: a custom item
    filed under Custom_Items, a catalog item that is not deleted, or a
    custom item merged into its catalog department. *)
Lemma In_allExistingItems (st : State) (x : Item) :
  In x (allExistingItems groups st) <->
  (In x (customItems st) /\ dept_of x = "Custom_Items")
  \/ (exists group,
        In group groups
        /\ ((In x (group_items group)
             /\ includes (deletedItems st) (item_sku x) = false)
            \/ (group_id group <> "Custom_Items"
                /\ exists y, In y (customItems st)
                             /\ dept_of y = group_id group
                             /\ x = mark_custom y))).
Proof.
  unfold allExistingItems, mergedGroups.
  rewrite in_flat_map. split.
  - intros (G & HG & Hx). apply in_map_iff in HG.
    destruct HG as (g0 & <- & Hg0). rewrite merged_items in Hx.
    apply In_allGroups in Hg0.
    destruct Hg0 as [[_ ->] | (group & Hg & ->)]; cbn [group_id group_items] in Hx.
    + left. now apply In_filed_under.
    + right. exists group. split; [exact Hg|].
      destruct (String.eqb_spec (group_id group) "Custom_Items") as [E | E].
      * left. apply filter_In in Hx. now rewrite negb_true_iff in Hx.
      * apply in_app_or in Hx. destruct Hx as [Hx | Hx].
        -- left. apply filter_In in Hx. now rewrite negb_true_iff in Hx.
        -- right. split; [exact E|]. apply in_map_iff in Hx.
           destruct Hx as (y & <- & Hy). apply In_filed_under in Hy.
           exists y. tauto.
  - intros [[Hx Hd] | (group & Hg & H)].
    + exists {| group_id := "Custom_Items";
                group_items := filed_under (customItems st) "Custom_Items" |}.
      assert (Hin : In x (filed_under (customItems st) "Custom_Items"))
        by now apply In_filed_under.
      split; [|exact Hin].
      apply in_map_iff.
      exists {| group_id := "Custom_Items";
                group_items := filed_under (customItems st) "Custom_Items" |}.
      split; [reflexivity|]. apply In_allGroups. left. split; [|reflexivity].
      intros E. now rewrite E in Hin.
    + set (g0 := {| group_id := group_id group;
                    group_items :=
                      filter (fun i =>
                                negb (includes (deletedItems st) (item_sku i)))
                             (group_items group) |}).
      assert (Hg0 : In g0 (allGroups groups st)).
      { apply In_allGroups. right. now exists group. }
      eexists. split; [apply in_map_iff; exists g0; split;
                       [reflexivity | exact Hg0]|].
      rewrite merged_items. cbn [group_id group_items g0].
      destruct H as [[Hx Hd] | (E & y & Hy & Hdy & ->)].
      * assert (In x (filter (fun i =>
                   negb (includes (deletedItems st) (item_sku i)))
                   (group_items group))).
        { apply filter_In. now rewrite negb_true_iff. }
        destruct (String.eqb (group_id group) "Custom_Items");
          [assumption | apply in_or_app; now left].
      * apply String.eqb_neq in E. rewrite E.
        apply in_or_app. right. apply in_map. now apply In_filed_under.
Qed.

(** Adding custom items adds no other SKU to [allExistingItems]. *)
Lemma allExistingItems_grow (custom news : list Item) (deleted : list string)
    (x : Item) :
  In x (allExistingItems groups
          {| customItems := (custom ++ news)%list; deletedItems := deleted |}) ->
  In x (allExistingItems groups
          {| customItems := custom; deletedItems := deleted |})
  \/ exists y, In y news /\ item_sku x = item_sku y.
Proof.
  rewrite !In_allExistingItems. cbn [customItems deletedItems].
  intros [[Hx Hd] | (group & Hg & [H | (E & y & Hy & Hdy & ->)])].
  - apply in_app_or in Hx. destruct Hx as [Hx | Hx].
    + left. left. now split.
    + right. now exists x.
  - left. right. exists group. split; [exact Hg | now left].
  - apply in_app_or in Hy. destruct Hy as [Hy | Hy].
    + left. right. exists group. split; [exact Hg|]. right.
      split; [exact E|]. now exists y.
    + right. now exists y.
Qed.

End CatalogFacts.

(** A list that grows only by SKUs that are new up to letter case, and
    distinct among themselves up to letter case, gets no case variants. *)
Lemma no_case_variants_grow (old grown news : list Item) :
  (forall x, In x grown ->
             In x old \/ exists y, In y news /\ item_sku x = item_sku y) ->
  (forall y e, In y news -> In e old -> lower_sku e <> lower_sku y) ->
  (forall y1 y2, In y1 news -> In y2 news -> lower_sku y1 = lower_sku y2 ->
                 item_sku y1 = item_sku y2) ->
  no_case_variants old -> no_case_variants grown.
Proof.
  intros Hgrow Hfresh Hnew Hold a b Ha Hb [Hne Heq].
  unfold lower_sku in *.
  destruct (Hgrow a Ha) as [Ha' | (y1 & Hy1 & E1)],
           (Hgrow b Hb) as [Hb' | (y2 & Hy2 & E2)].
  - apply (Hold a b Ha' Hb'). now split.
  - apply (Hfresh y2 a Hy2 Ha'). unfold lower_sku. now rewrite <- E2.
  - apply (Hfresh y1 b Hy1 Hb'). unfold lower_sku. now rewrite <- E1.
  - apply Hne. rewrite E1, E2. apply Hnew; try assumption.
    unfold lower_sku. now rewrite <- E1, <- E2.
Qed.

(** Saving a new item brings no SKU into [allExistingItems] that
    differs from another one only in letter case. *)
Lemma save_no_case_variants groups st formData now saved :
  handleSubmit (allExistingItems groups st) None formData now = Some saved ->
  no_case_variants (allExistingItems groups st) ->
  no_case_variants (allExistingItems groups (handleSaveItem_new st saved)).
Proof.
  intros Hs Hinv.
  apply handleSubmit_new in Hs. destruct Hs as [_ Hfresh].
  apply (no_case_variants_grow (allExistingItems groups st) _
           [mark_custom saved]); [| | |exact Hinv].
  - intros x Hx. destruct st as [custom deleted].
    now apply allExistingItems_grow in Hx.
  - intros y e [<- | []] He. now apply Hfresh.
  - intros y1 y2 [<- | []] [<- | []] _. reflexivity.
Qed.

(** Nor does importing a batch with the duplicates of a preview taken
    against the list as it is. *)
Lemma import_no_case_variants groups st parsed imported :
  handleImport parsed (handlePreview (allExistingItems groups st) parsed)
  = Some imported ->
  no_case_variants (allExistingItems groups st) ->
  no_case_variants (allExistingItems groups (onImport st imported)).
Proof.
  intros Hi Hinv. unfold handleImport in Hi.
  destruct parsed as [|p ps]; [discriminate Hi|].
  set (parsed := p :: ps) in *.
  set (existing := allExistingItems groups st) in *.
  assert (Himp : imported
                 = itemsToImport parsed (handlePreview existing parsed)).
  { destruct (itemsToImport parsed (handlePreview existing parsed));
      [discriminate Hi | now injection Hi]. }
  clear Hi.
  apply (no_case_variants_grow existing _ (map mark_custom imported));
    [| | |exact Hinv].
  - intros x Hx. destruct st as [custom deleted].
    now apply allExistingItems_grow in Hx.
  - intros y e Hy He. apply in_map_iff in Hy.
    destruct Hy as (z & <- & Hz). rewrite Himp in Hz.
    now apply (imported_not_existing existing parsed z e).
  - intros y1 y2 Hy1 Hy2 E. apply in_map_iff in Hy1, Hy2.
    destruct Hy1 as (z1 & <- & Hz1), Hy2 as (z2 & <- & Hz2).
    assert (Hnd : NoDup (map lower_sku imported))
      by (rewrite Himp; apply imported_pairwise_distinct).
    now rewrite (NoDup_map_injective lower_sku imported z1 z2 Hnd Hz1 Hz2 E).
Qed.

(** *** The body of the view as it runs *)

Lemma own_push (acc : Filed) (key : string) (it : Item) (d : string) :
  own (push acc key it) d
  = if String.eqb key d
    then option_map (fun filed => (filed ++ [it])%list) (own acc d)
    else own acc d.
Proof.
  induction acc as [|[k filed] rest IH]; cbn [push own option_map].
  - now destruct (String.eqb key d).
  - destruct (String.eqb_spec k key) as [-> | Nk]; cbn [own].
    + destruct (String.eqb_spec key d) as [-> | Nd]; reflexivity.
    + destruct (String.eqb_spec k d) as [-> | Nd].
      * apply String.eqb_neq in Nk. rewrite String.eqb_sym in Nk.
        now rewrite Nk.
      * exact IH.
Qed.

Lemma own_new (acc : Filed) (key : string) (filed : list Item) (d : string) :
  own (acc ++ [(key, filed)])%list d
  = match own acc d with
    | Some found => Some found
    | None => if String.eqb key d then Some filed else None
    end.
Proof.
  induction acc as [|[k f] rest IH]; cbn [app own]; [reflexivity|].
  now destruct (String.eqb k d).
Qed.

Lemma filed_by_app (custom : list Item) (it : Item) (d : string) :
  filed_by (custom ++ [it]) d
  = if String.eqb (dept_of it) d
    then Some (filed_under custom d ++ [it])%list
    else filed_by custom d.
Proof.
  unfold filed_under, filed_by. rewrite filter_app. cbn [filter].
  destruct (String.eqb (dept_of it) d).
  - destruct (filter _ custom); reflexivity.
  - now rewrite app_nil_r.
Qed.

Lemma file_returns (acc : Filed) (custom : list Item) (it : Item) :
  agrees acc custom ->
  inherited (dept_of it) = false ->
  exists acc', file acc it = Returns acc' /\ agrees acc' (custom ++ [it])%list.
Proof.
  intros Ha Hn. unfold file. cbv zeta. rewrite Hn.
  destruct (own acc (dept_of it)) as [found|] eqn:E.
  - eexists. split; [reflexivity|]. intros d.
    rewrite own_push, filed_by_app.
    destruct (String.eqb_spec (dept_of it) d) as [<- | N]; [|apply Ha].
    unfold filed_under. rewrite <- (Ha (dept_of it)), E. reflexivity.
  - eexists. split; [reflexivity|]. intros d.
    rewrite own_new, filed_by_app.
    destruct (String.eqb_spec (dept_of it) d) as [<- | N].
    + unfold filed_under. rewrite <- (Ha (dept_of it)), E. reflexivity.
    + rewrite (Ha d). now destruct (filed_by custom d).
Qed.

Lemma file_throws (acc : Filed) (custom : list Item) (it : Item) :
  agrees acc custom ->
  forallb (fun i => negb (inherited (dept_of i))) custom = true ->
  inherited (dept_of it) = true ->
  file acc it = Throws.
Proof.
  intros Ha Hc Hi. unfold file. cbv zeta. rewrite (Ha (dept_of it)), Hi.
  unfold filed_by.
  destruct (filter _ custom) as [|y ys] eqn:F; [reflexivity|]. exfalso.
  assert (Hy : In y (filter (fun i => String.eqb (dept_of i) (dept_of it))
                            custom)) by (rewrite F; now left).
  apply filter_In in Hy. destruct Hy as [Hy E]. apply String.eqb_eq in E.
  rewrite forallb_forall in Hc. specialize (Hc y Hy).
  rewrite E, Hi in Hc. discriminate Hc.
Qed.

Lemma reduce_throws (rest : list Item) :
  fold_left (fun acc item =>
               match acc with
               | Returns acc => file acc item
               | Throws => Throws
               end)
            rest Throws
  = Throws.
Proof. induction rest as [|y rest IH]; [reflexivity | exact IH]. Qed.

Lemma reduce_from (rest custom : list Item) (acc : Filed) :
  agrees acc custom ->
  forallb (fun i => negb (inherited (dept_of i))) custom = true ->
  if forallb (fun i => negb (inherited (dept_of i))) rest
  then exists acc',
         fold_left (fun acc item =>
                      match acc with
                      | Returns acc => file acc item
                      | Throws => Throws
                      end)
                   rest (Returns acc)
         = Returns acc'
         /\ agrees acc' (custom ++ rest)%list
  else fold_left (fun acc item =>
                    match acc with
                    | Returns acc => file acc item
                    | Throws => Throws
                    end)
                 rest (Returns acc)
       = Throws.
Proof.
  revert custom acc. induction rest as [|y rest IH]; intros custom acc Ha Hc.
  - cbn. exists acc. split; [reflexivity | now rewrite app_nil_r].
  - cbn [forallb fold_left].
    destruct (inherited (dept_of y)) eqn:Hi; cbn [negb andb].
    + rewrite (file_throws acc custom y Ha Hc Hi). apply reduce_throws.
    + destruct (file_returns acc custom y Ha Hi) as (acc1 & -> & Ha1).
      assert (Hc1 : forallb (fun i => negb (inherited (dept_of i)))
                            (custom ++ [y]) = true).
      { rewrite forallb_app, Hc. cbn [forallb andb]. now rewrite Hi. }
      specialize (IH (custom ++ [y])%list acc1 Ha1 Hc1).
      rewrite <- app_assoc in IH. exact IH.
Qed.

(** The [reduce] throws exactly when a custom item has a department
    that a plain object inherits; otherwise its keys hold what
    [filed_by] says. *)
Lemma customItemsByDept_runs (custom : list Item) :
  if forallb (fun i => negb (inherited (dept_of i))) custom
  then exists acc, customItemsByDept custom = Returns acc /\ agrees acc custom
  else customItemsByDept custom = Throws.
Proof.
  apply (reduce_from custom [] []); [|reflexivity].
  intros d. reflexivity.
Qed.

Lemma traverse_cases {A B : Type} (f : A -> outcome B) (g : A -> B)
    (ok : A -> bool) (l : list A) :
  (forall a, In a l -> f a = if ok a then Returns (g a) else Throws) ->
  traverse f l = if forallb ok l then Returns (map g l) else Throws.
Proof.
  induction l as [|a l IH]; intros H; [reflexivity|].
  cbn [traverse forallb map]. rewrite (H a (or_introl eq_refl)).
  destruct (ok a); [|reflexivity]. cbn [andb].
  rewrite IH by (intros b Hb; apply H; now right).
  now destruct (forallb ok l).
Qed.

Section RenderFacts.
Variable groups : list Group.

(** The body of the view returns [mergedGroups] when no department is
    a name that a plain object inherits, and throws otherwise. *)
Lemma render_cases (st : State) :
  render groups st
  = if renders groups st then Returns (mergedGroups groups st) else Throws.
Proof.
  unfold render, renders.
  pose proof (customItemsByDept_runs (customItems st)) as R.
  destruct (forallb (fun i => negb (inherited (dept_of i))) (customItems st))
    eqn:Hc; [|now rewrite R].
  destruct R as (acc & -> & Ha). cbn [andb]. cbv zeta. rewrite Ha.
  fold (allGroups groups st). unfold mergedGroups.
  set (ok := fun group : Group =>
               String.eqb (group_id group) "Custom_Items"
               || negb (inherited (group_id group))).
  assert (Hok : forallb ok (allGroups groups st) = forallb ok groups).
  { unfold allGroups.
    assert (K : forall l : list Group,
              forallb ok
                (map (fun group =>
                        {| group_id := group_id group;
                           group_items :=
                             filter (fun i =>
                                       negb (includes (deletedItems st)
                                               (item_sku i)))
                                    (group_items group) |}) l)
              = forallb ok l).
    { induction l as [|g l IH]; [reflexivity|]. cbn [map forallb].
      now rewrite IH. }
    destruct (filed_by (customItems st) "Custom_Items");
      cbn [forallb]; rewrite K; reflexivity. }
  rewrite <- Hok. apply traverse_cases.
  intros group _. unfold merge, ok. rewrite Ha.
  destruct (String.eqb (group_id group) "Custom_Items"); [reflexivity|].
  cbn [orb].
  destruct (inherited (group_id group)) eqn:Hi; cbn [negb].
  - unfold filed_by.
    destruct (filter _ (customItems st)) as [|y ys] eqn:F; [reflexivity|].
    exfalso.
    assert (Hy : In y (filter (fun i => String.eqb (dept_of i)
                                                  (group_id group))
                              (customItems st))) by (rewrite F; now left).
    apply filter_In in Hy. destruct Hy as [Hy E]. apply String.eqb_eq in E.
    rewrite forallb_forall in Hc. specialize (Hc y Hy).
    rewrite E, Hi in Hc. discriminate Hc.
  - now destruct (filed_by (customItems st) (group_id group)).
Qed.

Lemma render_returns (st : State) (merged : list Group) :
  render groups st = Returns merged ->
  renders groups st = true /\ merged = mergedGroups groups st.
Proof.
  rewrite render_cases. destruct (renders groups st); [|discriminate].
  intros E. injection E as <-. now split.
Qed.

End RenderFacts.


(** C10 as stated fails for imports: the second item of this batch is
    flagged although no existing item has its SKU. *)
Lemma batch_duplicate_is_flagged_without_existing_item :
  ~ (forall d,
       In d (handlePreview [] [entry "Cola" "ab12"; entry "Cola 2" "AB12"]) ->
       exists e, In e [] /\ lower_sku e = lower_sku (item d)).
Proof.
  intros H.
  destruct (H {| item := entry "Cola 2" "AB12"; conflictsWith := None;
                 reason := reason_batch |}) as (e & [] & _).
  vm_compute. now left.
Qed.



End DuplicateFacts.

Module LinearSpecFacts.
Import JS Linear StringFacts LinearSpec.

Local Open Scope Z_scope.

Lemma extend_extend c a b : extend (extend c a) b = extend c (a ++ b).
Proof. unfold extend. cbn. now rewrite app_assoc. Qed.

Lemma paint_extend op c : paint op c = extend c [op].
Proof. reflexivity. Qed.

Lemma extend_nil c : extend c [] = c.
Proof. destruct c. unfold extend. cbn. now rewrite app_nil_r. Qed.

Lemma pattern_of_length (d : ascii) : String.length (pattern_of d) = 7%nat.
Proof.
  unfold pattern_of. change (patterns "0") with (Some "1110010").
  unfold patterns.
  repeat match goal with
         | |- context [Ascii.eqb ?a ?b] => destruct (Ascii.eqb a b)
         end; reflexivity.
Qed.

(** The loop over the bits of a pattern, in closed form. *)
Lemma draw_bits_closed (height : Z) (pattern : string) :
  forall c x,
    for_of pattern (draw_bit 2 height) (c, x)
    = (extend c (map (bar_at height) (bit_positions pattern x)),
       x + 2 * Z.of_nat (String.length pattern)).
Proof.
  induction pattern as [|bit rest IH]; intros c x.
  - cbn. rewrite extend_nil. f_equal. lia.
  - cbn [for_of bit_positions String.length]. unfold draw_bit at 2.
    cbn [fst snd]. rewrite IH. unfold bar. cbn [fst snd].
    destruct (Ascii.eqb bit "1").
    + rewrite paint_extend, extend_extend. f_equal. lia.
    + cbn [app]. f_equal. lia.
Qed.

Lemma draw_digit_closed (height : Z) (digit : ascii) c x :
  draw_digit 2 height digit (c, x)
  = (extend c (map (bar_at height) (bit_positions (pattern_of digit) x)),
     x + 16).
Proof.
  unfold draw_digit. rewrite draw_bits_closed, pattern_of_length.
  cbn [fst snd]. f_equal. lia.
Qed.

(** The two bars of the end guard after the pen position of [st]. *)
Lemma end_guard_closed (height : Z) (c : Canvas) (x : Z) :
  bar 2 height (bar 2 height (c, x), x + 2 * 2)
  = extend c [bar_at height x; bar_at height (x + 4)].
Proof.
  unfold bar, extend, paint, bar_at. cbn. rewrite <- app_assoc. reflexivity.
Qed.

(** The loop over the digits and the end guard, in closed form. *)
Lemma draw_digits_closed (height : Z) (code : string) :
  forall c x,
    bar 2 height
      (bar 2 height (for_of code (draw_digit 2 height) (c, x)),
       snd (for_of code (draw_digit 2 height) (c, x)) + 2 * 2)
    = extend c (map (bar_at height) (digit_positions code x)).
Proof.
  induction code as [|digit rest IH]; intros c x.
  - cbn [for_of snd]. apply end_guard_closed.
  - cbn [for_of digit_positions]. rewrite draw_digit_closed.
    rewrite IH, extend_extend, map_app. reflexivity.
Qed.

Lemma draw_symbol_closed (height : Z) (code : string) (c : Canvas) :
  draw_symbol 2 height code c
  = extend c (map (bar_at height) (symbol_positions code)).
Proof.
  unfold draw_symbol, symbol_positions.
  cbn [fst snd]. rewrite (end_guard_closed height c 20).
  change (20 + 2 * 2 + 2 * 2) with 28.
  rewrite draw_digits_closed, extend_extend. reflexivity.
Qed.

Lemma bars_extend_white height (w hh : Z) (bg : DrawOp) (xs : list Z) txt :
  is_bar bg = false -> is_bar txt = false ->
  filter is_bar (([bg] ++ map (bar_at height) xs) ++ [txt])
  = map (bar_at height) xs.
Proof.
  intros Hb Ht. rewrite filter_app. cbn [app filter]. rewrite Hb, Ht.
  rewrite app_nil_r. induction xs as [|x xs IH]; [reflexivity|].
  cbn [map filter]. rewrite IH. reflexivity.
Qed.

(** The bars painted for a non-empty value are those of the closed
    form, for the digits of the value. *)
Lemma Barcode_bars (canvas : Canvas) (value : string) (height : Z) :
  value <> "" ->
  exists painted,
    Barcode (Some canvas) value height = Some painted
    /\ canvas_width painted
       = Z.of_nat (String.length (strip_non_digits value)) * 11 * 2 + 40
    /\ bars painted
       = map (bar_at height) (symbol_positions (strip_non_digits value)).
Proof.
  intros Hv. apply truthy_true in Hv. unfold Barcode. rewrite Hv. cbn [negb].
  eexists. split; [reflexivity|].
  rewrite draw_symbol_closed. split; [reflexivity|].
  unfold bars, extend, paint, resize. cbn [drawn app].
  apply (bars_extend_white height 0 0); reflexivity.
Qed.

Lemma bit_positions_bounds pattern :
  forall x p, In p (bit_positions pattern x) ->
              x <= p < x + 2 * Z.of_nat (String.length pattern).
Proof.
  induction pattern as [|bit rest IH]; intros x p Hp; [destruct Hp|].
  cbn [bit_positions String.length] in *. apply in_app_or in Hp.
  destruct Hp as [Hp | Hp].
  - destruct (Ascii.eqb bit "1"); [|destruct Hp].
    destruct Hp as [<- | []]. lia.
  - apply IH in Hp. lia.
Qed.

Lemma digit_positions_bounds code :
  forall x p, In p (digit_positions code x) ->
              x <= p <= x + 16 * Z.of_nat (String.length code) + 4.
Proof.
  induction code as [|digit rest IH]; intros x p Hp.
  - cbn in Hp. cbn [String.length]. destruct Hp as [<- | [<- | []]]; lia.
  - cbn [digit_positions String.length] in *. apply in_app_or in Hp.
    destruct Hp as [Hp | Hp].
    + apply bit_positions_bounds in Hp. rewrite pattern_of_length in Hp. lia.
    + apply IH in Hp. lia.
Qed.



(** The ten digits. *)
Lemma digit_cases (c : ascii) :
  is_digit c = true ->
  In c ["0"; "1"; "2"; "3"; "4"; "5"; "6"; "7"; "8"; "9"]%char.
Proof.
  unfold is_digit. intros H.
  apply andb_prop in H. destruct H as [H1 H2].
  apply Nat.leb_le in H1, H2.
  rewrite <- (ascii_nat_embedding c).
  remember (nat_of_ascii c) as n eqn:E. clear E c.
  do 48 (destruct n as [|n]; [lia|]).
  do 10 (destruct n as [|n]; [cbv; tauto|]).
  lia.
Qed.

(** No two digits have the same bars. *)
Lemma bit_positions_digit_inj (d1 d2 : ascii) (x : Z) :
  is_digit d1 = true -> is_digit d2 = true ->
  bit_positions (pattern_of d1) x = bit_positions (pattern_of d2) x ->
  d1 = d2.
Proof.
  intros H1 H2 E. apply digit_cases in H1, H2. cbn [In] in H1, H2.
  destruct H1 as [<-|[<-|[<-|[<-|[<-|[<-|[<-|[<-|[<-|[<-|[]]]]]]]]]]];
  destruct H2 as [<-|[<-|[<-|[<-|[<-|[<-|[<-|[<-|[<-|[<-|[]]]]]]]]]]];
  try reflexivity; exfalso; cbn in E;
  first [ discriminate E | inversion E; lia ].
Qed.

Lemma app_split_by_bound (B : Z) (l1 l2 r1 r2 : list Z) :
  (forall p, In p l1 -> p < B) -> (forall p, In p l2 -> p < B) ->
  (forall p, In p r1 -> B <= p) -> (forall p, In p r2 -> B <= p) ->
  (l1 ++ r1 = l2 ++ r2)%list -> l1 = l2 /\ r1 = r2.
Proof.
  revert l2. induction l1 as [|a l1 IH]; intros [|b l2] Hl1 Hl2 Hr1 Hr2 E.
  - now split.
  - exfalso. cbn in E. subst r1.
    specialize (Hl2 b (or_introl eq_refl)).
    specialize (Hr1 b (or_introl eq_refl)). lia.
  - exfalso. cbn in E. subst r2.
    specialize (Hl1 a (or_introl eq_refl)).
    specialize (Hr2 a (or_introl eq_refl)). lia.
  - cbn in E. injection E as -> E.
    destruct (IH l2) as [-> ->]; auto.
    + intros p Hp. apply Hl1. now right.
    + intros p Hp. apply Hl2. now right.
Qed.

Lemma digit_positions_last code x :
  In (x + 16 * Z.of_nat (String.length code) + 4) (digit_positions code x).
Proof.
  revert x. induction code as [|d r IH]; intro x.
  - cbn. right. left. lia.
  - cbn [digit_positions String.length]. apply in_or_app. right.
    replace (x + 16 * Z.of_nat (S (String.length r)) + 4)
      with (x + 16 + 16 * Z.of_nat (String.length r) + 4) by lia.
    apply IH.
Qed.

(** The bars determine the digits. *)
Lemma digit_positions_inj (c1 : string) :
  forall c2 x,
    (forall c, In c (list_ascii_of_string c1) -> is_digit c = true) ->
    (forall c, In c (list_ascii_of_string c2) -> is_digit c = true) ->
    digit_positions c1 x = digit_positions c2 x -> c1 = c2.
Proof.
  induction c1 as [|d1 r1 IH]; intros [|d2 r2] x H1 H2 E.
  - reflexivity.
  - exfalso. cbn [digit_positions] in E.
    pose proof (digit_positions_last r2 (x + 16)) as Hl.
    assert (Hin : In (x + 16 + 16 * Z.of_nat (String.length r2) + 4)
                     [x; x + 4]).
    { rewrite E. apply in_or_app. now right. }
    destruct Hin as [Hin | [Hin | []]]; lia.
  - exfalso. cbn [digit_positions] in E.
    pose proof (digit_positions_last r1 (x + 16)) as Hl.
    assert (Hin : In (x + 16 + 16 * Z.of_nat (String.length r1) + 4)
                     [x; x + 4]).
    { rewrite <- E. apply in_or_app. now right. }
    destruct Hin as [Hin | [Hin | []]]; lia.
  - cbn [digit_positions] in E.
    apply (app_split_by_bound (x + 14)) in E.
    + destruct E as [Eb Er].
      apply bit_positions_digit_inj in Eb;
        [| apply H1; now left | apply H2; now left].
      subst d2. f_equal. apply (IH r2 (x + 16)); auto.
      * intros c Hc. apply H1. now right.
      * intros c Hc. apply H2. now right.
    + intros p Hp. apply bit_positions_bounds in Hp.
      rewrite pattern_of_length in Hp. lia.
    + intros p Hp. apply bit_positions_bounds in Hp.
      rewrite pattern_of_length in Hp. lia.
    + intros p Hp. apply digit_positions_bounds in Hp. lia.
    + intros p Hp. apply digit_positions_bounds in Hp. lia.
Qed.

Lemma map_bar_at_inj height (xs ys : list Z) :
  map (bar_at height) xs = map (bar_at height) ys -> xs = ys.
Proof.
  revert ys. induction xs as [|x xs IH]; intros [|y ys] E;
    try discriminate E; [reflexivity|].
  cbn in E. injection E as -> E. f_equal. now apply IH.
Qed.

(** X2: two values that are not empty are painted with the same bars
    exactly when they have the same digits: what is not a digit never
    shows, and no two digit strings share a symbol. *)
Theorem Barcode_bars_determine_digits
    (canvas1 canvas2 : Canvas) (value1 value2 : string) (height : Z) :
  value1 <> "" -> value2 <> "" ->
  (option_map bars (Barcode (Some canvas1) value1 height)
   = option_map bars (Barcode (Some canvas2) value2 height)
   <-> strip_non_digits value1 = strip_non_digits value2).
Proof.
  intros H1 H2.
  destruct (Barcode_bars canvas1 value1 height H1) as (p1 & -> & _ & B1).
  destruct (Barcode_bars canvas2 value2 height H2) as (p2 & -> & _ & B2).
  cbn [option_map]. rewrite B1, B2. split.
  - intros E. assert (E' : symbol_positions (strip_non_digits value1)
                             = symbol_positions (strip_non_digits value2)).
    { apply (map_bar_at_inj height). congruence. }
    unfold symbol_positions in E'.
    assert (E2 : digit_positions (strip_non_digits value1) 28
                 = digit_positions (strip_non_digits value2) 28)
      by congruence.
    apply (digit_positions_inj _ _ 28); [| | exact E2];
      intros c Hc; apply (keep_sound _ _ _ Hc).
  - now intros ->.
Qed.

Lemma Barcode_bars_determine_digits_witness :
  option_map bars (Barcode (Some fresh_canvas) "40-11" 50)
  = option_map bars (Barcode (Some (resize 10 10 fresh_canvas)) "4011" 50).
Proof.
  apply (Barcode_bars_determine_digits fresh_canvas
           (resize 10 10 fresh_canvas) "40-11" "4011" 50);
    [discriminate | discriminate | reflexivity].
Defined.

End LinearSpecFacts.

Module LifecycleFacts.
Import JS Adapter Lifecycle.

Lemma run_effect_failed toCanvas (c : Component) :
  failed c = true ->
  failed (run_effect toCanvas c) = true
  /\ trace (run_effect toCanvas c) = trace c.
Proof.
  intros H. unfold run_effect, DataMatrixBarcode_view. rewrite H.
  rewrite andb_false_r. cbn. now rewrite app_nil_r.
Qed.

Lemma handle_failed toCanvas (c : Component) (ev : Event) :
  failed c = true ->
  failed (handle toCanvas c ev) = true
  /\ trace (handle toCanvas c ev) = trace c.
Proof.
  intros H. destruct ev as [| |v g s]; cbn [handle].
  - destruct (loaded c); [now split|].
    exact (run_effect_failed toCanvas
             {| loaded := true; failed := failed c; value := value c;
                gs1Data := gs1Data c; size := size c; trace := trace c |} H).
  - now split.
  - destruct (same_props c v g s); [now split|].
    exact (run_effect_failed toCanvas
             {| loaded := loaded c; failed := failed c; value := v;
                gs1Data := g; size := s; trace := trace c |} H).
Qed.

(** X3: a DataMatrix component whose error flag is set shows the
    placeholder, which has no canvas, so its render effect returns
    before it calls the library: whatever props and script events
    follow, the flag stays set and the library is not called again. *)
Theorem DataMatrixBarcode_failure_is_final
    (toCanvas : Options -> Outcome) (events : list Event) (c : Component) :
  failed c = true ->
  failed (run toCanvas events c) = true
  /\ trace (run toCanvas events c) = trace c.
Proof.
  revert c. induction events as [|ev events IH]; intros c H; [now split|].
  cbn [run fold_left].
  destruct (handle_failed toCanvas c ev H) as [Hf Ht].
  destruct (IH _ Hf) as [Hf' Ht']. unfold run in *. now rewrite Ht', Ht.
Qed.

Lemma DataMatrixBarcode_failure_is_final_witness :
  failed (run (fun _ => Drawn) [Props "4012" None 150; ScriptLoaded]
            {| loaded := false; failed := true; value := "4011";
               gs1Data := None; size := 150; trace := [] |})
  = true.
Proof.
  apply (DataMatrixBarcode_failure_is_final (fun _ => Drawn)
           [Props "4012" None 150; ScriptLoaded]
           {| loaded := false; failed := true; value := "4011";
              gs1Data := None; size := 150; trace := [] |}).
  reflexivity.
Defined.

End LifecycleFacts.

Module SubmitFacts.
Import JS AddItemModal ImportModal ItemsView ItemsViewMore StringFacts
  Gs1Facts DuplicateFacts Adapter.

Lemma keep_app p (a b : string) : keep p (a ++ b) = keep p a ++ keep p b.
Proof.
  induction a as [|c a IH]; cbn; [reflexivity|].
  destruct (p c); cbn; now rewrite IH.
Qed.

Lemma strip_join (f : string -> string) (parts : list string) :
  (forall a b, f (a ++ b) = f a ++ f b) -> f "" = "" ->
  f (join parts) = join (map f parts).
Proof.
  intros Happ Hnil. induction parts as [|p parts IH]; [exact Hnil|].
  change (join (p :: parts)) with (p ++ join parts).
  change (join (map f (p :: parts))) with (f p ++ join (map f parts)).
  now rewrite Happ, IH.
Qed.

Lemma strip_ai (formData : FormData) (f : Field) :
  strip_non_digits (ai formData f) = ai formData f.
Proof.
  destruct f; cbn [ai]; try reflexivity.
  destruct (String.eqb (weightUnit formData) "kg"); reflexivity.
Qed.

(** X4: the digits of the built string, which is what the DataMatrix
    component encodes when the framed render throws, are the
    application identifiers and the digits of the values in the order
    of the fields: the parentheses go, and so does every character of
    a lot or serial number that is not a digit. *)
Theorem digits_of_built_string (formData : FormData) :
  strip_non_digits (buildGs1String formData)
  = join (map (fun f => ai formData f
                        ++ strip_non_digits (formatted formData f))
              (filter (present formData) field_order)).
Proof.
  rewrite buildGs1String_elements.
  rewrite (strip_join strip_non_digits);
    [| intros a b; apply keep_app | reflexivity].
  rewrite map_map. f_equal. apply map_ext. intros f. unfold element.
  unfold strip_non_digits. rewrite !keep_app.
  fold (strip_non_digits (ai formData f)). rewrite strip_ai.
  reflexivity.
Qed.

Lemma buildGs1String_truthy (formData : FormData) :
  truthy (buildGs1String formData) = true.
Proof. rewrite buildGs1String_elements. reflexivity. Qed.

(** X5: an item saved from the form is drawn, before and after it is
    marked as custom, as a DataMatrix of the built GS1 string for the
    types GS1 2D and GS1 QR, as a Code 128 of the built string for
    GS1-128 and of the SKU for Code 128, as a DataMatrix of the SKU for
    QR and as the linear barcode of the SKU otherwise; the DataMatrix
    component encodes the built string as it is, and the bare SKU
    behind (01). *)
Theorem saved_item_symbol
    (existingItems : list Item) (editItem : option Item)
    (formData : FormData) (now : string) (saved : Item) :
  handleSubmit existingItems editItem formData now = Some saved ->
  let type := barcodeType formData in
  let built := buildGs1String formData in
  item_symbol (mark_custom saved) = item_symbol saved
  /\ item_symbol saved
     = (if String.eqb type "GS1 2D" || String.eqb type "GS1 QR"
        then DataMatrixSymbol built (Some built)
        else if String.eqb type "GS1-128" then Code128Symbol built
        else if String.eqb type "Code 128" then Code128Symbol (sku formData)
        else if String.eqb type "QR"
             then DataMatrixSymbol (sku formData) None
        else LinearSymbol (sku formData))
  /\ barcodeData built (Some built) = built
  /\ barcodeData (sku formData) None = "(01)" ++ sku formData.
Proof.
  intros Hs type built. unfold handleSubmit in Hs.
  destruct (validate existingItems editItem formData); [|discriminate Hs].
  injection Hs as <-. split; [reflexivity|]. split.
  - unfold item_symbol, gs1String_or_sku, item_sku, isGs1Type.
    cbn [data gs1String]. fold type. fold built.
    pose proof (buildGs1String_truthy formData) as Ht. fold built in Ht.
    destruct (String.eqb_spec type "GS1 2D") as [E1|E1];
      [cbn; now rewrite Ht|].
    destruct (String.eqb_spec type "GS1 QR") as [E2|E2];
      [cbn; now rewrite Ht|].
    destruct (String.eqb_spec type "GS1-128") as [E3|E3].
    + rewrite E3. cbn. now rewrite Ht.
    + cbn [orb]. destruct (String.eqb_spec type "Code 128"); reflexivity.
  - split; [|reflexivity]. unfold barcodeData.
    pose proof (buildGs1String_truthy formData) as Ht. fold built in Ht.
    now rewrite Ht.
Qed.

Lemma saved_item_symbol_witness :
  exists saved,
    handleSubmit [] None milk_form "1765000000000" = Some saved
    /\ item_symbol saved
       = DataMatrixSymbol "(01)00049000000443(16)251215"
           (Some "(01)00049000000443(16)251215").
Proof.
  eexists. split; [reflexivity|].
  destruct (saved_item_symbol [] None milk_form "1765000000000" _ eq_refl)
    as (_ & H & _).
  exact H.
Defined.

(** X6: while an item is edited, a SKU is reported as a duplicate
    exactly when it is not empty, differs up to letter case from the
    SKU of the edited item, and is up to letter case the SKU of an
    existing item. *)
Theorem checkDuplicate_while_editing
    (existingItems : list Item) (editItem : Item) (sku : string) :
  checkDuplicate existingItems (Some editItem) sku <> None <->
  sku <> ""
  /\ toLowerCase sku <> lower_sku editItem
  /\ exists other, In other existingItems
                   /\ lower_sku other = toLowerCase sku.
Proof.
  unfold checkDuplicate. destruct (truthy sku) eqn:T; cbn [negb].
  - apply truthy_true in T. split.
    + intros H.
      destruct (find _ existingItems) as [x|] eqn:F; [|congruence].
      apply find_some in F. destruct F as [Hx F].
      apply andb_prop in F. destruct F as [F1 F2].
      apply String.eqb_eq in F1. apply negb_true_iff, String.eqb_neq in F2.
      split; [exact T|]. split.
      * intros E. apply F2. unfold lower_sku in E. congruence.
      * exists x. now split.
    + intros (_ & Hne & other & Ho & Eo) F.
      pose proof (find_none _ _ F other Ho) as N. cbn beta in N.
      unfold lower_sku in *. rewrite Eo, String.eqb_refl in N.
      cbn [andb] in N.
      apply negb_false_iff, String.eqb_eq in N. congruence.
  - apply not_true_iff_false in T. rewrite truthy_true in T.
    split; [congruence | intros [H _]; now destruct T].
Qed.

(** X7: the form is submitted, with the form data as they are, exactly
    when the trimmed name and the trimmed SKU are not empty, the SKU
    is at most 50 characters long and is no duplicate. *)
Theorem handleSubmit_accepts_iff
    (existingItems : list Item) (editItem : option Item)
    (formData : FormData) (now : string) :
  (exists saved,
      handleSubmit existingItems editItem formData now = Some saved
      /\ data saved = formData)
  <->
  trim (name formData) <> ""
  /\ trim (sku formData) <> ""
  /\ (String.length (sku formData) <= 50)%nat
  /\ checkDuplicate existingItems editItem (sku formData) = None.
Proof.
  unfold handleSubmit, validate, validate_errors.
  destruct (truthy (trim (name formData))) eqn:Tn;
  destruct (truthy (trim (sku formData))) eqn:Ts;
  destruct (Nat.ltb_spec 50 (String.length (sku formData))) as [L|L];
  destruct (checkDuplicate existingItems editItem (sku formData)) eqn:D;
  cbn [negb];
  try apply truthy_true in Tn; try apply truthy_true in Ts;
  try (apply not_true_iff_false in Tn; rewrite truthy_true in Tn);
  try (apply not_true_iff_false in Ts; rewrite truthy_true in Ts);
  split;
  try (intros (saved & H & _); discriminate H);
  try (intros (H1 & H2 & H3 & H4); first [ tauto | lia | discriminate H4 ]).
  - intros _. repeat split; auto.
  - intros _. eexists. split; reflexivity.
Qed.

End SubmitFacts.

Module ImportFacts.
Import JS AddItemModal ImportModal ItemsView ItemsViewMore StringFacts
  DuplicateFacts.

Lemma flag_cases existingItems before it d :
  In d (flag existingItems before it) ->
  item d = it
  /\ ((exists e, reason d = reason_exists /\ conflictsWith d = Some e
                 /\ In e existingItems /\ lower_sku e = lower_sku it)
      \/ (reason d = reason_batch /\ conflictsWith d = None
          /\ (forall e, In e existingItems -> lower_sku e <> lower_sku it)
          /\ exists b, In b before /\ lower_sku b = lower_sku it)).
Proof.
  unfold flag.
  destruct (checkExistingDuplicate existingItems (item_sku it)) as [e|] eqn:E.
  - intros [<- | []]. split; [reflexivity|]. left. exists e.
    apply checkExistingDuplicate_Some in E. cbn. tauto.
  - destruct (existsb _ before) eqn:X; [|intros []].
    intros [<- | []]. split; [reflexivity|]. right. cbn.
    rewrite checkExistingDuplicate_None in E.
    apply existsb_exists in X. destruct X as (b & Hb & X).
    apply String.eqb_eq in X. repeat split; auto. now exists b.
Qed.

(** Every entry of the duplicates belongs to an item of the batch. *)
Lemma In_flags existingItems items :
  forall before d,
    In d (flags existingItems before items) ->
    exists l1 l2,
      items = (l1 ++ item d :: l2)%list
      /\ In d (flag existingItems (before ++ l1) (item d)).
Proof.
  induction items as [|it rest IH]; intros before d Hd; [destruct Hd|].
  cbn [flags] in Hd. apply in_app_or in Hd. destruct Hd as [Hd | Hd].
  - pose proof (flag_item _ _ _ _ Hd) as E. subst it.
    exists [], rest. split; [reflexivity|]. now rewrite app_nil_r.
  - destruct (IH _ _ Hd) as (l1 & l2 & -> & Hf).
    exists (it :: l1), l2. split; [reflexivity|].
    now rewrite <- app_assoc in Hf.
Qed.

(** X8: every entry of the duplicates of a preview is about an item of
    the batch and says why it is there: an entry marked as existing
    carries an existing item with the same SKU up to letter case; an
    entry marked as batch carries none, no existing item has its SKU,
    and an earlier item of the batch has it. *)
Theorem duplicate_entries_are_justified
    (existingItems parsed : list Item) (d : Dupe) :
  In d (handlePreview existingItems parsed) ->
  exists earlier later,
    parsed = (earlier ++ item d :: later)%list
    /\ ((exists e, reason d = reason_exists /\ conflictsWith d = Some e
                   /\ In e existingItems
                   /\ lower_sku e = lower_sku (item d))
        \/ (reason d = reason_batch /\ conflictsWith d = None
            /\ (forall e, In e existingItems ->
                          lower_sku e <> lower_sku (item d))
            /\ exists b, In b earlier /\ lower_sku b = lower_sku (item d))).
Proof.
  rewrite handlePreview_flags. intros Hd.
  destruct (In_flags _ _ _ _ Hd) as (l1 & l2 & E & Hf).
  exists l1, l2. split; [exact E|].
  apply flag_cases in Hf. cbn [app] in Hf. tauto.
Qed.

Lemma duplicate_entries_are_justified_witness :
  exists earlier later,
    [entry "Cola" "ab12"; entry "Cola 2" "AB12"]
    = (earlier ++ entry "Cola 2" "AB12" :: later)%list
    /\ exists b, In b earlier /\ lower_sku b = "ab12".
Proof.
  destruct (duplicate_entries_are_justified []
              [entry "Cola" "ab12"; entry "Cola 2" "AB12"]
              {| item := entry "Cola 2" "AB12"; conflictsWith := None;
                 reason := reason_batch |})
    as (earlier & later & E & [(e & R & _) | (_ & _ & _ & H)]).
  - cbn. now left.
  - discriminate R.
  - exists earlier, later. split; [exact E | exact H].
Defined.

Lemma flag_length existingItems before it :
  (List.length (flag existingItems before it) <= 1)%nat.
Proof.
  unfold flag. destruct (checkExistingDuplicate _ _); [cbn; lia|].
  destruct (existsb _ _); cbn; lia.
Qed.

Lemma kept_and_flagged existingItems (D : StringSet) items :
  forall before,
    (forall d, In d (flags existingItems before items) ->
               has (lower_sku (item d)) D = true) ->
    (List.length (filter (fun it => negb (has (lower_sku it) D)) items)
     + List.length (flags existingItems before items)
     <= List.length items)%nat.
Proof.
  induction items as [|it rest IH]; intros before H; [cbn; lia|].
  cbn [flags filter List.length]. rewrite length_app.
  assert (IH' := IH (before ++ [it])%list).
  assert (Hrest : forall d, In d (flags existingItems (before ++ [it]) rest) ->
                            has (lower_sku (item d)) D = true).
  { intros d Hd. apply H. cbn [flags]. apply in_or_app. now right. }
  specialize (IH' Hrest).
  destruct (flag existingItems before it) as [|d ds] eqn:F.
  - cbn [List.length]. destruct (negb _); cbn [List.length]; lia.
  - assert (Hd : has (lower_sku (item d)) D = true).
    { apply H. cbn [flags]. rewrite F. now left. }
    assert (item d = it) by
      (apply (flag_item existingItems before it); rewrite F; now left).
    subst it. rewrite Hd. cbn [negb].
    pose proof (flag_length existingItems before (item d)) as L.
    rewrite F in L. cbn [List.length] in *. lia.
Qed.

(** X9: the number on the Import button, the size of the preview less
    the number of duplicates, is never negative and never less than
    the number of items that the import hands over; when it is zero,
    which disables the button, there is nothing to import. *)
Theorem import_count_bounds_import (existingItems parsed : list Item) :
  let duplicates := handlePreview existingItems parsed in
  (0 <= import_count parsed duplicates)%Z
  /\ (Z.of_nat (List.length (itemsToImport parsed duplicates))
      <= import_count parsed duplicates)%Z
  /\ (import_count parsed duplicates = 0%Z ->
      handleImport parsed duplicates = None).
Proof.
  cbv zeta. set (duplicates := handlePreview existingItems parsed).
  assert (K : (List.length (itemsToImport parsed duplicates)
               + List.length duplicates <= List.length parsed)%nat).
  { unfold itemsToImport, duplicates. rewrite handlePreview_flags.
    apply (kept_and_flagged existingItems _ parsed []).
    intros d Hd. apply has_of_list. apply in_map_iff. now exists d. }
  unfold import_count. split; [lia|]. split; [lia|].
  intros Z0. unfold handleImport. destruct parsed as [|p ps]; [reflexivity|].
  destruct (itemsToImport (p :: ps) duplicates) eqn:E; [reflexivity|].
  exfalso. change (Datatypes.length (p :: ps)) with (S (Datatypes.length ps)) in *. cbn [Datatypes.length] in K. lia.
Qed.

Lemma first_copy (k : string) (items : list Item) :
  (exists b, In b items /\ lower_sku b = k) ->
  exists l1 b l2,
    items = (l1 ++ b :: l2)%list /\ lower_sku b = k
    /\ forall x, In x l1 -> lower_sku x <> k.
Proof.
  induction items as [|a rest IH]; intros (b & Hb & Eb); [destruct Hb|].
  destruct (string_dec (lower_sku a) k) as [E | N].
  - exists [], a, rest. repeat split; [exact E | intros x []].
  - destruct IH as (l1 & b' & l2 & -> & E' & Hl1).
    { destruct Hb as [<- | Hb]; [congruence | now exists b]. }
    exists (a :: l1), b', l2. repeat split; [exact E'|].
    intros x [<- | Hx]; [exact N | now apply Hl1].
Qed.

(** X10: when the preview has an entry marked as batch, the number on
    the Import button is greater than the number of items imported:
    the first copy of the repeated SKU is not counted as a duplicate,
    yet it is left out of the import with the others. *)
Theorem import_count_overstates_repeated_skus
    (existingItems parsed : list Item) (d : Dupe) :
  In d (handlePreview existingItems parsed) ->
  reason d = reason_batch ->
  (Z.of_nat (List.length
               (itemsToImport parsed (handlePreview existingItems parsed)))
   < import_count parsed (handlePreview existingItems parsed))%Z.
Proof.
  intros Hd Hr. pose proof Hd as Hd'. rewrite handlePreview_flags in Hd'.
  destruct (In_flags _ _ _ _ Hd') as (earlier & later & E & Hf).
  apply flag_cases in Hf. cbn [app] in Hf.
  destruct Hf as [_ [(e & R & _) | (_ & _ & Hnone & b & Hb & Eb)]];
    [congruence|]. clear Hd'.
  destruct (first_copy (lower_sku (item d)) parsed)
    as (l1 & b' & l2 & Ep & Eb' & Hl1).
  { exists b. split; [rewrite E; apply in_or_app; now left | exact Eb]. }
  set (duplicates := handlePreview existingItems parsed) in *.
  set (D := fold_right add (empty_set string)
              (map (fun d => toLowerCase (item_sku (item d))) duplicates)).
  assert (HD : forall d', In d' duplicates ->
                          has (lower_sku (item d')) D = true).
  { intros d' Hd'. apply has_of_list. apply in_map_iff. now exists d'. }
  assert (F : flag existingItems ([] ++ l1) b' = []).
  { destruct (flag existingItems ([] ++ l1) b') as [|x xs] eqn:F;
      [reflexivity|]. exfalso.
    assert (N : flag existingItems ([] ++ l1) b' <> [])
      by (rewrite F; discriminate).
    apply flag_iff in N. cbn [app] in N.
    destruct N as [(e & He & Ee) | (x0 & Hx0 & Ex0)].
    - apply (Hnone e He). congruence.
    - apply (Hl1 x0 Hx0). congruence. }
  assert (Hflags : duplicates
            = (flags existingItems [] l1
               ++ flags existingItems (([] ++ l1) ++ [b']) l2)%list).
  { unfold duplicates. rewrite handlePreview_flags, Ep, flags_app.
    cbn [flags]. now rewrite F. }
  assert (K1 := kept_and_flagged existingItems D l1 []).
  assert (K2 := kept_and_flagged existingItems D l2 (([] ++ l1) ++ [b'])).
  assert (Hkept : itemsToImport parsed duplicates
                  = (filter (fun it => negb (has (lower_sku it) D)) l1
                     ++ filter (fun it => negb (has (lower_sku it) D)) l2)%list).
  { unfold itemsToImport. fold D. rewrite Ep, filter_app. cbn [filter].
    fold (lower_sku b'). rewrite Eb', (HD d Hd). reflexivity. }
  pose proof (f_equal (@List.length Dupe) Hflags) as Hlen.
  rewrite length_app in Hlen.
  unfold import_count. rewrite Hkept, Hlen.
  rewrite Ep, !length_app. cbn [List.length].
  assert (L1 : forall d', In d' (flags existingItems [] l1) ->
                          has (lower_sku (item d')) D = true).
  { intros d' Hd'. apply HD. rewrite Hflags. apply in_or_app. now left. }
  assert (L2 : forall d', In d' (flags existingItems (([] ++ l1) ++ [b']) l2) ->
                          has (lower_sku (item d')) D = true).
  { intros d' Hd'. apply HD. rewrite Hflags. apply in_or_app. now right. }
  specialize (K1 L1). specialize (K2 L2). lia.
Qed.

Lemma import_count_overstates_repeated_skus_witness :
  import_count [entry "Cola" "ab12"; entry "Cola 2" "AB12"]
    (handlePreview [] [entry "Cola" "ab12"; entry "Cola 2" "AB12"]) = 1%Z
  /\ (Z.of_nat (List.length
                  (itemsToImport [entry "Cola" "ab12"; entry "Cola 2" "AB12"]
                     (handlePreview []
                        [entry "Cola" "ab12"; entry "Cola 2" "AB12"])))
      < import_count [entry "Cola" "ab12"; entry "Cola 2" "AB12"]
          (handlePreview [] [entry "Cola" "ab12"; entry "Cola 2" "AB12"]))%Z.
Proof.
  split; [reflexivity|].
  apply (import_count_overstates_repeated_skus []
           [entry "Cola" "ab12"; entry "Cola 2" "AB12"]
           {| item := entry "Cola 2" "AB12"; conflictsWith := None;
              reason := reason_batch |}).
  - cbn. now left.
  - reflexivity.
Defined.

(** X11: the dialog imports with the duplicates it stored when the
    batch was previewed.  The items it hands over are items of the
    batch, there is at least one, none has, up to letter case, the SKU
    of an item that was listed when the batch was previewed, and no
    two of them have the same SKU up to letter case.  Items listed
    since the preview are not compared. *)
Theorem import_is_free_of_duplicates
    (listedAtPreview parsed imported : list Item) :
  handleImport (stored_preview (previewed listedAtPreview parsed))
               (stored_duplicates (previewed listedAtPreview parsed))
  = Some imported ->
  imported <> []
  /\ (forall it, In it imported ->
        In it parsed
        /\ forall e, In e listedAtPreview -> lower_sku e <> lower_sku it)
  /\ NoDup (map lower_sku imported).
Proof.
  intros H. destruct parsed as [|p ps]; [discriminate H|].
  cbn [previewed stored_preview stored_duplicates] in H.
  unfold handleImport in H.
  destruct (itemsToImport (p :: ps) _) as [|x xs] eqn:E; [discriminate H|].
  injection H as <-. rewrite <- E. split; [rewrite E; discriminate|]. split.
  - intros it Hit. split.
    + apply itemsToImport_In in Hit. tauto.
    + intros e He.
      now apply (imported_not_existing listedAtPreview (p :: ps)).
  - apply imported_pairwise_distinct.
Qed.

Lemma import_is_free_of_duplicates_witness :
  NoDup (map lower_sku [entry "Tea" "t1"]).
Proof.
  apply (import_is_free_of_duplicates [entry "Cola" "ab12"]
           [entry "Cola 2" "AB12"; entry "Tea" "t1"] [entry "Tea" "t1"]).
  reflexivity.
Defined.

Section CatalogMore.
Variable groups : list Group.

Lemma allExistingItems_keep (custom news : list Item) (deleted : list string)
    (x : Item) :
  In x (allExistingItems groups
          {| customItems := custom; deletedItems := deleted |}) ->
  In x (allExistingItems groups
          {| customItems := (custom ++ news)%list; deletedItems := deleted |}).
Proof.
  rewrite !In_allExistingItems. cbn [customItems deletedItems].
  intros [[Hx Hd] | (group & Hg & [H | (E & y & Hy & Hdy & ->)])].
  - left. split; [apply in_or_app; now left | exact Hd].
  - right. exists group. split; [exact Hg | now left].
  - right. exists group. split; [exact Hg|]. right. split; [exact E|].
    exists y. split; [apply in_or_app; now left | now split].
Qed.

(** A custom item of a listed department is listed, up to its flag. *)
Lemma listed_custom_item (st : State) (y : Item) :
  In y (customItems st) ->
  dept_of y = "Custom_Items"
  \/ (exists group, In group groups /\ group_id group = dept_of y) ->
  exists x, In x (allExistingItems groups st)
            /\ item_sku x = item_sku y.
Proof.
  intros Hy Hd.
  destruct (String.eqb_spec (dept_of y) "Custom_Items") as [E | E].
  - exists y. split; [|reflexivity]. apply In_allExistingItems. now left.
  - destruct Hd as [Hd | (group & Hg & Eg)]; [contradiction|].
    exists (mark_custom y). split; [|reflexivity].
    apply In_allExistingItems. right. exists group. split; [exact Hg|].
    right. split; [congruence|]. exists y. now split.
Qed.


(** X13: once a new item has been saved under a department that the
    view lists, the form refuses every new item whose SKU is, up to
    letter case, the SKU of the saved one. *)
Theorem saved_item_blocks_its_sku
    (st : State) (formData : FormData) (now : string) (saved : Item)
    (formData' : FormData) (now' : string) :
  handleSubmit (allExistingItems groups st) None formData now = Some saved ->
  dept_of saved = "Custom_Items"
  \/ (exists group, In group groups /\ group_id group = dept_of saved) ->
  toLowerCase (sku formData') = toLowerCase (sku formData) ->
  handleSubmit (allExistingItems groups (handleSaveItem_new st saved)) None
    formData' now' = None.
Proof.
  intros Hs Hvis Esku.
  assert (Hd : data saved = formData).
  { unfold handleSubmit in Hs. destruct (validate _ _ _); [|discriminate Hs].
    now injection Hs as <-. }
  destruct (handleSubmit _ None formData' now') as [saved'|] eqn:Hs';
    [|reflexivity].
  exfalso. apply handleSubmit_new in Hs'. destruct Hs' as [Hd' Hfresh].
  assert (Hc : In (mark_custom saved)
                  (customItems (handleSaveItem_new st saved))).
  { unfold handleSaveItem_new. cbn [customItems]. apply in_or_app.
    right. now left. }
  destruct (listed_custom_item (handleSaveItem_new st saved)
              (mark_custom saved) Hc Hvis) as (x & Hx & Ex).
  apply (Hfresh x Hx). unfold lower_sku, item_sku in *.
  rewrite Ex, Hd'. cbn [mark_custom data]. rewrite Hd. now symmetry.
Qed.

Lemma filed_by_unlisted (custom news : list Item) (d : string) :
  (forall y, In y news -> dept_of y <> d) ->
  filed_by (custom ++ news) d = filed_by custom d.
Proof.
  intros H. unfold filed_by. rewrite filter_app.
  assert (E : filter (fun i => String.eqb (dept_of i) d) news = []).
  { induction news as [|y news IH]; [reflexivity|]. cbn [filter].
    destruct (String.eqb_spec (dept_of y) d) as [E | _].
    - now destruct (H y (or_introl eq_refl)).
    - apply IH. intros z Hz. apply H. now right. }
  now rewrite E, app_nil_r.
Qed.

(** X14: custom items filed under a department that is neither
    Custom_Items, nor a department of the catalog, nor a name that a
    plain object inherits, change nothing in what the view computes:
    they are shown in no group, and no duplicate check sees them.  A
    custom item filed under a name that a plain object inherits, such
    as constructor, makes the view throw. *)
Theorem unlisted_department_is_invisible
    (custom news : list Item) (deleted : list string) :
  ((forall y, In y news ->
       dept_of y <> "Custom_Items"
       /\ inherited (dept_of y) = false
       /\ forall group, In group groups -> group_id group <> dept_of y) ->
   render groups
     {| customItems := (custom ++ news)%list; deletedItems := deleted |}
   = render groups {| customItems := custom; deletedItems := deleted |})
  /\ ((exists y, In y news /\ inherited (dept_of y) = true) ->
      render groups
        {| customItems := (custom ++ news)%list; deletedItems := deleted |}
      = Throws).
Proof.
  split.
  - intros Hnews. rewrite !render_cases. unfold renders.
    cbn [customItems deletedItems]. rewrite forallb_app.
    assert (Hn : forallb (fun i => negb (inherited (dept_of i))) news = true).
    { apply forallb_forall. intros y Hy.
      destruct (Hnews y Hy) as (_ & -> & _). reflexivity. }
    rewrite Hn, andb_true_r.
    assert (Hcustom : filed_by (custom ++ news) "Custom_Items"
                      = filed_by custom "Custom_Items").
    { apply filed_by_unlisted. intros y Hy. now destruct (Hnews y Hy). }
    assert (Hall : allGroups groups
                     {| customItems := (custom ++ news)%list;
                        deletedItems := deleted |}
                   = allGroups groups
                       {| customItems := custom; deletedItems := deleted |}).
    { unfold allGroups. cbn [customItems deletedItems].
      now rewrite Hcustom. }
    assert (Hmerged : mergedGroups groups
                        {| customItems := (custom ++ news)%list;
                           deletedItems := deleted |}
                      = mergedGroups groups
                          {| customItems := custom; deletedItems := deleted |}).
    { unfold mergedGroups. rewrite Hall. apply map_ext_in.
      intros g Hg. cbn [customItems].
      destruct (String.eqb_spec (group_id g) "Custom_Items") as [E | E];
        [reflexivity|].
      rewrite filed_by_unlisted; [reflexivity|].
      intros y Hy Ey. apply In_allGroups in Hg.
      destruct Hg as [[_ ->] | (group & Hgroup & ->)];
        cbn [group_id] in *; [now apply E|].
      destruct (Hnews y Hy) as (_ & _ & N). now apply (N group Hgroup). }
    now rewrite Hmerged.
  - intros (y & Hy & Hi). rewrite render_cases. unfold renders.
    cbn [customItems]. rewrite forallb_app.
    assert (Hn : forallb (fun i => negb (inherited (dept_of i))) news = false).
    { destruct (forallb _ news) eqn:F; [|reflexivity].
      rewrite forallb_forall in F. specialize (F y Hy).
      rewrite Hi in F. discriminate F. }
    now rewrite Hn, andb_false_r.
Qed.

End CatalogMore.


Lemma saved_item_blocks_its_sku_witness :
  exists saved,
    handleSubmit (allExistingItems dairy_catalog untouched) None milk_form
      "1765000000000" = Some saved
    /\ handleSubmit
         (allExistingItems dairy_catalog (handleSaveItem_new untouched saved))
         None milk_form "1765000000001" = None.
Proof.
  eexists. split; [reflexivity|].
  apply (saved_item_blocks_its_sku dairy_catalog untouched milk_form
           "1765000000000" _ milk_form "1765000000001").
  - reflexivity.
  - left. reflexivity.
  - reflexivity.
Defined.

Lemma unlisted_department_is_invisible_witness :
  render dairy_catalog
    {| customItems := ([] ++ [entry_in "Dairy" "Organic Milk" "ab12"])%list;
       deletedItems := [] |}
  = render dairy_catalog {| customItems := []; deletedItems := [] |}
  /\ render dairy_catalog
       {| customItems := ([] ++ [entry_in "constructor" "Tea" "t1"])%list;
          deletedItems := [] |}
     = Throws.
Proof.
  split.
  - apply (unlisted_department_is_invisible dairy_catalog []
             [entry_in "Dairy" "Organic Milk" "ab12"] []).
    intros y [<- | []]. split; [discriminate|]. split; [reflexivity|].
    intros group [<- | []]. discriminate.
  - apply (unlisted_department_is_invisible dairy_catalog []
             [entry_in "constructor" "Tea" "t1"] []).
    exists (entry_in "constructor" "Tea" "t1"). split; [now left | reflexivity].
Defined.

End ImportFacts.

Module ViewFacts.
Import JS AddItemModal ImportModal ItemsView ItemsViewMore StringFacts
  DuplicateFacts.

Lemma includes_In (l : list string) (s : string) :
  includes l s = true <-> In s l.
Proof.
  unfold includes. rewrite existsb_exists. split.
  - intros (x & Hx & E). apply String.eqb_eq in E. now subst.
  - intros H. exists s. split; [exact H | apply String.eqb_refl].
Qed.

Lemma In_toggleFavorite (sku s : string) (prev : list string) :
  In s (toggleFavorite sku prev) <->
  (s = sku /\ ~ In sku prev) \/ (s <> sku /\ In s prev).
Proof.
  unfold toggleFavorite. destruct (includes prev sku) eqn:E.
  - apply includes_In in E. rewrite filter_In, negb_true_iff, String.eqb_neq.
    split; [intros [H N]; now right|].
    intros [[-> N] | [N H]]; [contradiction | now split].
  - assert (N : ~ In sku prev).
    { intros H. apply includes_In in H. congruence. }
    rewrite in_app_iff. cbn [In]. split.
    + intros [H | [<- | []]]; [|now left].
      right. split; [|exact H]. intros ->. contradiction.
    + intros [[-> _] | [_ H]]; [right; now left | now left].
Qed.

(** X15: the star of an item makes its SKU a favorite when it is none
    and no favorite when it is one, leaves every other SKU as it is,
    undoes itself when pressed twice, and never lists a SKU twice when
    none was listed twice before. *)
Theorem toggleFavorite_toggles (sku : string) (prev : list string) :
  (In sku (toggleFavorite sku prev) <-> ~ In sku prev)
  /\ (forall s, s <> sku -> (In s (toggleFavorite sku prev) <-> In s prev))
  /\ (forall s, In s (toggleFavorite sku (toggleFavorite sku prev))
                <-> In s prev)
  /\ (NoDup prev -> NoDup (toggleFavorite sku prev)).
Proof.
  repeat split.
  - rewrite In_toggleFavorite. intros [[_ N] | [N _]]; [exact N | congruence].
  - intros N. apply In_toggleFavorite. now left.
  - rewrite In_toggleFavorite. intros [[E _] | [_ H1]]; [contradiction | exact H1].
  - intros H1. apply In_toggleFavorite. now right.
  - rewrite !In_toggleFavorite.
    intros [[-> N] | [N [[E _] | [_ H1]]]]; [|contradiction | exact H1].
    destruct (in_dec string_dec sku prev) as [H1 | H1]; [exact H1|].
    exfalso. apply N. left. now split.
  - intros H1. rewrite !In_toggleFavorite.
    destruct (string_dec s sku) as [-> | N].
    + left. split; [reflexivity|]. intros [[_ N] | [N _]]; congruence.
    + right. split; [exact N|]. right. now split.
  - intros ND. unfold toggleFavorite. destruct (includes prev sku) eqn:E.
    + now apply NoDup_filter.
    + apply NoDup_app; [exact ND | repeat constructor; intros [] |].
      intros x Hx [<- | []]. apply includes_In in Hx. congruence.
Qed.

Lemma find_sku_None (sku : string) (prev : list Item) :
  find (fun i => String.eqb (item_sku i) sku) prev = None <->
  ~ In sku (map item_sku prev).
Proof.
  split.
  - intros H Hin. apply in_map_iff in Hin. destruct Hin as (i & E & Hi).
    pose proof (find_none _ _ H i Hi) as N. cbn in N.
    apply String.eqb_neq in N. contradiction.
  - intros H. destruct (find _ prev) as [i|] eqn:E; [|reflexivity].
    apply find_some in E. destruct E as [Hi E]. apply String.eqb_eq in E.
    exfalso. apply H. apply in_map_iff. now exists i.
Qed.

Lemma map_filter_sku (sku : string) (prev : list Item) :
  map item_sku (removeFromPrint sku prev)
  = filter (fun s => negb (String.eqb s sku)) (map item_sku prev).
Proof.
  unfold removeFromPrint. induction prev as [|i prev IH]; [reflexivity|].
  cbn [filter map]. destruct (negb _); cbn [map]; now rewrite IH.
Qed.

(** X16: a print queue that holds no SKU twice holds none twice after
    an item is added or a SKU removed; an added item's SKU is in the
    queue, a removed SKU is not, and removing the SKU of an item just
    added gives what removing it before would have given. *)
Theorem print_queue_holds_a_sku_once (item : Item) (sku : string)
    (prev : list Item) :
  NoDup (map item_sku prev) ->
  NoDup (map item_sku (addToPrint item prev))
  /\ NoDup (map item_sku (removeFromPrint sku prev))
  /\ In (item_sku item) (map item_sku (addToPrint item prev))
  /\ ~ In sku (map item_sku (removeFromPrint sku prev))
  /\ removeFromPrint (item_sku item) (addToPrint item prev)
     = removeFromPrint (item_sku item) prev.
Proof.
  intros ND. unfold addToPrint.
  destruct (find _ prev) as [i|] eqn:E.
  - repeat split.
    + exact ND.
    + rewrite map_filter_sku. now apply NoDup_filter.
    + apply find_some in E. destruct E as [Hi E]. apply String.eqb_eq in E.
      apply in_map_iff. now exists i.
    + rewrite map_filter_sku, filter_In, negb_true_iff, String.eqb_neq.
      now intros [_ N].
  - pose proof E as N. apply find_sku_None in N. repeat split.
    + rewrite map_app. apply NoDup_app; [exact ND | repeat constructor; intros [] |].
      intros x Hx [<- | []]. contradiction.
    + rewrite map_filter_sku. now apply NoDup_filter.
    + rewrite map_app, in_app_iff. right. now left.
    + rewrite map_filter_sku, filter_In, negb_true_iff, String.eqb_neq.
      now intros [_ N'].
    + unfold removeFromPrint. rewrite filter_app. cbn [filter].
      rewrite String.eqb_refl. cbn [negb]. apply app_nil_r.
Qed.

Lemma print_queue_holds_a_sku_once_witness :
  removeFromPrint "t1" (addToPrint (entry "Tea" "t1") [entry "Cola" "ab12"])
  = removeFromPrint "t1" [entry "Cola" "ab12"].
Proof.
  destruct (print_queue_holds_a_sku_once (entry "Tea" "t1") "ab12"
              [entry "Cola" "ab12"]) as (_ & _ & _ & _ & H).
  - constructor; [intros [] | constructor].
  - exact H.
Defined.

Lemma toLowerCase_app (a b : string) :
  toLowerCase (a ++ b) = toLowerCase a ++ toLowerCase b.
Proof.
  induction a as [|c a IH]; [reflexivity|]. cbn. now rewrite IH.
Qed.

Lemma prefix_iff (t s : string) :
  prefix t s = true <-> exists after, s = t ++ after.
Proof.
  revert s. induction t as [|c t IH]; intros s.
  - destruct s; cbn; (split; [intros _; eexists; reflexivity | reflexivity]).
  - destruct s as [|d s]; cbn.
    + split; [discriminate | intros (after & E); discriminate E].
    + destruct (ascii_dec c d) as [<- | N].
      * rewrite IH. split; intros (after & E); exists after;
          [now rewrite E | now injection E].
      * split; [discriminate|]. intros (after & E). injection E as E _.
        congruence.
Qed.

(** [s.includes(t)] holds exactly when [t] occurs in [s]. *)
Lemma str_includes_iff (s t : string) :
  str_includes s t = true <->
  exists before after, s = before ++ t ++ after.
Proof.
  induction s as [|c s IH].
  - cbn [str_includes]. rewrite orb_false_r, prefix_iff. split.
    + intros (after & E). now exists "", after.
    + intros (before & after & E). exists after.
      destruct before; [exact E | discriminate E].
  - cbn [str_includes]. rewrite orb_true_iff, prefix_iff, IH. split.
    + intros [(after & E) | (before & after & E)].
      * now exists "", after.
      * exists (String c before), after. cbn. now rewrite E.
    + intros (before & after & E). destruct before as [|d before].
      * left. now exists after.
      * right. injection E as _ E. now exists before, after.
Qed.

Section CatalogView.
Variable groups : list Group.

Lemma In_filteredGroups st term only favorites (x : Item) :
  (exists g, In g (filteredGroups groups st term only favorites)
             /\ In x (group_items g)) <->
  In x (allExistingItems groups st)
  /\ matchesSearch term x = true
  /\ (negb only || includes favorites (item_sku x) = true).
Proof.
  unfold filteredGroups, allExistingItems. rewrite in_flat_map. split.
  - intros (g & Hg & Hx). apply filter_In in Hg. destruct Hg as [Hg _].
    apply in_map_iff in Hg. destruct Hg as (g0 & <- & Hg0).
    cbn [group_items] in Hx. apply filter_In in Hx.
    destruct Hx as [Hx M]. apply andb_true_iff in M.
    split; [now exists g0 | exact M].
  - intros ((g0 & Hg0 & Hx) & M1 & M2).
    eexists. split.
    + apply filter_In. split; [apply in_map_iff; exists g0; split;
                                 [reflexivity | exact Hg0]|].
      cbn [group_items].
      assert (Hin : In x (filter (fun item =>
                 matchesSearch term item
                 && (negb only || includes favorites (item_sku item)))
                 (group_items g0))).
      { apply filter_In. split; [exact Hx|]. now rewrite M1, M2. }
      destruct (filter _ (group_items g0)); [destruct Hin | reflexivity].
    + cbn [group_items]. apply filter_In. split; [exact Hx|].
      now rewrite M1, M2.
Qed.

(** X17: an item is shown under the search term exactly when the view
    lists it, the term occurs in its name or in its SKU when letter
    case is ignored (the empty term occurs everywhere), and, with the
    favorites filter on, its SKU is a favorite. *)
Theorem search_is_a_case_blind_substring_match
    (st : State) (searchTerm : string) (showFavoritesOnly : bool)
    (favorites : list string) (x : Item) :
  (exists g, In g (filteredGroups groups st searchTerm showFavoritesOnly
                     favorites)
             /\ In x (group_items g)) <->
  In x (allExistingItems groups st)
  /\ (exists before after,
        toLowerCase (item_name x) = before ++ toLowerCase searchTerm ++ after
        \/ toLowerCase (item_sku x) = before ++ toLowerCase searchTerm ++ after)
  /\ (showFavoritesOnly = true -> In (item_sku x) favorites).
Proof.
  rewrite In_filteredGroups. unfold matchesSearch.
  rewrite !orb_true_iff, !str_includes_iff, includes_In, negb_true_iff.
  split; intros (Hx & M & F); (split; [exact Hx|]); split.
  - destruct M as [(b & a & E) | (b & a & E)]; exists b, a; tauto.
  - intros ->. destruct F as [F | F]; [discriminate F | exact F].
  - destruct M as (b & a & [E | E]); [left | right]; now exists b, a.
  - destruct showFavoritesOnly; [right; now apply F | now left].
Qed.

(** No department is shown without an item. *)
Lemma filteredGroups_nonempty st term only favorites g :
  In g (filteredGroups groups st term only favorites) ->
  group_items g <> [].
Proof.
  unfold filteredGroups. rewrite filter_In. intros [_ H] E.
  rewrite E in H. discriminate H.
Qed.

(** X18: deleting a catalog item takes from the list of existing items
    the catalog items with its SKU and nothing else: no item appears,
    every item with another SKU stays, and when no custom item has
    the SKU, no listed item has it afterwards. *)
Theorem deleting_a_catalog_item_hides_its_sku
    (st : State) (deleteItem x : Item) :
  isCustom deleteItem = false ->
  let st' := handleDeleteItem st deleteItem false in
  (In x (allExistingItems groups st') ->
   In x (allExistingItems groups st))
  /\ (In x (allExistingItems groups st) ->
      item_sku x <> item_sku deleteItem ->
      In x (allExistingItems groups st'))
  /\ ((forall y, In y (customItems st) ->
                 item_sku y <> item_sku deleteItem) ->
      In x (allExistingItems groups st') ->
      item_sku x <> item_sku deleteItem).
Proof.
  intros Hc. cbv zeta. unfold handleDeleteItem. rewrite Hc. cbn [orb].
  rewrite !In_allExistingItems. cbn [customItems deletedItems].
  assert (Hinc : forall s,
            includes (deletedItems st ++ [item_sku deleteItem]) s = false
            <-> includes (deletedItems st) s = false
                /\ s <> item_sku deleteItem).
  { intros s. unfold includes. rewrite existsb_app. cbn [existsb].
    rewrite orb_false_r, orb_false_iff, String.eqb_neq. tauto. }
  repeat split.
  - intros [H | (group & Hg & [[H D] | H])].
    + now left.
    + right. exists group. split; [exact Hg|]. left. split; [exact H|].
      now apply Hinc in D.
    + right. exists group. split; [exact Hg | now right].
  - intros [H | (group & Hg & [[H D] | H])] N.
    + now left.
    + right. exists group. split; [exact Hg|]. left. split; [exact H|].
      now apply Hinc.
    + right. exists group. split; [exact Hg | now right].
  - intros Hcust [[H _] | (group & Hg & [[H D] | (_ & y & Hy & _ & ->)])].
    + now apply Hcust.
    + now apply Hinc in D.
    + now apply (Hcust y).
Qed.

Lemma same_id_refl (a : option string) : same_id a a = true.
Proof. destruct a; [apply String.eqb_refl | reflexivity]. Qed.

(** X19: when no catalog item is marked as custom, deleting a listed
    item that is marked as custom removes it from the list of existing
    items; no item appears, and every item with another id stays. *)
Theorem deleting_a_custom_item_removes_it
    (st : State) (deleteItem : Item) (isEdited : bool) :
  (forall group y, In group groups -> In y (group_items group) ->
                   isCustom y = false) ->
  isCustom deleteItem = true ->
  let st' := handleDeleteItem st deleteItem isEdited in
  ~ In deleteItem (allExistingItems groups st')
  /\ (forall z, In z (allExistingItems groups st') ->
                In z (allExistingItems groups st))
  /\ (forall z, In z (allExistingItems groups st) ->
                id z <> id deleteItem ->
                In z (allExistingItems groups st')).
Proof.
  intros Hcat Hc. cbv zeta. unfold handleDeleteItem. rewrite Hc. cbn [orb].
  repeat split.
  - rewrite In_allExistingItems. cbn [customItems deletedItems].
    intros [[H _] | (group & Hg & [[H _] | (_ & y & Hy & _ & E)])].
    + apply filter_In in H. destruct H as [_ H].
      now rewrite same_id_refl in H.
    + rewrite (Hcat group deleteItem Hg H) in Hc. discriminate Hc.
    + apply filter_In in Hy. destruct Hy as [_ Hy].
      rewrite E in Hy. cbn [mark_custom id] in Hy.
      now rewrite same_id_refl in Hy.
  - intros z. rewrite !In_allExistingItems. cbn [customItems deletedItems].
    intros [[H D] | (group & Hg & [H | (N & y & Hy & Ey & ->)])].
    + left. apply filter_In in H. tauto.
    + right. exists group. split; [exact Hg | now left].
    + right. exists group. split; [exact Hg|]. right. split; [exact N|].
      exists y. apply filter_In in Hy. tauto.
  - intros z. rewrite !In_allExistingItems. cbn [customItems deletedItems].
    assert (S : forall a, a <> id deleteItem ->
                          negb (same_id a (id deleteItem)) = true).
    { intros a Na. apply negb_true_iff.
      destruct a as [a|], (id deleteItem) as [b|]; cbn; try reflexivity;
        try congruence.
      apply String.eqb_neq. congruence. }
    intros [[H D] | (group & Hg & [H | (N & y & Hy & Ey & ->)])] Nid.
    + left. split; [|exact D]. apply filter_In. split; [exact H|].
      now apply S.
    + right. exists group. split; [exact Hg | now left].
    + right. exists group. split; [exact Hg|]. right. split; [exact N|].
      exists y. split; [|now split]. apply filter_In. split; [exact Hy|].
      now apply S.
Qed.

(** X20: a custom item that is edited and saved under Custom_Items is
    stored as the form built it, without the mark of a custom item;
    it is listed, and deleting it leaves it listed: its SKU goes to
    the deleted catalog SKUs, the custom items stay as they are. *)
Theorem edited_custom_item_survives_delete
    (st : State) (editItem saved : Item) (formData : FormData)
    (now : string) :
  In editItem (customItems st) ->
  (exists i, id editItem = Some i /\ i <> "") ->
  handleSubmit (allExistingItems groups st) (Some editItem) formData now
  = Some saved ->
  dept_of saved = "Custom_Items" ->
  exists st1,
    handleSaveItem_edit st saved = Some st1
    /\ In saved (allExistingItems groups st1)
    /\ isCustom saved = false
    /\ In saved (allExistingItems groups (handleDeleteItem st1 saved false)).
Proof.
  intros Hin (i & Ei & Ni) Hs Hd.
  unfold handleSubmit in Hs. destruct (validate _ _ _); [|discriminate Hs].
  rewrite Ei in Hs. apply truthy_true in Ni. rewrite Ni in Hs.
  injection Hs as <-. unfold handleSaveItem_edit. cbn [id].
  set (saved := {| id := Some i; data := formData;
                   gs1String := _; gs1Display := _; isCustom := false |}) in *.
  destruct (find _ (customItems st)) as [found|] eqn:F.
  2:{ exfalso. pose proof (find_none _ _ F editItem Hin) as N. cbn in N.
      rewrite Ei in N. cbn in N. now rewrite String.eqb_refl in N. }
  eexists. split; [reflexivity|].
  assert (Hsaved : In saved
            (map (fun i0 => if same_id (id i0) (Some i) then saved else i0)
                 (customItems st))).
  { apply in_map_iff. exists editItem. split; [|exact Hin].
    rewrite Ei. cbn. now rewrite String.eqb_refl. }
  repeat split.
  - apply In_allExistingItems. left. now split.
  - unfold handleDeleteItem. cbn [isCustom saved orb].
    apply In_allExistingItems. left. now split.
Qed.

End CatalogView.

Lemma deleting_a_catalog_item_hides_its_sku_witness :
  ~ In (entry_in "" "Whole Milk" "4011")
       (allExistingItems dairy_catalog
          (handleDeleteItem untouched (entry_in "" "Whole Milk" "4011")
             false)).
Proof.
  intros H.
  destruct (deleting_a_catalog_item_hides_its_sku dairy_catalog untouched
              (entry_in "" "Whole Milk" "4011")
              (entry_in "" "Whole Milk" "4011") eq_refl) as (_ & _ & H3).
  apply H3; [intros y [] | exact H | reflexivity].
Defined.

Lemma deleting_a_custom_item_removes_it_witness :
  ~ In (mark_custom stored_milk)
       (allExistingItems dairy_catalog
          (handleDeleteItem
             {| customItems := [stored_milk]; deletedItems := [] |}
             (mark_custom stored_milk) false)).
Proof.
  destruct (deleting_a_custom_item_removes_it dairy_catalog
              {| customItems := [stored_milk]; deletedItems := [] |}
              (mark_custom stored_milk) false) as (H & _).
  - intros group y [<- | []] [<- | []]. reflexivity.
  - reflexivity.
  - exact H.
Defined.

Lemma edited_custom_item_survives_delete_witness :
  exists saved st1,
    handleSubmit
      (allExistingItems dairy_catalog
         {| customItems := [stored_milk]; deletedItems := [] |})
      (Some stored_milk) milk_form "1765000000001" = Some saved
    /\ handleSaveItem_edit
         {| customItems := [stored_milk]; deletedItems := [] |} saved
       = Some st1
    /\ In saved
         (allExistingItems dairy_catalog (handleDeleteItem st1 saved false)).
Proof.
  destruct (edited_custom_item_survives_delete dairy_catalog
              {| customItems := [stored_milk]; deletedItems := [] |}
              stored_milk
              {| id := Some "1765000000000"; data := milk_form;
                 gs1String := Some (buildGs1String milk_form);
                 gs1Display := Some (buildGs1String milk_form);
                 isCustom := false |}
              milk_form "1765000000001")
    as (st1 & E & _ & _ & H).
  - now left.
  - exists "1765000000000". split; [reflexivity | discriminate].
  - reflexivity.
  - reflexivity.
  - eexists. exists st1. split; [reflexivity|]. split; [exact E | exact H].
Defined.

End ViewFacts.

Module CsvFacts.
Import JS AddItemModal ImportModal CsvImport StringFacts DuplicateFacts.

Lemma trim_end_cons (c : ascii) (r : string) :
  trim_end (String c r)
  = match trim_end r with
    | EmptyString => if is_space c then EmptyString else String c EmptyString
    | r' => String c r'
    end.
Proof. reflexivity. Qed.

Lemma trim_end_idempotent (s : string) : trim_end (trim_end s) = trim_end s.
Proof.
  induction s as [|c r IH]; [reflexivity|]. rewrite trim_end_cons.
  destruct (trim_end r) as [|d r'] eqn:E.
  - destruct (is_space c) eqn:S; [reflexivity|]. cbn. now rewrite S.
  - rewrite trim_end_cons, IH. reflexivity.
Qed.

Lemma trim_end_head (c : ascii) (r : string) :
  trim_end (String c r) = ""
  \/ exists r', trim_end (String c r) = String c r'.
Proof.
  cbn [trim_end]. destruct (trim_end r).
  - destruct (is_space c); [now left | right; now eexists].
  - right. now eexists.
Qed.

Lemma skip_spaces_head (s : string) :
  skip_spaces s = ""
  \/ exists c r, skip_spaces s = String c r /\ is_space c = false.
Proof.
  induction s as [|c r IH]; [now left|]. cbn.
  destruct (is_space c) eqn:S; [exact IH|]. right. now exists c, r.
Qed.

Lemma trim_idempotent (s : string) : trim (trim s) = trim s.
Proof.
  unfold trim. destruct (skip_spaces_head s) as [-> | (c & r & -> & S)];
    [reflexivity|].
  destruct (trim_end_head c r) as [-> | (r' & E)]; [reflexivity|].
  rewrite E. cbn [skip_spaces]. rewrite S. rewrite <- E.
  apply trim_end_idempotent.
Qed.

Lemma length_trim_end (s : string) :
  (String.length (trim_end s) <= String.length s)%nat.
Proof.
  induction s as [|c r IH]; [cbn; lia|]. cbn [trim_end].
  destruct (trim_end r); [destruct (is_space c)|]; cbn in *; lia.
Qed.

Lemma length_skip_spaces (s : string) :
  (String.length (skip_spaces s) <= String.length s)%nat.
Proof.
  induction s as [|c r IH]; [cbn; lia|]. cbn [skip_spaces].
  destruct (is_space c); cbn in *; lia.
Qed.

(** A non-empty string that [trim] leaves alone has no white space at
    either end. *)
Lemma trim_fixed (s : string) :
  trim s = s -> s <> "" -> skip_spaces s = s /\ trim_end s = s.
Proof.
  destruct s as [|c r]; [congruence|]. intros E _. unfold trim in E.
  cbn [skip_spaces] in *. destruct (is_space c) eqn:S.
  - exfalso. pose proof (length_trim_end (skip_spaces r)) as L1.
    pose proof (length_skip_spaces r) as L2. rewrite E in L1. cbn in L1. lia.
  - now split.
Qed.

Lemma trim_end_app (x b : string) :
  trim_end b = b -> b <> "" -> trim_end (x ++ b) = x ++ b.
Proof.
  intros E N. induction x as [|c x IH]; [exact E|].
  cbn [append trim_end]. rewrite IH.
  destruct (x ++ b) eqn:A; [|reflexivity].
  destruct x; [cbn in A; congruence | discriminate A].
Qed.

Lemma skip_spaces_app (a x : string) :
  skip_spaces a = a -> a <> "" -> skip_spaces (a ++ x) = a ++ x.
Proof.
  destruct a as [|c r]; [congruence|]. intros E _. cbn in *.
  destruct (is_space c) eqn:S; [|reflexivity].
  exfalso. pose proof (length_skip_spaces r) as L. rewrite E in L.
  cbn in L. lia.
Qed.

Lemma trim_between (a m b : string) :
  trim a = a -> a <> "" -> trim b = b -> b <> "" ->
  trim (a ++ m ++ b) = a ++ m ++ b.
Proof.
  intros Ea Na Eb Nb.
  destruct (trim_fixed a Ea Na) as [Sa _].
  destruct (trim_fixed b Eb Nb) as [_ Tb].
  unfold trim. rewrite (skip_spaces_app a (m ++ b) Sa Na).
  rewrite <- append_assoc. now apply trim_end_app.
Qed.

Lemma split_free (sep : ascii) (s : string) :
  free_of sep s -> split sep s = [s].
Proof.
  unfold free_of. induction s as [|c r IH]; [reflexivity|].
  cbn. intros H. apply andb_true_iff in H. destruct H as [N H].
  apply negb_true_iff in N. rewrite N, (IH H). reflexivity.
Qed.

Lemma split_app (sep : ascii) (a b : string) :
  free_of sep a -> split sep (a ++ String sep b) = a :: split sep b.
Proof.
  unfold free_of. induction a as [|c r IH].
  - intros _. cbn. now rewrite Ascii.eqb_refl.
  - cbn. intros H. apply andb_true_iff in H. destruct H as [N H].
    apply negb_true_iff in N. rewrite N, (IH H). reflexivity.
Qed.

Lemma split_unlines (l : string) (lines : list string) :
  (forall x, In x (l :: lines) -> free_of newline x) ->
  split newline (unlines (l :: lines)) = l :: lines.
Proof.
  revert l. induction lines as [|l' rest IH]; intros l H.
  - cbn [unlines]. apply split_free. apply H. now left.
  - change (unlines (l :: l' :: rest))
      with (l ++ String newline (unlines (l' :: rest))).
    rewrite split_app by (apply H; now left).
    rewrite IH; [reflexivity|]. intros x Hx. apply H. now right.
Qed.

Lemma clean_inv (f : string) :
  clean f = true ->
  f <> "" /\ trim f = f /\ free_of comma f /\ free_of newline f.
Proof.
  unfold clean, free_of. rewrite !andb_true_iff, String.eqb_eq, truthy_true.
  intros [[N T] F]. repeat split; auto.
  - rewrite forallb_forall in *. intros c Hc. specialize (F c Hc).
    now apply andb_true_iff in F.
  - rewrite forallb_forall in *. intros c Hc. specialize (F c Hc).
    now apply andb_true_iff in F.
Qed.

Lemma free_of_app (sep : ascii) (a b : string) :
  free_of sep a -> free_of sep b -> free_of sep (a ++ b).
Proof.
  unfold free_of. induction a as [|c r IH]; [auto|]. cbn.
  rewrite !andb_true_iff. intros [N H] Hb. split; [exact N | now apply IH].
Qed.

Lemma unlines_cons (l : string) (lines : list string) :
  exists rest, unlines (l :: lines) = l ++ rest.
Proof.
  destruct lines as [|l' rest].
  - exists "". cbn. now rewrite append_nil_r.
  - now exists (String newline (unlines (l' :: rest))).
Qed.

Lemma trim_end_unlines (l : string) (lines : list string) :
  (forall x, In x (l :: lines) -> trim_end x = x /\ x <> "") ->
  trim_end (unlines (l :: lines)) = unlines (l :: lines)
  /\ unlines (l :: lines) <> "".
Proof.
  revert l. induction lines as [|l' rest IH]; intros l H.
  - apply H. now left.
  - change (unlines (l :: l' :: rest))
      with (l ++ String newline (unlines (l' :: rest))).
    destruct (IH l') as [E N]; [intros x Hx; apply H; now right|].
    change (String newline (unlines (l' :: rest)))
      with (String newline "" ++ unlines (l' :: rest)).
    rewrite <- append_assoc. split; [now apply trim_end_app|].
    destruct (unlines (l' :: rest)); [congruence|].
    destruct l; discriminate.
Qed.

Lemma trim_unlines (l : string) (lines : list string) :
  (forall x, In x (l :: lines) -> trim x = x /\ x <> "") ->
  trim (unlines (l :: lines)) = unlines (l :: lines).
Proof.
  intros H. unfold trim.
  destruct (H l (or_introl eq_refl)) as [El Nl].
  destruct (trim_fixed l El Nl) as [Sl _].
  destruct (unlines_cons l lines) as (rest & E).
  rewrite E at 1. rewrite (skip_spaces_app l rest Sl Nl), <- E.
  apply trim_end_unlines. intros x Hx. destruct (H x Hx) as [Ex Nx].
  split; [now apply trim_fixed | exact Nx].
Qed.

Lemma mapi_from_In {A B : Type} (f : nat -> A -> B) (l : list A) :
  forall i y, In y (mapi_from f i l) -> exists j a, In a l /\ y = f j a.
Proof.
  induction l as [|a r IH]; intros i y; [intros []|].
  cbn. intros [<- | H]; [exists i, a; auto|].
  destruct (IH _ _ H) as (j & b & Hb & ->). exists j, b. auto.
Qed.

Lemma value_at_trimmed (cells : list string) (idx : nat) :
  value_at (map trim cells) idx "" <> "" ->
  trim (value_at (map trim cells) idx "") = value_at (map trim cells) idx "".
Proof.
  unfold value_at, or_else.
  destruct (truthy (nth idx (map trim cells) "")) eqn:T; [|congruence].
  intros _. destruct (Nat.lt_ge_cases idx (List.length cells)) as [L | L].
  - rewrite (nth_indep _ "" (trim "")) by now rewrite length_map.
    rewrite map_nth. apply trim_idempotent.
  - rewrite nth_overflow in T by now rewrite length_map. discriminate T.
Qed.

Lemma or_else_nonempty (a b : string) : b <> "" -> or_else a b <> "".
Proof.
  unfold or_else. destruct (truthy a) eqn:T; [|auto].
  intros _. now apply truthy_true.
Qed.

(** X21: every item that the CSV reader returns has a name and a SKU
    that are not empty and have no white space at either end, a unit
    and a department that are not empty, the barcode type 1D and no
    GS1 string; of the checks of the form it can fail only the one on
    the length of the SKU, which the reader does not make. *)
Theorem parseCSV_items_are_filled_in
    (fresh_id : nat -> string) (text : string) (items : list Item)
    (it : Item) :
  parseCSV fresh_id text = Items items ->
  In it items ->
  item_name it <> "" /\ trim (item_name it) = item_name it
  /\ item_sku it <> "" /\ trim (item_sku it) = item_sku it
  /\ uom (data it) <> "" /\ department (data it) <> ""
  /\ barcodeType (data it) = "1D"
  /\ gs1String it = None
  /\ validate_errors [] None (data it)
     = {| name_error := None;
          sku_error := if (50 <? String.length (item_sku it))%nat
                       then Some "SKU must be 50 characters or less"
                       else None |}.
Proof.
  unfold parseCSV.
  destruct (List.length (split newline (trim text)) <? 2)%nat;
    [discriminate|].
  destruct (findIndex _ _) as [nameIdx|]; [|discriminate].
  destruct (findIndex _ _) as [skuIdx|]; [|discriminate].
  intros E Hin. injection E as <-.
  apply filter_In in Hin. destruct Hin as [Hin T].
  apply andb_true_iff in T. destruct T as [Tn Ts].
  apply truthy_true in Tn. apply truthy_true in Ts.
  apply mapi_from_In in Hin. destruct Hin as (j & line & _ & ->).
  cbv zeta in *. unfold item_name, item_sku in *.
  cbn [csv_item data name sku uom department barcodeType gs1String] in *.
  pose proof (value_at_trimmed _ _ Tn) as En.
  pose proof (value_at_trimmed _ _ Ts) as Es.
  assert (U : forall (o : option nat) d, d <> "" ->
            (match o with
             | Some i => value_at (map trim (split comma line)) i d
             | None => d
             end) <> "").
  { intros [i|] d Hd; [now apply or_else_nonempty | exact Hd]. }
  repeat split; auto; try (apply U; discriminate).
  unfold validate_errors. cbn [name sku checkDuplicate].
  rewrite En, Es.
  destruct (truthy (value_at (map trim (split comma line)) nameIdx ""))
    eqn:T1; [|apply truthy_true in Tn; congruence].
  destruct (truthy (value_at (map trim (split comma line)) skuIdx ""))
    eqn:T2; [|apply truthy_true in Ts; congruence].
  cbn [negb]. unfold checkDuplicate. rewrite T2. cbn. reflexivity.
Qed.

Lemma parseCSV_items_are_filled_in_witness :
  item_name (csv_item "id0" "Milk" "ab12" "EA" "Custom_Items") <> "".
Proof.
  destruct (parseCSV_items_are_filled_in (fun _ => "id0")
              (unlines ["Name, SKU"; " Milk , ab12 "])
              [csv_item "id0" "Milk" "ab12" "EA" "Custom_Items"]
              (csv_item "id0" "Milk" "ab12" "EA" "Custom_Items"))
    as (H & _).
  - reflexivity.
  - now left.
  - exact H.
Defined.


Lemma row_line_shape (a b : string) :
  clean a = true -> clean b = true ->
  trim (row_line (a, b)) = row_line (a, b)
  /\ row_line (a, b) <> ""
  /\ free_of newline (row_line (a, b))
  /\ map trim (split comma (row_line (a, b))) = [a; b].
Proof.
  intros Ca Cb. apply clean_inv in Ca, Cb.
  destruct Ca as (Na & Ta & Fa & La), Cb as (Nb & Tb & Fb & Lb).
  unfold row_line. cbn [fst snd]. repeat split.
  - change (String comma b) with (String comma "" ++ b).
    now apply trim_between.
  - destruct a; [congruence | discriminate].
  - apply free_of_app; [exact La|]. unfold free_of in *. cbn.
    now rewrite Lb.
  - rewrite split_app by exact Fa. rewrite split_free by exact Fb.
    cbn [map]. now rewrite Ta, Tb.
Qed.

Lemma headers_found (hn hs : string) :
  In hn ["name"; "item name"; "itemname"] ->
  In hs ["sku"; "barcode"; "upc"] ->
  findIndex (is_one_of ["name"; "item name"; "itemname"]) [hn; hs] = Some 0%nat
  /\ findIndex (is_one_of ["sku"; "barcode"; "upc"]) [hn; hs] = Some 1%nat
  /\ findIndex (is_one_of ["uom"; "unit"]) [hn; hs] = None
  /\ findIndex (is_one_of ["department"; "dept"; "category"]) [hn; hs] = None.
Proof.
  intros [<- | [<- | [<- | []]]] [<- | [<- | [<- | []]]];
    repeat split; reflexivity.
Qed.

Lemma rows_read_back (fresh_id : nat -> string) (rows : list (string * string)) :
  (forall r, In r rows -> clean (fst r) = true /\ clean (snd r) = true) ->
  forall i,
    filter (fun item => truthy (item_name item) && truthy (item_sku item))
      (mapi_from
         (fun i line =>
            let values := map trim (split comma line) in
            csv_item (fresh_id i) (value_at values 0 "") (value_at values 1 "")
              "EA" "Custom_Items")
         i (filter (fun line => truthy (trim line)) (map row_line rows)))
    = mapi_from
        (fun i r => csv_item (fresh_id i) (fst r) (snd r) "EA" "Custom_Items")
        i rows.
Proof.
  induction rows as [|[a b] rows IH]; intros H i; [reflexivity|].
  destruct (H (a, b) (or_introl eq_refl)) as [Ca Cb]. cbn [fst snd] in *.
  destruct (row_line_shape a b Ca Cb) as (T & N & _ & V).
  apply clean_inv in Ca, Cb. destruct Ca as (Na & _), Cb as (Nb & _).
  cbn [map filter]. rewrite T.
  apply truthy_true in N. rewrite N.
  cbn [mapi_from]. cbv zeta. rewrite V.
  unfold value_at. cbn [nth]. unfold or_else.
  destruct a; [congruence|]. destruct b; [congruence|].
  cbn [truthy filter item_name item_sku csv_item data name sku andb fst snd].
  f_equal. apply IH. intros r Hr. apply H. now right.
Qed.

(** A file of two columns reads back as its rows. *)
Lemma parseCSV_two_columns (fresh_id : nat -> string)
    (nameHeader skuHeader : string) (rows : list (string * string)) :
  clean nameHeader = true -> clean skuHeader = true ->
  In (toLowerCase nameHeader) ["name"; "item name"; "itemname"] ->
  In (toLowerCase skuHeader) ["sku"; "barcode"; "upc"] ->
  rows <> [] ->
  (forall r, In r rows -> clean (fst r) = true /\ clean (snd r) = true) ->
  parseCSV fresh_id
    (unlines (row_line (nameHeader, skuHeader) :: map row_line rows))
  = Items
      (mapi_from
         (fun i r => csv_item (fresh_id i) (fst r) (snd r) "EA" "Custom_Items")
         0 rows).
Proof.
  intros Cn Cs Hn Hs Hrows Hclean.
  destruct (row_line_shape _ _ Cn Cs) as (Th & Nh & Lh & Vh).
  assert (Hlines : forall x,
            In x (row_line (nameHeader, skuHeader) :: map row_line rows) ->
            (trim x = x /\ x <> "") /\ free_of newline x).
  { intros x [<- | Hx]; [tauto|].
    apply in_map_iff in Hx. destruct Hx as ([a b] & <- & Hr).
    destruct (Hclean _ Hr) as [Ca Cb].
    destruct (row_line_shape a b Ca Cb) as (T & N & L & _). tauto. }
  unfold parseCSV.
  rewrite trim_unlines by (intros x Hx; now apply Hlines).
  rewrite split_unlines by (intros x Hx; now apply Hlines).
  cbn [hd tl List.length].
  destruct rows as [|r rows]; [congruence|]. cbn [map List.length Nat.ltb Nat.leb].
  change (map (fun h => toLowerCase (trim h))
              (split comma (row_line (nameHeader, skuHeader))))
    with (map (fun h => toLowerCase (trim h))
              (split comma (row_line (nameHeader, skuHeader)))).
  rewrite <- (map_map trim toLowerCase), Vh. cbn [map].
  destruct (headers_found _ _ Hn Hs) as (F1 & F2 & F3 & F4).
  rewrite F1, F2, F3, F4. f_equal.
  apply (rows_read_back fresh_id (r :: rows) Hclean 0%nat).
Qed.

(** X22: a file whose header names a name column and a SKU column,
    under any of the names the reader knows and in any letter case,
    and whose rows hold two fields that are not empty, have no comma,
    no newline and no white space at either end, is previewed without
    an error as exactly its rows, in their order, each with the unit
    EA and the department Custom_Items, and is checked for duplicates
    against the existing items. *)
Theorem csv_preview_reads_the_rows_back
    (fresh_id : nat -> string) (existingItems : list Item)
    (nameHeader skuHeader : string) (rows : list (string * string)) :
  clean nameHeader = true -> clean skuHeader = true ->
  In (toLowerCase nameHeader) ["name"; "item name"; "itemname"] ->
  In (toLowerCase skuHeader) ["sku"; "barcode"; "upc"] ->
  rows <> [] ->
  (forall r, In r rows -> clean (fst r) = true /\ clean (snd r) = true) ->
  let items :=
    mapi_from
      (fun i r => csv_item (fresh_id i) (fst r) (snd r) "EA" "Custom_Items")
      0 rows in
  handlePreview_csv fresh_id existingItems
    (unlines (row_line (nameHeader, skuHeader) :: map row_line rows))
  = {| error := ""; preview := items;
       duplicates := handlePreview existingItems items |}.
Proof.
  intros Cn Cs Hn Hs Hrows Hclean. cbv zeta. unfold handlePreview_csv.
  rewrite (parseCSV_two_columns fresh_id _ _ rows Cn Cs Hn Hs Hrows Hclean).
  destruct rows as [|r rows]; [congruence | reflexivity].
Qed.

Lemma csv_preview_reads_the_rows_back_witness :
  preview (handlePreview_csv (fun _ => "id0") []
             (unlines (row_line ("Item Name", "UPC")
                       :: map row_line [("Milk", "ab12"); ("Tea", "t1")])))
  = [csv_item "id0" "Milk" "ab12" "EA" "Custom_Items";
     csv_item "id0" "Tea" "t1" "EA" "Custom_Items"].
Proof.
  rewrite (csv_preview_reads_the_rows_back (fun _ => "id0") []
             "Item Name" "UPC" [("Milk", "ab12"); ("Tea", "t1")]).
  - reflexivity.
  - reflexivity.
  - reflexivity.
  - cbn. tauto.
  - cbn. tauto.
  - discriminate.
  - intros r [<- | [<- | []]]; split; reflexivity.
Defined.

(** X23: a SKU of more than 50 characters, which the form refuses,
    is taken by the import: the file of one such row is previewed
    without an error and its item is handed over. *)
Theorem import_takes_a_sku_the_form_refuses
    (fresh_id : nat -> string) (itemName itemSku now : string) :
  clean itemName = true -> clean itemSku = true ->
  (50 < String.length itemSku)%nat ->
  let p := handlePreview_csv fresh_id []
             (unlines ["name,sku"; row_line (itemName, itemSku)]) in
  let read := csv_item (fresh_id 0%nat) itemName itemSku "EA" "Custom_Items" in
  error p = ""
  /\ handleImport (preview p) (duplicates p) = Some [read]
  /\ handleSubmit [] None (data read) now = None.
Proof.
  intros Cn Cs L. cbv zeta. unfold handlePreview_csv.
  change "name,sku" with (row_line ("name", "sku")).
  change [row_line (itemName, itemSku)] with (map row_line [(itemName, itemSku)]).
  rewrite (parseCSV_two_columns fresh_id "name" "sku" [(itemName, itemSku)]);
    try reflexivity; try (cbn; tauto); try discriminate.
  2:{ intros r [<- | []]. now split. }
  cbn [mapi_from fst snd error preview duplicates].
  split; [reflexivity|]. split.
  - unfold handlePreview, handleImport, itemsToImport. cbn.
    unfold checkExistingDuplicate. cbn. reflexivity.
  - unfold handleSubmit, validate, validate_errors.
    cbn [csv_item data sku name]. apply Nat.ltb_lt in L. rewrite L.
    destruct (checkDuplicate _ _ _); destruct (negb _); reflexivity.
Qed.

Lemma import_takes_a_sku_the_form_refuses_witness :
  handleSubmit [] None
    (data (csv_item "id0" "Milk" long_sku "EA" "Custom_Items"))
    "1765000000000"
  = None.
Proof.
  destruct (import_takes_a_sku_the_form_refuses (fun _ => "id0") "Milk"
              long_sku "1765000000000") as (_ & _ & H).
  - reflexivity.
  - reflexivity.
  - cbn. lia.
  - exact H.
Defined.

End CsvFacts.
